(** * Nextcloud Talk bot (app.py): a shallow embedding and its properties

    The development follows [app.py]: the HMAC check of inbound webhooks
    ([verify_signature]), the conversation memory ([add_to_history],
    [add_key_fact], [truncate_message]), the completion-intent detector
    ([detect_completion_intent]), the task completion procedure
    ([complete_task], [move_card_to_done]) and the webhook handler
    ([handle_webhook]).

    Representation of data.
    - A Python [str] is the Rocq [string] of its UTF-8 bytes.  Concatenation,
      equality, [in] (substring test), [startswith] and [str.encode()] are
      exact on that representation.  [str.lower()] and [str.strip()] are
      modelled on the ASCII range (letters A-Z, the ASCII white space
      characters); [len] and slices count characters of the [string], which
      are the code points of an ASCII text.  Where a property of a message
      text depends on one of these, it is stated for a text of ASCII
      characters ([PyStr.is_ascii]), on which they are those of Python.
    - The two process-wide dictionaries [conversation_history] and
      [key_facts] are finite maps from the conversation token.
    - Everything outside the process (the task database, the Deck and Talk
      HTTP interfaces, the Claude subprocess, the clock, [json.loads]) is
      read from an environment record; what the handler does to the outside
      is recorded as a list of events, in program order. *)

From Stdlib Require Import ZArith List String Ascii Bool Lia.
From stdpp Require Import base option list gmap strings pretty.
Import ListNotations.

Local Open Scope string_scope.
Local Open Scope list_scope.
Local Open Scope Z_scope.

(** ** Python strings *)

Module PyStr.

Definition code (c : ascii) : Z := Z.of_N (N_of_ascii c).

(** [c.lower()] for one character of the ASCII range. *)
Definition lower_char (c : ascii) : ascii :=
  if (65 <=? code c) && (code c <=? 90)
  then ascii_of_N (N_of_ascii c + 32)
  else c.

(** [c.upper()] for one character of the ASCII range. *)
Definition upper_char (c : ascii) : ascii :=
  if (97 <=? code c) && (code c <=? 122)
  then ascii_of_N (N_of_ascii c - 32)
  else c.

Fixpoint lower (s : string) : string :=
  match s with
  | EmptyString => EmptyString
  | String c r => String (lower_char c) (lower r)
  end.

Fixpoint upper (s : string) : string :=
  match s with
  | EmptyString => EmptyString
  | String c r => String (upper_char c) (upper r)
  end.

(** [str.isspace] on the ASCII range: TAB, LF, VT, FF, CR, FS, GS, RS, US
    and the space. *)
Definition is_space (c : ascii) : bool :=
  ((9 <=? code c) && (code c <=? 13)) || ((28 <=? code c) && (code c <=? 32)).

Fixpoint lstrip (s : string) : string :=
  match s with
  | EmptyString => EmptyString
  | String c r => if is_space c then lstrip r else s
  end.

(** Dropping the trailing white space: a character is kept when something
    is kept after it or when it is not white space itself. *)
Fixpoint rstrip (s : string) : string :=
  match s with
  | EmptyString => EmptyString
  | String c r =>
      match rstrip r with
      | EmptyString => if is_space c then EmptyString else String c EmptyString
      | r' => String c r'
      end
  end.

Definition strip (s : string) : string := rstrip (lstrip s).

(** [s.startswith(p)]. *)
Fixpoint startswith (p s : string) : bool :=
  match p, s with
  | EmptyString, _ => true
  | String a p', String b s' => if Ascii.eqb a b then startswith p' s' else false
  | String _ _, EmptyString => false
  end.

(** [p in s]. *)
Fixpoint contains (p s : string) : bool :=
  startswith p s ||
  match s with
  | EmptyString => false
  | String _ r => contains p r
  end.

(** [s[n:]] and [s[:n]] for a count [n] of characters. *)
Fixpoint drop (n : nat) (s : string) : string :=
  match n, s with
  | O, _ => s
  | S _, EmptyString => EmptyString
  | S k, String _ r => drop k r
  end.

Fixpoint take (n : nat) (s : string) : string :=
  match n, s with
  | O, _ => EmptyString
  | S _, EmptyString => EmptyString
  | S k, String c r => String c (take k r)
  end.

Definition len (s : string) : Z := Z.of_nat (String.length s).

(** A Python slice bound [i] is clipped to [0..len]; a negative bound
    counts from the end. *)
Definition clip (i : Z) (s : string) : nat :=
  Z.to_nat (Z.min (len s) (if i <? 0 then Z.max 0 (len s + i) else i)).

(** [s[:i]] *)
Definition slice_to (i : Z) (s : string) : string := take (clip i s) s.

(** [s[i:]] *)
Definition slice_from (i : Z) (s : string) : string := drop (clip i s) s.

(** [s.isascii()] *)
Fixpoint is_ascii (s : string) : bool :=
  match s with
  | EmptyString => true
  | String c r => (code c <? 128) && is_ascii r
  end.

(** [s.encode()]: the bytes of the text. *)
Fixpoint encode (s : string) : list Z :=
  match s with
  | EmptyString => []
  | String c r => code c :: encode r
  end.

(** Python truth value of a string. *)
Definition truthy (s : string) : bool :=
  match s with EmptyString => false | _ => true end.

End PyStr.

(** ** SHA-256 and HMAC (hashlib.sha256, hmac.new), after FIPS 180-4 and RFC 2104 *)

Module Sha256.

Definition wrap32 (x : Z) : Z := x mod 2 ^ 32.
Definition add32 (x y : Z) : Z := wrap32 (x + y).
Definition rotr (n x : Z) : Z :=
  Z.lor (Z.shiftr x n) (wrap32 (Z.shiftl x (32 - n))).
Definition not32 (x : Z) : Z := Z.lxor x 0xffffffff.

Definition ch (x y z : Z) : Z := Z.lxor (Z.land x y) (Z.land (not32 x) z).
Definition maj (x y z : Z) : Z :=
  Z.lxor (Z.lxor (Z.land x y) (Z.land x z)) (Z.land y z).
Definition bsig0 (x : Z) : Z := Z.lxor (Z.lxor (rotr 2 x) (rotr 13 x)) (rotr 22 x).
Definition bsig1 (x : Z) : Z := Z.lxor (Z.lxor (rotr 6 x) (rotr 11 x)) (rotr 25 x).
Definition ssig0 (x : Z) : Z := Z.lxor (Z.lxor (rotr 7 x) (rotr 18 x)) (Z.shiftr x 3).
Definition ssig1 (x : Z) : Z := Z.lxor (Z.lxor (rotr 17 x) (rotr 19 x)) (Z.shiftr x 10).

(** The constants of FIPS 180-4: the first 32 bits of the fractional parts of
    the cube roots (for the rounds) and of the square roots (for the initial
    hash value) of the first prime numbers. *)
Definition primes : list Z :=
  [ 2; 3; 5; 7; 11; 13; 17; 19; 23; 29; 31; 37; 41; 43; 47; 53; 59; 61; 67; 71;
    73; 79; 83; 89; 97; 101; 103; 107; 109; 113; 127; 131; 137; 139; 149; 151;
    157; 163; 167; 173; 179; 181; 191; 193; 197; 199; 211; 223; 227; 229; 233;
    239; 241; 251; 257; 263; 269; 271; 277; 281; 283; 293; 307; 311 ].

(** The integer cube root, one bit after the other from [bits - 1] down. *)
Fixpoint cube_root (bits : nat) (n r : Z) : Z :=
  match bits with
  | O => r
  | S b =>
      let c := r + 2 ^ Z.of_nat b in
      cube_root b n (if c * c * c <=? n then c else r)
  end.

Definition frac_cube_root (p : Z) : Z := wrap32 (cube_root 36 (p * 2 ^ 96) 0).
Definition frac_square_root (p : Z) : Z := wrap32 (Z.sqrt (p * 2 ^ 64)).

Definition round_constants : list Z :=
  Eval vm_compute in map frac_cube_root primes.

Definition initial_hash : list Z :=
  Eval vm_compute in map frac_square_root (firstn 8 primes).

(** The padded message: the byte 0x80, zero bytes up to 56 modulo 64, and
    the bit length on 8 bytes, most significant first. *)
Definition be_bytes (count : nat) (x : Z) : list Z :=
  map (fun i => Z.shiftr x (8 * Z.of_nat (count - 1 - i)) mod 256) (seq 0 count).

Definition pad (msg : list Z) : list Z :=
  let n := Z.of_nat (length msg) in
  let zeros := Z.to_nat ((55 - n) mod 64) in
  msg ++ [0x80] ++ repeat 0 zeros ++ be_bytes 8 (8 * n).

(** Big-endian words of a byte list (four bytes a word). *)
Fixpoint words (fuel : nat) (bs : list Z) : list Z :=
  match fuel, bs with
  | S k, b0 :: b1 :: b2 :: b3 :: r =>
      (Z.shiftl b0 24 + Z.shiftl b1 16 + Z.shiftl b2 8 + b3) :: words k r
  | _, _ => []
  end.

(** The message schedule: the sixteen words of the block, then
    W[t] = ssig1 W[t-2] + W[t-7] + ssig0 W[t-15] + W[t-16].  The schedule is
    kept most recent first. *)
Fixpoint extend (count : nat) (recent : list Z) : list Z :=
  match count with
  | O => recent
  | S k =>
      let w := add32 (add32 (ssig1 (nth 1 recent 0)) (nth 6 recent 0))
                     (add32 (ssig0 (nth 14 recent 0)) (nth 15 recent 0)) in
      extend k (w :: recent)
  end.

Definition schedule (block : list Z) : list Z :=
  rev (extend 48 (rev (words 16 block))).

Record regs := Regs { ra : Z; rb : Z; rc : Z; rd : Z; re : Z; rf : Z; rg : Z; rh : Z }.

Definition round (r : regs) (kw : Z * Z) : regs :=
  let t1 := add32 (add32 (add32 (rh r) (bsig1 (re r))) (ch (re r) (rf r) (rg r)))
                  (add32 (fst kw) (snd kw)) in
  let t2 := add32 (bsig0 (ra r)) (maj (ra r) (rb r) (rc r)) in
  Regs (add32 t1 t2) (ra r) (rb r) (rc r) (add32 (rd r) t1) (re r) (rf r) (rg r).

Definition regs_of (h : list Z) : regs :=
  Regs (nth 0 h 0) (nth 1 h 0) (nth 2 h 0) (nth 3 h 0)
       (nth 4 h 0) (nth 5 h 0) (nth 6 h 0) (nth 7 h 0).

Definition compress (h : list Z) (block : list Z) : list Z :=
  let r0 := regs_of h in
  let r := fold_left round (combine round_constants (schedule block)) r0 in
  [ add32 (ra r0) (ra r); add32 (rb r0) (rb r); add32 (rc r0) (rc r);
    add32 (rd r0) (rd r); add32 (re r0) (re r); add32 (rf r0) (rf r);
    add32 (rg r0) (rg r); add32 (rh r0) (rh r) ].

Fixpoint blocks (fuel : nat) (h : list Z) (bs : list Z) : list Z :=
  match fuel, bs with
  | S k, _ :: _ => blocks k (compress h (firstn 64 bs)) (skipn 64 bs)
  | _, _ => h
  end.

(** [hashlib.sha256(msg).digest()] as 32 bytes. *)
Definition digest (msg : list Z) : list Z :=
  let p := pad msg in
  flat_map (be_bytes 4) (blocks (length p) initial_hash p).

Definition block_size : nat := 64.

(** [hmac.new(key, msg, hashlib.sha256).digest()]. *)
Definition hmac (key msg : list Z) : list Z :=
  let k0 := if (block_size <? length key)%nat then digest key else key in
  let k := k0 ++ repeat 0 (block_size - length k0) in
  let ipad := map (Z.lxor 0x36) k in
  let opad := map (Z.lxor 0x5c) k in
  digest (opad ++ digest (ipad ++ msg)).

(** One hexadecimal digit, lower case as [hexdigest] prints it. *)
Definition hex_digit (n : Z) : ascii :=
  match n mod 16 with
  | 0 => "0" | 1 => "1" | 2 => "2" | 3 => "3" | 4 => "4" | 5 => "5"
  | 6 => "6" | 7 => "7" | 8 => "8" | 9 => "9" | 10 => "a" | 11 => "b"
  | 12 => "c" | 13 => "d" | 14 => "e" | _ => "f"
  end%char.

Fixpoint hex (bs : list Z) : string :=
  match bs with
  | [] => EmptyString
  | b :: r => String (hex_digit (b / 16)) (String (hex_digit b) (hex r))
  end.

(** [hashlib.sha256(s.encode()).hexdigest()] *)
Definition sha256_hexdigest (s : string) : string := hex (digest (PyStr.encode s)).

(** [hmac.new(key.encode(), msg.encode(), hashlib.sha256).hexdigest()] *)
Definition hmac_hexdigest (key msg : string) : string :=
  hex (hmac (PyStr.encode key) (PyStr.encode msg)).

End Sha256.

(** ** Exceptions *)

(** The Python exceptions that the modelled code can raise. *)
Inductive exn : Type :=
| TypeError
| AttributeError.

Inductive result (A : Type) : Type :=
| Ok (a : A)
| Raise (e : exn).
Arguments Ok {A} a.
Arguments Raise {A} e.

Definition bind {A B : Type} (r : result A) (k : A -> result B) : result B :=
  match r with
  | Ok a => k a
  | Raise e => Raise e
  end.

Notation "'let*' x ':=' r 'in' k" := (bind r (fun x => k))
  (at level 10, x name, r at level 100, k at level 200).

(** ** Signature verification *)

(** [hmac.compare_digest(a, b)] on two [str].  The library takes "either str
    (ASCII only, as e.g. returned by HMAC.hexdigest()), or a bytes-like
    object": on a [str] with a character outside ASCII it raises [TypeError]
    (comparing strings with non-ASCII characters is not supported). *)
Definition compare_digest (a b : string) : result bool :=
  if PyStr.is_ascii a && PyStr.is_ascii b
  then Ok (String.eqb a b)
  else Raise TypeError.

Definition verify_signature (secret random_header body signature : string)
  : result bool :=
  if negb (PyStr.truthy secret) then Ok false
  else
    let expected := Sha256.hmac_hexdigest secret (random_header ++ body)%string in
    compare_digest (PyStr.lower expected) (PyStr.lower signature).

(** ** Conversation memory *)

Definition MAX_HISTORY_MESSAGES : nat := 50.
Definition MAX_MESSAGE_LENGTH_IN_HISTORY : Z := 500.

(** One entry of [conversation_history[token]]. *)
Record message : Type := Message {
  role : string;
  name : string;
  content : string;
  timestamp : string
}.

(** [l[-n:]]: the last [n] elements, all of [l] when it is shorter; [l[-0:]]
    is the whole list. *)
Definition last_n {A : Type} (n : nat) (l : list A) : list A :=
  match n with
  | O => l
  | _ => drop (length l - n) l
  end.
Arguments last_n : simpl never.

(** [add_to_history(token, role, name, content)].  [now] is the value of
    [datetime.now().isoformat()] read by the call. *)
Definition add_to_history (now : string) (token role name content : string)
    (conversation_history : gmap string (list message))
  : gmap string (list message) :=
  let h0 :=
    match conversation_history !! token with
    | None => <[token := []]> conversation_history
    | Some _ => conversation_history
    end in
  let appended := default [] (h0 !! token) ++ [Message role name content now] in
  let h1 := <[token := appended]> h0 in
  if (MAX_HISTORY_MESSAGES * 2 <? length appended)%nat
  then <[token := last_n (MAX_HISTORY_MESSAGES * 2) appended]> h1
  else h1.

(** [add_key_fact(token, fact)]: the new dictionary and the returned flag. *)
Definition add_key_fact (token fact : string) (key_facts : gmap string (list string))
  : gmap string (list string) * bool :=
  let k0 :=
    match key_facts !! token with
    | None => <[token := []]> key_facts
    | Some _ => key_facts
    end in
  let facts := default [] (k0 !! token) in
  if bool_decide (fact ∈ facts) then (k0, false)
  else
    let appended := facts ++ [fact] in
    let k1 := <[token := appended]> k0 in
    if (20 <? length appended)%nat
    then (<[token := last_n 20 appended]> k1, true)
    else (k1, true).

(** [get_key_facts(token)] *)
Definition get_key_facts (token : string) (key_facts : gmap string (list string))
  : list string :=
  default [] (key_facts !! token).

Definition newline : string := String (ascii_of_nat 10) EmptyString.
Definition dquote : string := String (ascii_of_nat 34) EmptyString.

Definition elision_marker : string :=
  (newline ++ "...[ingekort]..." ++ newline)%string.

(** [truncate_message(content, max_length)] *)
Definition truncate_message (content : string) (max_length : Z) : string :=
  if PyStr.len content <=? max_length then content
  else
    let half := (max_length - 20) / 2 in
    (PyStr.slice_to half content ++ elision_marker
       ++ PyStr.slice_from (- half) content)%string.

(** ** Completion intent *)

Inductive intent : Type :=
| confirm
| complete.

Definition explicit_phrases : list string :=
  [ "taak afronden"; "taak afsluiten"; "taak voltooien";
    "sluit de taak"; "rond de taak af"; "voltooi de taak";
    "markeer als klaar"; "markeer als voltooid"; "markeer als afgerond";
    "zet op klaar"; "zet op done"; "naar klaar verplaatsen";
    "taak is klaar"; "taak is af"; "taak voltooid";
    "dit is klaar"; "alles is klaar"; "alles afgerond";
    "we zijn klaar"; "ik ben klaar"; "klaar met de taak" ].

Definition confirm_phrases : list string :=
  [ "kunnen we afronden"; "kunnen we afsluiten";
    "mag de taak dicht"; "taak dicht"; "afronden?";
    "is de taak klaar"; "ben je klaar"; "zijn we klaar";
    "kan dit dicht"; "sluiten we af" ].

(** The loop [for phrase in phrases: if phrase in text: return verdict],
    continued by [rest] when no phrase is found. *)
Fixpoint scan_phrases (phrases : list string) (text : string)
    (verdict : intent) (rest : option intent) : option intent :=
  match phrases with
  | [] => rest
  | phrase :: more =>
      if PyStr.contains phrase text then Some verdict
      else scan_phrases more text verdict rest
  end.

(** [detect_completion_intent(message)] *)
Definition detect_completion_intent (message : string) : option intent :=
  let message_lower := PyStr.strip (PyStr.lower message) in
  scan_phrases explicit_phrases message_lower complete
    (scan_phrases confirm_phrases message_lower confirm None).

(** [get_history_context] and the handler come after the model of the
    outside world. *)

(** ** JSON values, as [json.loads] builds them *)

Local Set Warnings "-register-all".

Inductive json : Type :=
| JNull
| JBool (b : bool)
| JNum (n : Z)
| JStr (s : string)
| JList (l : list json)
| JDict (d : list (string * json)).

Fixpoint dict_get (key : string) (d : list (string * json)) : option json :=
  match d with
  | [] => None
  | (k, v) :: r => if String.eqb k key then Some v else dict_get key r
  end.

(** [x.get(key, dflt)]: only a dictionary has the method. *)
Definition py_get (x : json) (key : string) (dflt : json) : result json :=
  match x with
  | JDict d => Ok (default dflt (dict_get key d))
  | _ => Raise AttributeError
  end.

(** Python truth value. *)
Definition json_truthy (x : json) : bool :=
  match x with
  | JNull => false
  | JBool b => b
  | JNum n => negb (n =? 0)
  | JStr s => PyStr.truthy s
  | JList l => match l with [] => false | _ => true end
  | JDict d => match d with [] => false | _ => true end
  end.

(** [s.split('/')[-1]]: what follows the last slash. *)
Fixpoint last_segment (s : string) : string :=
  match s with
  | EmptyString => EmptyString
  | String c r =>
      if PyStr.contains "/" r then last_segment r
      else if Ascii.eqb c "/" then r
      else s
  end.

(** [v.split('/')[-1] if v else None] *)
Definition id_tail (v : json) : result (option string) :=
  if json_truthy v then
    match v with
    | JStr s => Ok (Some (last_segment s))
    | _ => Raise AttributeError
    end
  else Ok None.

Definition is_digit (c : ascii) : bool :=
  (48 <=? PyStr.code c) && (PyStr.code c <=? 57).

Fixpoint all_digits (s : string) : bool :=
  match s with
  | EmptyString => true
  | String c r => is_digit c && all_digits r
  end.

(** [s.isdigit()] on a text of ASCII characters. *)
Definition isdigit (s : string) : bool := PyStr.truthy s && all_digits s.

Fixpoint decimal (acc : Z) (s : string) : Z :=
  match s with
  | EmptyString => acc
  | String c r => decimal (10 * acc + (PyStr.code c - 48)) r
  end.

(** The digits of an [int] literal, with single underscores between digits. *)
Fixpoint digits_value (acc : Z) (after_digit : bool) (s : string) : option Z :=
  match s with
  | EmptyString => if after_digit then Some acc else None
  | String c r =>
      if is_digit c then digits_value (10 * acc + (PyStr.code c - 48)) true r
      else if Ascii.eqb c "_" && after_digit then digits_value acc false r
      else None
  end.

(** The number of decimal digits in a text. *)
Fixpoint count_digits (s : string) : nat :=
  match s with
  | EmptyString => O
  | String c r => ((if is_digit c then 1 else 0) + count_digits r)%nat
  end.

(** The limit of CPython (from 3.11 on) on the digits of a text that [int]
    converts, [sys.get_int_max_str_digits()]. *)
Definition MAX_STR_DIGITS : nat := 4300.

(** [int(s)] for a stripped text of ASCII characters; [None] stands for
    [ValueError], which is also raised for a text of more than 4300 digits. *)
Definition py_int (s : string) : option Z :=
  if (MAX_STR_DIGITS <? count_digits s)%nat then None
  else
    match s with
    | String "-" r => option_map Z.opp (digits_value 0 false r)
    | String "+" r => digits_value 0 false r
    | _ => digits_value 0 false s
    end.

(** [s.capitalize()] *)
Definition capitalize (s : string) : string :=
  match s with
  | EmptyString => EmptyString
  | String c r => String (PyStr.upper_char c) (PyStr.lower r)
  end.

(** ** The outside world *)

(** One entry of [BOTS]. *)
Record bot_config : Type := BotConfig {
  secret : string;
  erpnext_user : string;
  config_dir : string;
  working_dir : string;
  nextcloud_user : string;
  nextcloud_password : string
}.

(** One row of the table [task_bots]. *)
Record task_bot : Type := TaskBot {
  board_id : Z;
  stack_id : Z;
  card_id : Z;
  card_title : string;
  status : string;
  created_at : string;
  completed_at : option string
}.

(** One stack of a Deck board, as the stacks request lists it. *)
Record stack : Type := Stack {
  stack_ident : Z;
  stack_title : string
}.

(** The answer to an HTTP request: an exception of the [requests] call (or of
    decoding its answer), or a status code with its payload. *)
Inductive http (A : Type) : Type :=
| HttpRaised
| HttpAnswer (status_code : Z) (payload : A).
Arguments HttpRaised {A}.
Arguments HttpAnswer {A} status_code payload.

(** What [extract_file_info] returns for a message with a file. *)
Record file_info : Type := FileInfo {
  fi_url : string;
  fi_name : option string;
  fi_type : string
}.

(** The commands of the handler, in the order in which it tests them. *)
Inductive command : Type :=
| CmdReset | CmdHistory | CmdWhoami | CmdRemember | CmdFacts | CmdForget
| CmdTask | CmdBoards | CmdHelp | CmdShare | CmdUpload | CmdZoek | CmdVind
| CmdPreview | CmdDone | CmdStatus | CmdTranscribe
| NoCommand.

(** What the handler does to the outside, in program order. *)
Inductive event : Type :=
| SendMessage (bot_secret token text : string) (reply_to : option Z)
| GetStacks (board : Z)
| ReorderCard (board current_stack card done_stack : Z)
| Sleep (seconds : Z)
| CloseConversation (token nc_user nc_password : string)
| CommentOnCard (board current_stack card : Z) (text : string)
| CallClaude (prompt wdir cdir bot_user erp_user : string) (task_context : option task_bot)
| Download (url : string)
| Transcribe (path : string).

(** What one request reads from the outside. *)
Record env : Type := Env {
  (** [json.loads]; [None] stands for [json.JSONDecodeError] *)
  json_loads : string -> option json;
  (** [str(x)] of a JSON value that is not a string *)
  str_of : json -> string;
  (** [datetime.now().isoformat()] at the n-th reading of the request *)
  now : nat -> string;
  (** [dt.strftime] of a stored timestamp, empty when it does not parse *)
  format_timestamp : string -> string;
  (** whether the Talk server answers 201 to the message with this text *)
  send_ok : string -> bool;
  (** whether the task database exists and can be read *)
  db_readable : bool;
  (** whether the UPDATE of [complete_task] and its commit go through *)
  db_update_ok : bool;
  (** SQLite's [datetime("now")] *)
  sql_now : string;
  (** the stacks of a board *)
  deck_stacks : Z -> http (list stack);
  (** the answer to the reorder request: board, stack, card, target stack *)
  deck_reorder : Z -> Z -> Z -> Z -> http unit;
  (** [extract_file_info(data, message_parameters)] *)
  extract_file_info : json -> json -> option file_info;
  (** [download_nextcloud_file]: the local path *)
  download_nextcloud_file : string -> option string;
  (** [transcribe_audio] *)
  transcribe_audio : string -> option string;
  (** the text that [call_claude] returns for a prompt *)
  call_claude : string -> option task_bot -> string;
  (** what a command that works on Nextcloud files, Deck boards or audio does
      to the outside for a message text, and then whether its last reply was
      delivered, or the exception that leaves its branch (as the
      [AttributeError] of [/preview] and [/share] when the share returns
      nothing); these commands touch neither dictionary nor the task table *)
  service : command -> string -> list event * result bool;
  (** the help text, with or without a task *)
  help_text : option task_bot -> string;
  (** the text of [/status] for a task *)
  status_text : task_bot -> string
}.

(** The state that outlives a request: the two dictionaries of the process
    and the table [task_bots] of the task database. *)
Record world : Type := World {
  conversation_history : gmap string (list message);
  key_facts : gmap string (list string);
  task_bots : gmap string task_bot
}.

Definition set_history (h : gmap string (list message)) (w : world) : world :=
  World h (key_facts w) (task_bots w).

Definition set_key_facts (k : gmap string (list string)) (w : world) : world :=
  World (conversation_history w) k (task_bots w).

Definition set_task_bots (t : gmap string task_bot) (w : world) : world :=
  World (conversation_history w) (key_facts w) t.

(** The HTTP answer of the handler, or the exception that leaves it. *)
Inductive outcome : Type :=
| Response (status_code : Z) (key value : string)
| Uncaught (e : exn).

Record handled : Type := Handled {
  after : world;
  trace : list event;
  answer : outcome
}.

(** ** Reading and completing a task *)

(** [get_task_bot_by_token(token)] *)
Definition get_task_bot_by_token (e : env) (w : world) (token : string)
  : option task_bot :=
  if db_readable e then task_bots w !! token else None.

Definition is_done_title (st : stack) : bool :=
  let title := PyStr.lower (stack_title st) in
  PyStr.contains "klaar" title || PyStr.contains "done" title
  || PyStr.contains "afgerond" title.

(** [move_card_to_done(board_id, current_stack_id, card_id)]: the requests it
    makes and the flag it returns. *)
Definition move_card_to_done (bots : gmap string bot_config) (e : env)
    (board current_stack card : Z) : list event * bool :=
  match bots !! "maarten" with
  | None => ([], false)
  | Some _ =>
      match deck_stacks e board with
      | HttpRaised => ([GetStacks board], false)
      | HttpAnswer code stacks =>
          if negb (code =? 200) then ([GetStacks board], false)
          else
            match List.find is_done_title stacks with
            | None => ([GetStacks board], false)
            | Some done_stack =>
                let target := stack_ident done_stack in
                ([GetStacks board; ReorderCard board current_stack card target],
                 match deck_reorder e board current_stack card target with
                 | HttpRaised => false
                 | HttpAnswer move_code _ => move_code =? 200
                 end)
            end
      end
  end.

Definition mark_completed (at_time : string) (t : task_bot) : task_bot :=
  TaskBot (board_id t) (stack_id t) (card_id t) (card_title t)
          "completed" (created_at t) (Some at_time).

(** [complete_task(token, bot_config, task_bot)]: the database after it, the
    requests of [move_card_to_done] and the returned flag. *)
Definition complete_task (bots : gmap string bot_config) (e : env)
    (token : string) (cfg : bot_config) (t : task_bot) (w : world)
  : world * list event * bool :=
  if db_update_ok e then
    let w' := set_task_bots (alter (mark_completed (sql_now e)) token (task_bots w)) w in
    let moved := move_card_to_done bots e (board_id t) (stack_id t) (card_id t) in
    (w', fst moved, true)
  else (w, [], false).

(** ** Rendering the context *)

Fixpoint join (sep : string) (lines : list string) : string :=
  match lines with
  | [] => EmptyString
  | [l] => l
  | l :: r => (l ++ sep ++ join sep r)%string
  end.

(** The lines [f"{i}. {fact}"] of [enumerate(facts, i)]. *)
Fixpoint numbered (i : nat) (facts : list string) : list string :=
  match facts with
  | [] => []
  | fact :: r => (pretty i ++ ". " ++ fact)%string :: numbered (S i) r
  end.

(** [parse_message_content(content)] *)
Definition parse_message_content (e : env) (content : string) : json :=
  if negb (PyStr.truthy content) then JStr EmptyString
  else
    match json_loads e content with
    | Some (JDict d) =>
        match dict_get "message" d with
        | Some v => v
        | None => JStr content
        end
    | _ => JStr content
    end.

(** [truncate_message] applied to what [parse_message_content] returned, and
    the text that the f-string prints for it. *)
Definition render_content (e : env) (v : json) : result string :=
  match v with
  | JStr s => Ok (truncate_message s MAX_MESSAGE_LENGTH_IN_HISTORY)
  | JList l =>
      if Z.of_nat (length l) <=? MAX_MESSAGE_LENGTH_IN_HISTORY
      then Ok (str_of e v) else Raise TypeError
  | JDict d =>
      if Z.of_nat (length d) <=? MAX_MESSAGE_LENGTH_IN_HISTORY
      then Ok (str_of e v) else Raise TypeError
  | _ => Raise TypeError
  end.

Definition render_message (e : env) (msg : message) : result string :=
  let* text := render_content e (parse_message_content e (content msg)) in
  let time_str :=
    if PyStr.truthy (timestamp msg) then format_timestamp e (timestamp msg)
    else EmptyString in
  let who := if String.eqb (role msg) "user" then name msg else "Claude" in
  let prefix :=
    if PyStr.truthy time_str then ("[" ++ time_str ++ "] " ++ who)%string
    else who in
  Ok ("**" ++ prefix ++ ":** " ++ text)%string.

Fixpoint render_messages (e : env) (msgs : list message) : result (list string) :=
  match msgs with
  | [] => Ok []
  | m :: r =>
      let* line := render_message e m in
      let* lines := render_messages e r in
      Ok (line :: lines)
  end.

(** [get_history_context(token)] *)
Definition get_history_context (e : env) (w : world) (token : string)
  : result string :=
  let facts := get_key_facts token (key_facts w) in
  let lines :=
    match facts with
    | [] => []
    | _ => ["=== BELANGRIJKE FEITEN (onthoud dit) ==="] ++ numbered 1 facts
             ++ [EmptyString]
    end in
  let no_history :=
    match lines with
    | [] => EmptyString
    | _ => join newline (lines ++ ["=== Nieuw gesprek ==="])
    end in
  match conversation_history w !! token with
  | None => Ok no_history
  | Some [] => Ok no_history
  | Some messages =>
      let recent_messages := last_n MAX_HISTORY_MESSAGES messages in
      let* rendered := render_messages e recent_messages in
      Ok (join newline
            (lines ++ ["=== GESPREKSGESCHIEDENIS ==="] ++ rendered
               ++ [EmptyString; "=== NIEUW BERICHT ==="]))
  end.

(** ** The webhook handler *)

(** What the handler reads of a request. *)
Record request : Type := Request {
  header_signature : option string;   (* X-Nextcloud-Talk-Signature *)
  header_random : option string;      (* X-Nextcloud-Talk-Random *)
  body : string
}.

(** The normalised text is compared with the commands in this order. *)
Definition classify_command (message_content : string) : command :=
  let cmd := PyStr.lower (PyStr.strip message_content) in
  if String.eqb cmd "/reset" then CmdReset
  else if String.eqb cmd "/history" then CmdHistory
  else if String.eqb cmd "/whoami" then CmdWhoami
  else if PyStr.startswith "/remember " cmd then CmdRemember
  else if String.eqb cmd "/facts" then CmdFacts
  else if PyStr.startswith "/forget " cmd then CmdForget
  else if PyStr.startswith "/task " cmd then CmdTask
  else if String.eqb cmd "/boards" then CmdBoards
  else if String.eqb cmd "/help" then CmdHelp
  else if PyStr.startswith "/share " cmd then CmdShare
  else if PyStr.startswith "/upload " cmd then CmdUpload
  else if PyStr.startswith "/zoek " cmd then CmdZoek
  else if PyStr.startswith "/vind " cmd then CmdVind
  else if PyStr.startswith "/preview " cmd then CmdPreview
  else if String.eqb cmd "/done" then CmdDone
  else if String.eqb cmd "/status" then CmdStatus
  else if String.eqb cmd "/transcribe" then CmdTranscribe
  else NoCommand.

Definition status_reply (success : bool) : outcome :=
  Response 200 "status" (if success then "ok" else "failed").

(** [success = send_message(...); return jsonify(...), 200] *)
Definition reply (e : env) (cfg : bot_config) (token text : string) (w : world)
  : handled :=
  Handled w [SendMessage (secret cfg) token text None] (status_reply (send_ok e text)).

Definition done_text (t : task_bot) : string :=
  (" **Taak afgerond!**" ++ newline ++ newline ++ "De taak " ++ dquote
     ++ card_title t ++ dquote
     ++ " is gemarkeerd als voltooid en verplaatst naar Klaar."
     ++ newline ++ newline
     ++ "*Deze conversatie wordt over 3 seconden gesloten...*")%string.

Definition failed_text : string := "Fout bij afronden van de taak.".

Definition confirm_text (t : task_bot) : string :=
  ("Wil je de taak " ++ dquote ++ card_title t ++ dquote ++ " afronden?"
     ++ newline ++ newline
     ++ "Typ **ja** of **/done** om te bevestigen, of stel nog een vraag als je verder wilt werken.")%string.

Definition confirm_note : string := "Vraag om bevestiging voor afronden taak".

(** The block that [/done], the [complete] verdict and the affirmation share:
    [complete_task], then the confirmation, the pause and the deletion of the
    conversation, or the error reply.  The flag is the [success] of [/done]. *)
Definition finish_task (bots : gmap string bot_config) (e : env)
    (token : string) (cfg : bot_config) (t : task_bot) (w : world)
  : world * list event * bool :=
  let '(w', moved, completed) := complete_task bots e token cfg t w in
  if completed then
    (w',
     moved ++ [SendMessage (secret cfg) token (done_text t) None;
               Sleep 3;
               CloseConversation token (nextcloud_user cfg) (nextcloud_password cfg)],
     true)
  else
    (w', moved ++ [SendMessage (secret cfg) token failed_text None],
     send_ok e failed_text).

(** The affirmations; the fourth is the text of the source file, the letters
    [ok] followed by the bytes E8 BE BF. *)
Definition affirmations : list string :=
  [ "ja"; "yes"; "ok";
    String "o" (String "k" (String (ascii_of_nat 232) (String (ascii_of_nat 190)
      (String (ascii_of_nat 191) EmptyString))));
    "bevestig"; "akkoord" ].

Definition is_affirmation (message_content : string) : bool :=
  existsb (String.eqb (PyStr.lower (PyStr.strip message_content))) affirmations.

(** [history and 'bevestiging voor afronden' in history[-1].get('content', '')] *)
Definition awaiting_confirmation (w : world) (token : string) : bool :=
  match last (default [] (conversation_history w !! token)) with
  | None => false
  | Some m => PyStr.contains "bevestiging voor afronden" (content m)
  end.

(** The comment that logs a text on the card of the task. *)
Definition card_comment (t : option task_bot) (text : string) : list event :=
  match t with
  | Some tb =>
      if negb (board_id tb =? 0) && negb (card_id tb =? 0)
      then [CommentOnCard (board_id tb) (stack_id tb) (card_id tb) text]
      else []
  | None => []
  end.

Definition shorten (limit : Z) (text : string) : string :=
  if limit <? PyStr.len text then (PyStr.slice_to limit text ++ "...")%string
  else text.

(** The conversational turn: the end of [handle_webhook], from the detection
    of an audio file on. *)
Definition converse (e : env) (user : string) (cfg : bot_config)
    (data params : json) (token actor_name : string) (reply_to : option Z)
    (message_content : string) (task : option task_bot) (w : world) : handled :=
  let sec := secret cfg in
  let audio :=
    match extract_file_info e data params with
    | Some fi =>
        if String.eqb (fi_type fi) "audio" && PyStr.truthy (fi_url fi)
        then Some fi else None
    | None => None
    end in
  let heard : list event * option string :=
    match audio with
    | None => ([], Some message_content)
    | Some fi =>
        let announce :=
          SendMessage sec token
            ("Audio gedetecteerd (" ++ default "audio" (fi_name fi)
               ++ "). Transcriberen...")%string None in
        match download_nextcloud_file e (fi_url fi) with
        | None =>
            ([announce; Download (fi_url fi);
              SendMessage sec token "Kon audio niet downloaden." None], None)
        | Some local_path =>
            match transcribe_audio e local_path with
            | Some transcription =>
                if PyStr.truthy transcription then
                  ([announce; Download (fi_url fi); Transcribe local_path;
                    SendMessage sec token
                      ("**Transcriptie:**" ++ newline ++ transcription)%string None],
                   Some ("[Audio transcriptie]: " ++ transcription)%string)
                else
                  ([announce; Download (fi_url fi); Transcribe local_path;
                    SendMessage sec token "Transcriptie mislukt." None], None)
            | None =>
                ([announce; Download (fi_url fi); Transcribe local_path;
                  SendMessage sec token "Transcriptie mislukt." None], None)
            end
        end
    end in
  match snd heard with
  | None => Handled w (fst heard) (Response 200 "status" "failed")
  | Some text =>
      let w1 :=
        set_history (add_to_history (now e 0) token "user" actor_name text
                       (conversation_history w)) w in
      let ev1 :=
        card_comment task
          ("**" ++ actor_name ++ ":** "
             ++ shorten (1000 - (PyStr.len ("**" ++ actor_name ++ ":** ") + 3)) text)%string in
      match get_history_context e w1 token with
      | Raise ex => Handled w1 (fst heard ++ ev1) (Uncaught ex)
      | Ok history_context =>
          let full_prompt :=
            if PyStr.truthy history_context then
              ("Hieronder staat de gespreksgeschiedenis gevolgd door een nieuw bericht."
                 ++ newline
                 ++ "Houd rekening met de context van eerdere berichten bij je antwoord."
                 ++ newline ++ newline ++ history_context ++ newline
                 ++ "[" ++ actor_name ++ "]: " ++ text)%string
            else ("[" ++ actor_name ++ "]: " ++ text)%string in
          let task_context := get_task_bot_by_token e w1 token in
          let busy :=
            match task_context with
            | Some tc => ("Bezig met taak: " ++ card_title tc ++ "...")%string
            | None => "Impertio AI is aan het nadenken..."
            end in
          let response := call_claude e full_prompt task_context in
          let w2 :=
            set_history (add_to_history (now e 1) token "assistant" "Claude" response
                           (conversation_history w1)) w1 in
          let ev2 :=
            card_comment task_context
              ("**Claude AI:** " ++ shorten (1000 - 18) response)%string in
          Handled w2
            (fst heard ++ ev1
               ++ [SendMessage sec token busy None;
                   CallClaude full_prompt (working_dir cfg) (config_dir cfg)
                     (capitalize user) (erpnext_user cfg) task_context]
               ++ ev2 ++ [SendMessage sec token response reply_to])
            (status_reply (send_ok e response))
      end
  end.

(** What [handle_webhook] does with a text that is no command: the completion
    intent in a conversation with an active task, the affirmation of a pending
    confirmation, and otherwise the conversational turn. *)
Definition natural_language (bots : gmap string bot_config) (e : env) (user : string)
    (cfg : bot_config) (data params : json) (token actor_name : string)
    (reply_to : option Z) (message_content : string) (w : world) : handled :=
  let task := get_task_bot_by_token e w token in
  let verdict :=
    match task with
    | Some t =>
        if String.eqb (status t) "active"
        then detect_completion_intent message_content else None
    | None => None
    end in
  match task, verdict with
  | Some t, Some complete =>
      let '(w', evs, _) := finish_task bots e token cfg t w in
      Handled w' evs (Response 200 "status" "ok")
  | Some t, Some confirm =>
      let h1 := add_to_history (now e 0) token "user" actor_name message_content
                  (conversation_history w) in
      let h2 := add_to_history (now e 1) token "assistant" "Claude" confirm_note h1 in
      Handled (set_history h2 w)
        [SendMessage (secret cfg) token (confirm_text t) None]
        (Response 200 "status" "ok")
  | _, _ =>
      match task with
      | Some t =>
          if is_affirmation message_content && awaiting_confirmation w token then
            let '(w', evs, _) := finish_task bots e token cfg t w in
            Handled w' evs (Response 200 "status" "ok")
          else
            converse e user cfg data params token actor_name reply_to
              message_content task w
      | None =>
          converse e user cfg data params token actor_name reply_to
            message_content task w
      end
  end.

(** The dispatch of [handle_webhook]: from the test of [/reset] to the end. *)
Definition route (bots : gmap string bot_config) (e : env) (user : string)
    (cfg : bot_config) (data params : json) (token actor_name : string)
    (reply_to : option Z) (message_content : string) (w : world) : handled :=
  let stripped := PyStr.strip message_content in
  match classify_command message_content with
  | CmdReset =>
      let w' :=
        match conversation_history w !! token with
        | Some _ => set_history (delete token (conversation_history w)) w
        | None => w
        end in
      reply e cfg token "Gespreksgeschiedenis gewist. We beginnen opnieuw!" w'
  | CmdHistory =>
      let count := length (default [] (conversation_history w !! token)) in
      reply e cfg token
        ("Dit gesprek bevat " ++ pretty count ++ " berichten in de geschiedenis.")%string w
  | CmdWhoami =>
      reply e cfg token
        ("Bot: " ++ user ++ newline ++ "ERPNext user: " ++ erpnext_user cfg
           ++ newline ++ "Config: " ++ config_dir cfg)%string w
  | CmdRemember =>
      let fact := PyStr.strip (PyStr.slice_from 10 stripped) in
      if negb (PyStr.truthy fact) then
        reply e cfg token "Gebruik: /remember <feit om te onthouden>" w
      else
        let '(k, added) := add_key_fact token fact (key_facts w) in
        if added
        then reply e cfg token (" Onthouden: " ++ fact)%string (set_key_facts k w)
        else reply e cfg token "Dit feit was al opgeslagen." (set_key_facts k w)
  | CmdFacts =>
      match get_key_facts token (key_facts w) with
      | [] =>
          reply e cfg token
            ("Geen opgeslagen feiten voor dit gesprek." ++ newline ++ newline
               ++ "Gebruik /remember <feit> om iets te onthouden.")%string w
      | facts =>
          reply e cfg token
            ("**Opgeslagen feiten voor dit gesprek:**" ++ newline ++ newline
               ++ join EmptyString (map (fun l => (l ++ newline)%string) (numbered 1 facts))
               ++ newline ++ "Gebruik /forget <nummer> om een feit te verwijderen.")%string w
      end
  | CmdForget =>
      match py_int (PyStr.strip (PyStr.slice_from 8 stripped)) with
      | None => reply e cfg token "Gebruik: /forget <nummer>" w
      | Some n =>
          let fact_num := n - 1 in
          match key_facts w !! token with
          | Some facts =>
              match (if 0 <=? fact_num then facts !! Z.to_nat fact_num else None) with
              | Some removed =>
                  reply e cfg token (" Vergeten: " ++ removed)%string
                    (set_key_facts
                       (<[token := delete (Z.to_nat fact_num) facts]> (key_facts w)) w)
              | None =>
                  reply e cfg token "Ongeldig nummer. Gebruik /facts om de lijst te zien." w
              end
          | None =>
              reply e cfg token "Ongeldig nummer. Gebruik /facts om de lijst te zien." w
          end
      end
  | CmdHelp => reply e cfg token (help_text e (get_task_bot_by_token e w token)) w
  | CmdDone =>
      match get_task_bot_by_token e w token with
      | Some t =>
          let '(w', evs, success) := finish_task bots e token cfg t w in
          Handled w' evs (status_reply success)
      | None => reply e cfg token "Dit is geen taak-conversatie." w
      end
  | CmdStatus =>
      match get_task_bot_by_token e w token with
      | Some t => reply e cfg token (status_text e t) w
      | None => reply e cfg token "Dit is geen taak-conversatie." w
      end
  | NoCommand =>
      natural_language bots e user cfg data params token actor_name reply_to
        message_content w
  | c =>
      let '(evs, success) := service e c message_content in
      Handled w evs
        match success with
        | Ok delivered => status_reply delivered
        | Raise ex => Uncaught ex
        end
  end.

(** What the handler extracts from the activity. *)
Record envelope : Type := Envelope {
  env_content : json;
  env_token : option string;
  env_actor_name : json;
  env_actor_type : json;
  env_reply_to : option Z
}.

(** The fields of the activity; [None] when its type is neither [Create] nor
    [Activity]. *)
Definition read_envelope (data : json) : result (option envelope) :=
  let* activity_type := py_get data "type" JNull in
  match activity_type with
  | JStr ty =>
      if String.eqb ty "Create" || String.eqb ty "Activity" then
        let* actor := py_get data "actor" (JDict []) in
        let* obj := py_get data "object" (JDict []) in
        let* target := py_get data "target" (JDict []) in
        let* message_content_raw := py_get obj "content" (JStr EmptyString) in
        let* obj_id := py_get obj "id" JNull in
        let* message_id := id_tail obj_id in
        let* target_id := py_get target "id" JNull in
        let* token := id_tail target_id in
        let* actor_name := py_get actor "name" (JStr "Unknown") in
        let reply_to :=
          match message_id with
          | Some m => if isdigit m then Some (decimal 0 m) else None
          | None => None
          end in
        let* actor_type := py_get actor "type" JNull in
        Ok (Some (Envelope message_content_raw token actor_name actor_type reply_to))
      else Ok None
  | _ => Ok None
  end.

(** The message text and its parameters: the content is usually a JSON text
    with the fields [message] and [parameters]. *)
Definition parse_content (e : env) (message_content_raw : json) : json * json :=
  match message_content_raw with
  | JStr raw =>
      match json_loads e raw with
      | Some (JDict d) =>
          (default message_content_raw (dict_get "message" d),
           default (JDict []) (dict_get "parameters" d))
      | _ => (message_content_raw, JDict [])
      end
  | _ => (message_content_raw, JDict [])
  end.

Definition name_text (e : env) (v : json) : string :=
  match v with
  | JStr s => s
  | _ => str_of e v
  end.

(** [handle_webhook(user)].  Nothing catches the exceptions of
    [verify_signature] and of the reading of the activity; they leave the
    handler before anything is changed or sent.  A message content that is no
    text fails at [message_content[:100]] or, for a list, at
    [message_content.strip()]. *)
Definition handle_webhook (bots : gmap string bot_config) (e : env)
    (user : string) (req : request) (w : world) : handled :=
  match bots !! user with
  | None => Handled w [] (Response 404 "error" "Unknown bot")
  | Some cfg =>
      let signature := default EmptyString (header_signature req) in
      let random_header := default EmptyString (header_random req) in
      match verify_signature (secret cfg) random_header (body req) signature with
      | Raise ex => Handled w [] (Uncaught ex)
      | Ok false => Handled w [] (Response 401 "error" "Invalid signature")
      | Ok true =>
          match json_loads e (body req) with
          | None => Handled w [] (Response 400 "error" "Invalid JSON")
          | Some data =>
              match read_envelope data with
              | Raise ex => Handled w [] (Uncaught ex)
              | Ok None => Handled w [] (Response 200 "status" "ignored")
              | Ok (Some env) =>
                  if match env_actor_type env with
                     | JStr ty => String.eqb ty "Application"
                     | _ => false
                     end
                  then Handled w [] (Response 200 "status" "ignored")
                  else if negb (json_truthy (env_content env))
                          || negb (PyStr.truthy (default EmptyString (env_token env)))
                  then Handled w [] (Response 200 "status" "ignored")
                  else
                    let '(message_content, params) := parse_content e (env_content env) in
                    match message_content with
                    | JStr text =>
                        route bots e user cfg data params
                          (default EmptyString (env_token env))
                          (name_text e (env_actor_name env)) (env_reply_to env) text w
                    | JList _ => Handled w [] (Uncaught AttributeError)
                    | _ => Handled w [] (Uncaught TypeError)
                    end
              end
          end
      end
  end.

(** ** Reading a trace *)

(** The texts of the messages sent to the conversation, in order. *)
Definition sent_texts (tr : list event) : list string :=
  omap (fun ev => match ev with
                  | SendMessage _ _ text _ => Some text
                  | _ => None
                  end) tr.

Definition is_call_claude (ev : event) : bool :=
  match ev with CallClaude _ _ _ _ _ _ => true | _ => false end.

Definition is_close (ev : event) : bool :=
  match ev with CloseConversation _ _ _ => true | _ => false end.

(** The requests to Deck of [move_card_to_done]. *)
Definition is_deck_request (ev : event) : bool :=
  match ev with GetStacks _ | ReorderCard _ _ _ _ => true | _ => false end.

(** ** Sequences of calls on the conversation memory *)

(** One call [add_to_history(token, role, name, content)] and the time that it
    reads. *)
Record append_call : Type := AppendCall {
  call_now : string;
  call_token : string;
  call_role : string;
  call_name : string;
  call_content : string
}.

Definition run_append (h : gmap string (list message)) (c : append_call)
  : gmap string (list message) :=
  add_to_history (call_now c) (call_token c) (call_role c) (call_name c)
    (call_content c) h.

Definition run_appends (calls : list append_call) (h : gmap string (list message))
  : gmap string (list message) :=
  fold_left run_append calls h.

(** The entry that a call appends. *)
Definition call_message (c : append_call) : message :=
  Message (call_role c) (call_name c) (call_content c) (call_now c).

(** The entries appended to one token, in call order. *)
Definition appended_to (token : string) (calls : list append_call) : list message :=
  map call_message (filter (fun c => call_token c = token) calls).

(** [conversation_history.get(token, [])] *)
Definition history_of (token : string) (h : gmap string (list message))
  : list message :=
  default [] (h !! token).

(** The calls [add_key_fact(token, fact)] for the facts of a list, in order. *)
Definition add_key_facts (token : string) (facts : list string)
    (k : gmap string (list string)) : gmap string (list string) :=
  fold_left (fun acc fact => fst (add_key_fact token fact acc)) facts k.

(** ** Sample data *)

Definition hundred_and_one_calls : list append_call :=
  map (fun i => AppendCall (pretty i) "tok" "user" "Jan" (pretty i)) (seq 0 101).

Definition sample_facts : gmap string (list string) :=
  {[ "tok" := ["de klant heet Jansen"; "offerte voor vrijdag"] ]}.

Definition twenty_one_facts : list string :=
  map (fun i => ("feit " ++ pretty i)%string) (seq 1 21).

Definition long_text : string :=
  String.concat EmptyString (repeat "0123456789" 60).

Definition sample_config : bot_config :=
  BotConfig "s3cret" "maarten@example.com" "/home/maarten/.claude" "/home/maarten"
            "maarten" "wachtwoord".

Definition sample_bots : gmap string bot_config := {[ "maarten" := sample_config ]}.

Definition sample_task : task_bot :=
  TaskBot 4 11 37 "Offerte Jansen" "active" "2025-01-06 09:00:00" None.

(** A board with a stack named Klaar; every request is answered and every
    write goes through.  [json.loads] is given on the one text that the
    samples parse. *)
Definition sample_env : env :=
  Env (fun text => if String.eqb text "{}" then Some (JDict []) else None)
      (fun _ => "?")
      (fun n => ("2025-01-06T10:00:0" ++ pretty n)%string)
      (fun _ => "06/01 10:00")
      (fun _ => true)
      true true "2025-01-06 10:00:05"
      (fun _ => HttpAnswer 200 [Stack 11 "Bezig"; Stack 12 "Klaar"])
      (fun _ _ _ _ => HttpAnswer 200 tt)
      (fun _ _ => None) (fun _ => None) (fun _ => None)
      (fun _ _ => "Ik ga ermee aan de slag.")
      (fun _ _ => ([], Ok true))
      (fun _ => "help") (fun _ => "status").

(** The same outside, with a board that has no stack for finished cards. *)
Definition env_without_done_stack : env :=
  Env (json_loads sample_env) (str_of sample_env) (now sample_env)
      (format_timestamp sample_env) (send_ok sample_env) true true
      (sql_now sample_env)
      (fun _ => HttpAnswer 200 [Stack 11 "Bezig"; Stack 13 "Wachten"])
      (deck_reorder sample_env) (extract_file_info sample_env)
      (download_nextcloud_file sample_env) (transcribe_audio sample_env)
      (call_claude sample_env) (service sample_env) (help_text sample_env)
      (status_text sample_env).

(** The same outside, with a task database that refuses the update. *)
Definition env_with_failing_update : env :=
  Env (json_loads sample_env) (str_of sample_env) (now sample_env)
      (format_timestamp sample_env) (send_ok sample_env) true false
      (sql_now sample_env) (deck_stacks sample_env)
      (deck_reorder sample_env) (extract_file_info sample_env)
      (download_nextcloud_file sample_env) (transcribe_audio sample_env)
      (call_claude sample_env) (service sample_env) (help_text sample_env)
      (status_text sample_env).

(** A conversation with an active task and no history. *)
Definition sample_world : world :=
  World ∅ ∅ {[ "tok" := sample_task ]}.

(** The handler on a message of Jan in the conversation [tok]. *)
Definition sample_route (e : env) (message_content : string) (w : world) : handled :=
  route sample_bots e "maarten" sample_config (JDict []) (JDict []) "tok" "Jan" None
    message_content w.

(** The sample conversation after the question [kunnen we afronden]. *)
Definition asked_world : world :=
  after (sample_route sample_env "kunnen we afronden" sample_world).

(** A signature header with a letter outside ASCII (e with an acute accent). *)
Definition accented_signature : string :=
  String (ascii_of_nat 195) (String (ascii_of_nat 169) EmptyString).

(** A text between double quotes. *)
Definition quoted (s : string) : string := (dquote ++ s ++ dquote)%string.

(** The body of a [Create] activity: Jan writes [we zijn klaar] in the
    conversation [tok]. *)
Definition sample_body : string :=
  ("{" ++ quoted "type" ++ ":" ++ quoted "Create" ++ ","
     ++ quoted "actor" ++ ":{" ++ quoted "type" ++ ":" ++ quoted "Person" ++ ","
     ++ quoted "name" ++ ":" ++ quoted "Jan" ++ "},"
     ++ quoted "object" ++ ":{" ++ quoted "id" ++ ":" ++ quoted "57" ++ ","
     ++ quoted "content" ++ ":" ++ quoted "we zijn klaar" ++ "},"
     ++ quoted "target" ++ ":{" ++ quoted "id" ++ ":" ++ quoted "tok" ++ "}}")%string.

(** What [json.loads] makes of [sample_body]. *)
Definition sample_activity : json :=
  JDict [ ("type", JStr "Create");
          ("actor", JDict [("type", JStr "Person"); ("name", JStr "Jan")]);
          ("object", JDict [("id", JStr "57"); ("content", JStr "we zijn klaar")]);
          ("target", JDict [("id", JStr "tok")]) ].

(** The sample outside with [json.loads] given on [sample_body]; the message
    content [we zijn klaar] is no JSON text. *)
Definition webhook_env : env :=
  Env (fun text => if String.eqb text sample_body then Some sample_activity else None)
      (str_of sample_env) (now sample_env)
      (format_timestamp sample_env) (send_ok sample_env) true true
      (sql_now sample_env) (deck_stacks sample_env)
      (deck_reorder sample_env) (extract_file_info sample_env)
      (download_nextcloud_file sample_env) (transcribe_audio sample_env)
      (call_claude sample_env) (service sample_env) (help_text sample_env)
      (status_text sample_env).

(** The request that Talk signs with the secret of the bot. *)
Definition signed_request : request :=
  Request (Some (Sha256.hmac_hexdigest "s3cret" ("nonce-1" ++ sample_body)%string))
          (Some "nonce-1") sample_body.

(** ** Further definitions *)
(** A bot without a secret. *)
Definition unsecured_config : bot_config :=
  BotConfig EmptyString "freek@example.com" "/home/freek/.claude" "/home/freek"
            "freek" "wachtwoord".

Definition unsecured_bots : gmap string bot_config := {[ "freek" := unsecured_config ]}.
(** ** The changes of one request *)

(** What one request for the conversation [token] can do to the state: nothing,
    the deletion of the history of the conversation, a call of [add_key_fact],
    the removal of one fact, the completion mark on the task of the
    conversation, the appending of the text of the user, or the appending of
    that text and of an answer. *)
Inductive change (e : env) (token actor_name : string) (w : world) : world -> Prop :=
| change_nothing : change e token actor_name w w
| change_reset :
    change e token actor_name w
      (set_history (delete token (conversation_history w)) w)
| change_remember fact :
    change e token actor_name w
      (set_key_facts (fst (add_key_fact token fact (key_facts w))) w)
| change_forget facts (i : nat) :
    key_facts w !! token = Some facts ->
    change e token actor_name w
      (set_key_facts (<[token := delete i facts]> (key_facts w)) w)
| change_completed :
    change e token actor_name w
      (set_task_bots (alter (mark_completed (sql_now e)) token (task_bots w)) w)
| change_said text :
    change e token actor_name w
      (set_history
         (add_to_history (now e 0) token "user" actor_name text
            (conversation_history w)) w)
| change_turn text response :
    change e token actor_name w
      (set_history
         (add_to_history (now e 1) token "assistant" "Claude" response
            (add_to_history (now e 0) token "user" actor_name text
               (conversation_history w))) w).

(** The requests that a process serves, one after the other, each with the
    outside that it meets. *)
Definition serve (bots : gmap string bot_config)
    (requests : list (env * string * request)) (w : world) : world :=
  fold_left (fun acc '(e, user, req) => after (handle_webhook bots e user req acc))
    requests w.

(** The state of a process that starts without history and facts files. *)
Definition fresh_world (tasks : gmap string task_bot) : world := World ∅ ∅ tasks.

(** The bounds of the conversation memory. *)
Definition within_bounds (w : world) : Prop :=
  forall token,
    (length (history_of token (conversation_history w)) <= MAX_HISTORY_MESSAGES * 2)%nat
    /\ (length (get_key_facts token (key_facts w)) <= 20)%nat
    /\ NoDup (get_key_facts token (key_facts w)).

(** Two conversations with history and key facts; [tok] has a task. *)
Definition busy_world : world :=
  World {[ "tok" := [Message "user" "Jan" "hoi" "2025-01-06T09:00:00";
                     Message "assistant" "Claude" "Hallo Jan" "2025-01-06T09:00:04"];
           "andere" := [Message "user" "Piet" "status?" "2025-01-06T09:30:00"] ]}
        {[ "tok" := ["de klant heet Jansen"; "offerte voor vrijdag"; "korting 5%"];
           "andere" := ["levering in maart"] ]}
        {[ "tok" := sample_task ]}.

(** A conversation with history and without a task. *)
Definition taskless_world : world :=
  World (conversation_history busy_world) (key_facts busy_world) ∅.

(** The sample outside with a Claude that mentions the confirmation. *)
Definition echo_env : env :=
  Env (json_loads sample_env) (str_of sample_env) (now sample_env)
      (format_timestamp sample_env) (send_ok sample_env) true true
      (sql_now sample_env) (deck_stacks sample_env)
      (deck_reorder sample_env) (extract_file_info sample_env)
      (download_nextcloud_file sample_env) (transcribe_audio sample_env)
      (fun _ _ => "Ik wacht op bevestiging voor afronden van de offerte.")
      (service sample_env) (help_text sample_env) (status_text sample_env).


(** A text has ink when one of its characters is no white space. *)
Fixpoint has_ink (s : string) : bool :=
  match s with
  | EmptyString => false
  | String c r => negb (PyStr.is_space c) || has_ink r
  end.

(** A message text that is itself a JSON object, with a number as message. *)
Definition numeric_text : string := ("{" ++ quoted "message" ++ ": 5}")%string.

(** The sample outside with [json.loads] given on [numeric_text]. *)
Definition reading_env : env :=
  Env (fun text => if String.eqb text numeric_text
                   then Some (JDict [("message", JNum 5)]) else None)
      (str_of sample_env) (now sample_env)
      (format_timestamp sample_env) (send_ok sample_env) true true
      (sql_now sample_env) (deck_stacks sample_env)
      (deck_reorder sample_env) (extract_file_info sample_env)
      (download_nextcloud_file sample_env) (transcribe_audio sample_env)
      (call_claude sample_env) (service sample_env) (help_text sample_env)
      (status_text sample_env).

(** The limit of Deck on the text of a comment. *)
Definition comment_fits (ev : event) : bool :=
  match ev with
  | CommentOnCard _ _ _ text => PyStr.len text <=? 1000
  | _ => true
  end.

(** A prompt for Claude that opens with the announcement of the history. *)
Definition prompt_has_history (ev : event) : bool :=
  match ev with
  | CallClaude prompt _ _ _ _ _ =>
      PyStr.startswith "Hieronder staat de gespreksgeschiedenis" prompt
  | _ => true
  end.

(** The sample outside with a message that carries a recording; the
    download works when [downloads] is set, the transcription gives [heard]. *)
Definition audio_env (downloads : bool) (heard : option string) : env :=
  Env (json_loads sample_env) (str_of sample_env) (now sample_env)
      (format_timestamp sample_env) (send_ok sample_env) true true
      (sql_now sample_env) (deck_stacks sample_env)
      (deck_reorder sample_env)
      (fun _ _ => Some (FileInfo "https://cloud.example.com/f/12" (Some "memo.ogg") "audio"))
      (fun _ => if downloads then Some "/tmp/memo.ogg" else None)
      (fun _ => heard)
      (call_claude sample_env) (service sample_env) (help_text sample_env)
      (status_text sample_env).

(** A text of 1200 characters and a name of 995. *)
Definition very_long_text : string :=
  String.concat EmptyString (repeat "0123456789" 120).

Definition very_long_name : string :=
  String.concat EmptyString (repeat "Jan-Willem " 90 ++ ["Jans."]).

(** The lengths of the comments written on a card. *)
Definition comment_lengths (tr : list event) : list Z :=
  omap (fun ev => match ev with
                  | CommentOnCard _ _ _ text => Some (PyStr.len text)
                  | _ => None
                  end) tr.

(** The keys of the conversation memory. *)
Definition in_memory (w : world) (token : string) : Prop :=
  is_Some (conversation_history w !! token) \/ is_Some (key_facts w !! token).

(** A token as the handler accepts it: not empty and without a slash. *)
Definition plain_token (token : string) : Prop :=
  token <> EmptyString /\ PyStr.contains "/" token = false.

(** A turn of Jan in a conversation with key facts. *)
Definition facts_world : world :=
  World ∅ {[ "tok" := ["de klant heet Jansen"; "offerte voor vrijdag"] ]} ∅.

(** [send_message(secret, token, message, reply_to)]: the request that it
    posts to the conversation, for the nonce [random_str] that
    [os.urandom(32).hex()] gave; [replyTo] is set for a [reply_to] that is
    true. *)
Record bot_request : Type := BotRequest {
  br_token : string;
  br_random : string;        (* X-Nextcloud-Talk-Bot-Random *)
  br_signature : string;     (* X-Nextcloud-Talk-Bot-Signature *)
  br_data : list (string * json)
}.

Definition send_message_request (secret token message : string)
    (reply_to : option Z) (random_str : string) : bot_request :=
  let data :=
    ("message", JStr message)
      :: match reply_to with
         | Some n => if n =? 0 then [] else [("replyTo", JNum n)]
         | None => []
         end in
  BotRequest token random_str
    (Sha256.hmac_hexdigest secret (random_str ++ message)%string) data.

(** * Properties *)

(** ** Known answers of SHA-256 and HMAC-SHA256 *)

Example round_constants_ends :
  nth 0 Sha256.round_constants 0 = 0x428a2f98
  /\ nth 63 Sha256.round_constants 0 = 0xc67178f2
  /\ nth 0 Sha256.initial_hash 0 = 0x6a09e667
  /\ length Sha256.round_constants = 64%nat.
Proof. repeat split. Qed.

Example sha256_empty :
  Sha256.sha256_hexdigest EmptyString
  = "e3b0c44298fc1c149afbf4c8996fb92427ae41e4649b934ca495991b7852b855".
Proof. vm_compute. reflexivity. Qed.

Example sha256_abc :
  Sha256.sha256_hexdigest "abc"
  = "ba7816bf8f01cfea414140de5dae2223b00361a396177a9cb410ff61f20015ad".
Proof. vm_compute. reflexivity. Qed.

Example sha256_two_blocks :
  Sha256.sha256_hexdigest (String.concat EmptyString (repeat "a" 70))
  = "6bd5e5034855a11241f0dee8fc72850ffd9955b28347a86428b5fa19119f6ad0".
Proof. vm_compute. reflexivity. Qed.

Example hmac_short_key :
  Sha256.hmac_hexdigest "key" "The quick brown fox jumps over the lazy dog"
  = "f7bc83f430538424b13298e6aa6fb143ef4d59a14946175997479dbc2d1a3cd8".
Proof. vm_compute. reflexivity. Qed.

Example hmac_long_key :
  Sha256.hmac_hexdigest (String.concat EmptyString (repeat "k" 70)) "msg"
  = "869b65e96f6aff0cfcb55ed40163b7d46e124a4213fa2232d61cca5e4a21256e".
Proof. vm_compute. reflexivity. Qed.

(** ** Properties of the string model *)

(** A fact about one character is checked on the 256 characters. *)
Ltac by_character c := destruct c as [[] [] [] [] [] [] [] []]; reflexivity.

Section PyStrFacts.
Import PyStr.

Lemma lower_char_idem c : lower_char (lower_char c) = lower_char c.
Proof. by_character c. Qed.

Lemma lower_upper_char c : lower_char (upper_char c) = lower_char c.
Proof. by_character c. Qed.

Lemma lower_idem s : lower (lower s) = lower s.
Proof. induction s as [|c r IH]; simpl; [reflexivity|]. by rewrite lower_char_idem, IH. Qed.

Lemma lower_upper s : lower (upper s) = lower s.
Proof. induction s as [|c r IH]; simpl; [reflexivity|]. by rewrite lower_upper_char, IH. Qed.

Lemma is_ascii_lower_char c : (code (lower_char c) <? 128) = (code c <? 128).
Proof. by_character c. Qed.

Lemma is_ascii_lower s : is_ascii (lower s) = is_ascii s.
Proof. induction s as [|c r IH]; simpl; [reflexivity|]. by rewrite is_ascii_lower_char, IH. Qed.

Lemma encode_app a b : encode (a ++ b)%string = encode a ++ encode b.
Proof. induction a as [|c r IH]; simpl; [reflexivity|]. by rewrite IH. Qed.

End PyStrFacts.

Example strip_and_lower :
  PyStr.lower (PyStr.strip "  /Done ") = "/done"
  /\ PyStr.strip (String (ascii_of_nat 9) "ja" ++ newline)%string = "ja"
  /\ PyStr.contains "klaar" "we zijn klaar" = true
  /\ PyStr.contains "klaar" "kla ar" = false.
Proof. repeat split. Qed.

Example slices :
  PyStr.slice_to 2 "abcde" = "ab"
  /\ PyStr.slice_from (-2) "abcde" = "de"
  /\ PyStr.slice_from 0 "abcde" = "abcde"
  /\ PyStr.slice_to (-9) "abcde" = EmptyString
  /\ PyStr.slice_from 9 "abcde" = EmptyString.
Proof. repeat split. Qed.

Example commands :
  classify_command " /RESET" = CmdReset
  /\ classify_command "/remember de klant heet Jansen" = CmdRemember
  /\ classify_command "/remember" = NoCommand
  /\ classify_command "/done" = CmdDone
  /\ classify_command "/done nu" = NoCommand
  /\ classify_command "ja" = NoCommand.
Proof. repeat split. Qed.

Example identifiers :
  last_segment "https://cloud.example.com/ocs/room/tok" = "tok"
  /\ last_segment "57" = "57"
  /\ py_int "12" = Some 12 /\ py_int "-3" = Some (-3) /\ py_int "1_000" = Some 1000
  /\ py_int "twee" = None /\ py_int "1__0" = None.
Proof. repeat split. Qed.

Section HexFacts.
Import PyStr Sha256.

Lemma hex_digit_cases n :
  In (hex_digit n)
     ["0"; "1"; "2"; "3"; "4"; "5"; "6"; "7"; "8"; "9"; "a"; "b"; "c"; "d"; "e"; "f"]%char.
Proof.
  unfold hex_digit.
  destruct (n mod 16) as [|p|p]; simpl; auto 20.
  do 5 (try destruct p as [p|p|]); simpl; auto 20.
Qed.

Lemma hex_digit_lower n : lower_char (hex_digit n) = hex_digit n.
Proof.
  pose proof (hex_digit_cases n) as H. simpl in H.
  repeat (destruct H as [<-|H]; [reflexivity|]). destruct H.
Qed.

Lemma hex_digit_ascii n : (code (hex_digit n) <? 128) = true.
Proof.
  pose proof (hex_digit_cases n) as H. simpl in H.
  repeat (destruct H as [<-|H]; [reflexivity|]). destruct H.
Qed.

Lemma hex_lower bs : lower (hex bs) = hex bs.
Proof. induction bs as [|b r IH]; simpl; [reflexivity|]. by rewrite !hex_digit_lower, IH. Qed.

Lemma hex_is_ascii bs : is_ascii (hex bs) = true.
Proof. induction bs as [|b r IH]; simpl; [reflexivity|]. by rewrite !hex_digit_ascii, IH. Qed.

End HexFacts.

(** ** Signature verification *)

Section Verify.
Import PyStr Sha256.

Lemma truthy_nonempty s : s <> EmptyString -> truthy s = true.
Proof. destruct s; [congruence | reflexivity]. Qed.

(** With a secret, the verdict is the comparison of the lower-cased
    signature with the digest, for a signature of ASCII characters. *)
Lemma verify_signature_ascii secret nonce body sig :
  secret <> EmptyString -> is_ascii sig = true ->
  verify_signature secret nonce body sig
  = Ok (String.eqb (hmac_hexdigest secret (nonce ++ body)%string) (lower sig)).
Proof.
  intros Hs Ha. unfold verify_signature, compare_digest, hmac_hexdigest.
  rewrite (truthy_nonempty _ Hs). simpl.
  by rewrite !is_ascii_lower, hex_is_ascii, Ha, hex_lower.
Qed.

Lemma verify_signature_empty_secret nonce body sig :
  verify_signature EmptyString nonce body sig = Ok false.
Proof. reflexivity. Qed.

(** The spelling of the signature in capital letters is accepted as well. *)
Lemma verify_signature_upper secret nonce body :
  secret <> EmptyString ->
  verify_signature secret nonce body
    (upper (hmac_hexdigest secret (nonce ++ body)%string)) = Ok true.
Proof.
  intros Hs. rewrite verify_signature_ascii; [|done|]; unfold hmac_hexdigest.
  - by rewrite lower_upper, hex_lower, String.eqb_refl.
  - by rewrite <- is_ascii_lower, lower_upper, is_ascii_lower, hex_is_ascii.
Qed.

End Verify.

(** C1, as amended.  For a non-empty secret, [verify_signature] accepts the
    HMAC-SHA256 hex digest of nonce and body; it accepts a signature of ASCII
    characters when its lower-cased text is that digest and returns false for
    every other signature of ASCII characters; with the digest of one
    nonce and body as signature, it returns false for another nonce and body
    whenever their digest differs.  With the empty secret it returns false,
    for every nonce, body and signature, and raises nothing. *)
Theorem verify_signature_symmetry (secret nonce body : string) :
  secret <> EmptyString ->
  let tag := Sha256.hmac_hexdigest secret (nonce ++ body)%string in
  verify_signature secret nonce body tag = Ok true
  /\ (forall sig, PyStr.is_ascii sig = true -> PyStr.lower sig = tag ->
        verify_signature secret nonce body sig = Ok true)
  /\ (forall sig, PyStr.is_ascii sig = true -> PyStr.lower sig <> tag ->
        verify_signature secret nonce body sig = Ok false)
  /\ (forall nonce' body',
        Sha256.hmac_hexdigest secret (nonce' ++ body')%string <> tag ->
        verify_signature secret nonce' body' tag = Ok false)
  /\ (forall n b sig, verify_signature EmptyString n b sig = Ok false).
Proof.
  intros Hs tag.
  assert (Htag : PyStr.is_ascii tag = true) by apply hex_is_ascii.
  assert (Hlow : PyStr.lower tag = tag) by apply hex_lower.
  split; [|split; [|split; [|split]]].
  - rewrite verify_signature_ascii by done.
    fold tag. by rewrite Hlow, String.eqb_refl.
  - intros sig Ha Heq. rewrite verify_signature_ascii by done.
    fold tag. by rewrite Heq, String.eqb_refl.
  - intros sig Ha Hne. rewrite verify_signature_ascii by done.
    fold tag. f_equal. apply String.eqb_neq. congruence.
  - intros nonce' body' Hne. rewrite verify_signature_ascii by done.
    rewrite Hlow. f_equal. by apply String.eqb_neq.
  - intros n b sig. apply verify_signature_empty_secret.
Qed.

Lemma verify_signature_symmetry_witness :
  "s3cret" <> EmptyString
  /\ verify_signature "s3cret" "nonce" "{}"
       (Sha256.hmac_hexdigest "s3cret" ("nonce" ++ "{}")%string) = Ok true.
Proof.
  split; [discriminate|].
  exact (proj1 (verify_signature_symmetry "s3cret" "nonce" "{}" ltac:(discriminate))).
Defined.

(** C1, as stated, fails twice.  The signature that differs from the digest in
    the case of one letter (its second character, [B] for [b]) is accepted;
    and with the empty secret the digest itself is refused. *)
Lemma verify_signature_symmetry_counterexample :
  Sha256.hmac_hexdigest "s3cret" ("nonce" ++ "{}")%string
  = "7bfd0d19ebba9b6cf7ea7222e2548170869f4d724900ac19bed2fe9bf50eb237"
  /\ verify_signature "s3cret" "nonce" "{}"
       "7Bfd0d19ebba9b6cf7ea7222e2548170869f4d724900ac19bed2fe9bf50eb237"
     = Ok true
  /\ verify_signature EmptyString "nonce" "{}"
       (Sha256.hmac_hexdigest EmptyString ("nonce" ++ "{}")%string)
     = Ok false.
Proof. split; [|split]; vm_compute; reflexivity. Qed.

(** ** The bounded lists *)

Section LastN.
Context {A : Type}.
Implicit Types l r : list A.

Lemma last_n_short n l : (length l <= n)%nat -> last_n n l = l.
Proof.
  intros H. destruct n as [|n]; [reflexivity|]. unfold last_n.
  by replace (length l - S n)%nat with 0%nat by lia.
Qed.

Lemma last_n_length n l : n <> 0%nat -> length (last_n n l) = Nat.min n (length l).
Proof.
  intros H. destruct n as [|n]; [done|]. unfold last_n. rewrite length_drop. lia.
Qed.

Lemma last_n_app n l r : last_n n (last_n n l ++ r) = last_n n (l ++ r).
Proof.
  destruct n as [|n]; [reflexivity|]. unfold last_n.
  destruct (decide (length l <= S n)%nat) as [Hle|Hgt].
  - by replace (length l - S n)%nat with 0%nat by lia.
  - rewrite !length_app, length_drop.
    replace (length l - (length l - S n) + length r - S n)%nat
      with (length r) by lia.
    replace (length l + length r - S n)%nat
      with ((length l - S n) + length r)%nat by lia.
    rewrite <- drop_drop. f_equal. rewrite drop_app_le by lia. reflexivity.
Qed.

Lemma last_n_suffix n l : exists front, l = front ++ last_n n l.
Proof.
  destruct n as [|n]; [by exists []|]. unfold last_n.
  exists (take (length l - S n) l). by rewrite take_drop.
Qed.

Lemma last_n_NoDup n l : NoDup l -> NoDup (last_n n l).
Proof.
  intros H. destruct (last_n_suffix n l) as [front Hl].
  rewrite Hl in H. by apply NoDup_app in H as (_ & _ & H).
Qed.

End LastN.

(** ** History *)

Lemma add_to_history_same now token role name content h :
  history_of token (add_to_history now token role name content h)
  = last_n (MAX_HISTORY_MESSAGES * 2)
      (history_of token h ++ [Message role name content now]).
Proof.
  unfold add_to_history, history_of.
  set (old := default [] (h !! token)).
  assert (Hold : default [] (match h !! token with
                             | None => <[token := []]> h
                             | Some _ => h
                             end !! token) = old).
  { subst old. destruct (h !! token) eqn:E; [by rewrite E|].
    by rewrite lookup_insert_eq. }
  rewrite Hold.
  destruct (Nat.ltb_spec (MAX_HISTORY_MESSAGES * 2) (length (old ++ [Message role name content now])))
    as [Hlt|Hge].
  - by rewrite lookup_insert_eq.
  - rewrite lookup_insert_eq. by rewrite last_n_short.
Qed.

Lemma add_to_history_other now token role name content h token' :
  token' <> token ->
  history_of token' (add_to_history now token role name content h)
  = history_of token' h.
Proof.
  intros Hne. unfold add_to_history, history_of.
  assert (Hk : forall x, <[token := x]> (match h !! token with
                             | None => <[token := []]> h
                             | Some _ => h
                             end) !! token' = h !! token').
  { intros x. rewrite lookup_insert_ne by done.
    destruct (h !! token); [done|]. by rewrite lookup_insert_ne. }
  destruct (_ <? _)%nat; [rewrite lookup_insert_ne by done|]; by rewrite Hk.
Qed.

Lemma run_appends_history calls : forall token h,
  history_of token (run_appends calls h)
  = match appended_to token calls with
    | [] => history_of token h
    | _ => last_n (MAX_HISTORY_MESSAGES * 2) (history_of token h ++ appended_to token calls)
    end.
Proof.
  induction calls as [|c calls IH]; intros token h; [reflexivity|].
  change (run_appends (c :: calls) h) with (run_appends calls (run_append h c)).
  rewrite IH. unfold appended_to. rewrite filter_cons.
  destruct (decide (call_token c = token)) as [<-|Hne].
  - rewrite map_cons. fold (appended_to (call_token c) calls).
    unfold run_append. rewrite add_to_history_same. fold (call_message c).
    destruct (appended_to (call_token c) calls) as [|m ms] eqn:E.
    + reflexivity.
    + rewrite last_n_app. by rewrite <- app_assoc.
  - fold (appended_to token calls). unfold run_append.
    by rewrite add_to_history_other.
Qed.

(** C3.  From a history within the bound, after any sequence of
    [add_to_history] calls (on this token and on others) the history of a token
    has at most [2 * MAX_HISTORY_MESSAGES = 100] entries and is made of the last
    100 of the earlier entries followed by the entries appended to this token,
    in call order. *)
Theorem history_bound (calls : list append_call) (token : string)
    (h : gmap string (list message)) :
  (length (history_of token h) <= MAX_HISTORY_MESSAGES * 2)%nat ->
  (MAX_HISTORY_MESSAGES * 2 = 100)%nat
  /\ (length (history_of token (run_appends calls h)) <= 100)%nat
  /\ history_of token (run_appends calls h)
     = last_n 100 (history_of token h ++ appended_to token calls).
Proof.
  intros Hinv. split; [reflexivity|].
  rewrite run_appends_history.
  change (MAX_HISTORY_MESSAGES * 2)%nat with 100%nat in *.
  destruct (appended_to token calls) as [|m ms].
  - rewrite app_nil_r, last_n_short by done. done.
  - split; [|done]. rewrite last_n_length by done. lia.
Qed.

Lemma history_bound_witness :
  (length (history_of "tok" ∅) <= MAX_HISTORY_MESSAGES * 2)%nat
  /\ history_of "tok" (run_appends hundred_and_one_calls ∅)
     = last_n 100 (history_of "tok" ∅ ++ appended_to "tok" hundred_and_one_calls).
Proof.
  assert (H : (length (history_of "tok" ∅) <= MAX_HISTORY_MESSAGES * 2)%nat)
    by (vm_compute; lia).
  split; [exact H|].
  exact (proj2 (proj2 (history_bound hundred_and_one_calls "tok" ∅ H))).
Defined.

(** The 101st call evicts the oldest entry. *)
Example history_evicts_oldest :
  map content (history_of "tok" (run_appends hundred_and_one_calls ∅))
  = map pretty (seq 1 100).
Proof. vm_compute. reflexivity. Qed.

(** ** Key facts *)

Lemma add_key_fact_present token fact k :
  fact ∈ get_key_facts token k -> add_key_fact token fact k = (k, false).
Proof.
  unfold get_key_facts, add_key_fact. intros Hin.
  destruct (k !! token) as [facts|] eqn:E; simpl in Hin.
  - rewrite E. simpl. by rewrite bool_decide_eq_true_2.
  - by apply not_elem_of_nil in Hin.
Qed.

Lemma add_key_fact_absent token fact k :
  fact ∉ get_key_facts token k ->
  snd (add_key_fact token fact k) = true
  /\ get_key_facts token (fst (add_key_fact token fact k))
     = last_n 20 (get_key_facts token k ++ [fact]).
Proof.
  unfold get_key_facts, add_key_fact. intros Hout.
  set (old := default [] (k !! token)) in *.
  assert (Hold : default [] (match k !! token with
                             | None => <[token := []]> k
                             | Some _ => k
                             end !! token) = old).
  { subst old. destruct (k !! token) eqn:E; [by rewrite E|].
    by rewrite lookup_insert_eq. }
  rewrite Hold, bool_decide_eq_false_2 by done.
  destruct (Nat.ltb_spec 20 (length (old ++ [fact]))) as [Hlt|Hge]; simpl;
    rewrite lookup_insert_eq; [done|]. by rewrite last_n_short.
Qed.

Lemma add_key_fact_other token fact k token' :
  token' <> token ->
  get_key_facts token' (fst (add_key_fact token fact k)) = get_key_facts token' k.
Proof.
  intros Hne. unfold get_key_facts, add_key_fact.
  assert (Hk0 : match k !! token with
                | None => <[token := []]> k
                | Some _ => k
                end !! token' = k !! token').
  { destruct (k !! token); [done|]. by rewrite lookup_insert_ne. }
  destruct (bool_decide _); [simpl; by rewrite Hk0|].
  destruct (_ <? _)%nat; simpl; rewrite ?(lookup_insert_ne _ token token') by done;
    by rewrite Hk0.
Qed.

Lemma add_key_facts_distinct token facts : forall k,
  NoDup (get_key_facts token k ++ facts) ->
  (length (get_key_facts token k) <= 20)%nat ->
  get_key_facts token (add_key_facts token facts k)
  = last_n 20 (get_key_facts token k ++ facts).
Proof.
  induction facts as [|fact facts IH]; intros k Hnd Hlen.
  - rewrite app_nil_r. by rewrite last_n_short.
  - change (add_key_facts token (fact :: facts) k)
      with (add_key_facts token facts (fst (add_key_fact token fact k))).
    assert (Hout : fact ∉ get_key_facts token k).
    { apply NoDup_app in Hnd as (_ & Hdis & _). intros Hin.
      apply (Hdis fact Hin). by left. }
    destruct (add_key_fact_absent token fact k Hout) as [_ Hnew].
    rewrite IH; rewrite Hnew.
    + rewrite last_n_app. by rewrite <- app_assoc.
    + destruct (last_n_suffix 20 (get_key_facts token k ++ [fact])) as [front Hf].
      rewrite (cons_middle fact), app_assoc, Hf, <- app_assoc in Hnd.
      by apply NoDup_app in Hnd as (_ & _ & Hnd).
    + rewrite last_n_length by done. lia.
Qed.

Lemma add_key_facts_fresh token facts :
  NoDup facts ->
  get_key_facts token (add_key_facts token facts ∅) = last_n 20 facts.
Proof.
  intros Hnd.
  assert (He : get_key_facts token ∅ = []) by (unfold get_key_facts; by rewrite lookup_empty).
  rewrite add_key_facts_distinct; rewrite He; [done|done|simpl; lia].
Qed.

(** C4.  [add_key_fact] returns false and changes nothing when the fact is
    already in the list of the token; otherwise it returns true and the list
    becomes the last 20 of the old list followed by the fact.  A list without
    duplicates of at most 20 facts stays so.  From the empty dictionary, 21
    distinct facts leave the last 20 of them, in order. *)
Theorem key_facts_dedup_and_cap (token fact : string) (k : gmap string (list string)) :
  let facts := get_key_facts token k in
  let after_call := fst (add_key_fact token fact k) in
  (fact ∈ facts -> add_key_fact token fact k = (k, false))
  /\ (fact ∉ facts ->
        snd (add_key_fact token fact k) = true
        /\ get_key_facts token after_call = last_n 20 (facts ++ [fact]))
  /\ (NoDup facts -> (length facts <= 20)%nat ->
        NoDup (get_key_facts token after_call)
        /\ (length (get_key_facts token after_call) <= 20)%nat)
  /\ (forall facts21, NoDup facts21 -> length facts21 = 21%nat ->
        get_key_facts token (add_key_facts token facts21 ∅) = drop 1 facts21).
Proof.
  intros facts after_call. subst facts after_call.
  split; [apply add_key_fact_present|].
  split; [apply add_key_fact_absent|].
  split.
  - intros Hnd Hlen.
    destruct (decide (fact ∈ get_key_facts token k)) as [Hin|Hout].
    + by rewrite (add_key_fact_present _ _ _ Hin).
    + destruct (add_key_fact_absent _ _ _ Hout) as [_ ->]. split.
      * apply last_n_NoDup, NoDup_app. split; [done|]. split; [|apply NoDup_singleton].
        intros x Hx Hx'. apply list_elem_of_singleton in Hx'. by subst.
      * rewrite last_n_length by done. lia.
  - intros facts21 Hfacts Hlen21.
    rewrite add_key_facts_fresh by done. unfold last_n. by rewrite Hlen21.
Qed.

Lemma key_facts_dedup_and_cap_witness :
  "offerte voor vrijdag" ∈ get_key_facts "tok" sample_facts
  /\ add_key_fact "tok" "offerte voor vrijdag" sample_facts = (sample_facts, false)
  /\ NoDup twenty_one_facts
  /\ length twenty_one_facts = 21%nat
  /\ get_key_facts "tok" (add_key_facts "tok" twenty_one_facts ∅)
     = drop 1 twenty_one_facts.
Proof.
  assert (H1 : "offerte voor vrijdag" ∈ get_key_facts "tok" sample_facts)
    by (apply (bool_decide_unpack _); vm_compute; exact I).
  assert (H2 : NoDup twenty_one_facts)
    by (apply (bool_decide_unpack _); vm_compute; exact I).
  assert (H3 : length twenty_one_facts = 21%nat) by reflexivity.
  destruct (key_facts_dedup_and_cap "tok" "offerte voor vrijdag" sample_facts)
    as (Hpresent & _ & _ & Hcap).
  split; [exact H1|]. split; [exact (Hpresent H1)|].
  split; [exact H2|]. split; [exact H3|]. exact (Hcap twenty_one_facts H2 H3).
Defined.

(** The fact that is already stored is not stored again. *)
Example key_facts_twice :
  get_key_facts "tok"
    (add_key_facts "tok" ["a"; "b"; "a"; "b"; "c"] ∅) = ["a"; "b"; "c"].
Proof. vm_compute. reflexivity. Qed.

(** ** Truncation *)

Section Slices.
Import PyStr.

Lemma length_append (a b : string) :
  String.length (a ++ b)%string = (String.length a + String.length b)%nat.
Proof. induction a as [|c a IH]; simpl; [reflexivity|]. by rewrite IH. Qed.

Lemma len_append (a b : string) : len (a ++ b)%string = len a + len b.
Proof. unfold len. rewrite length_append. lia. Qed.


Lemma length_take n : forall s,
  String.length (take n s) = Nat.min n (String.length s).
Proof.
  induction n as [|n IH]; intros [|c s]; simpl; try reflexivity. by rewrite IH.
Qed.

Lemma length_drop_string n : forall s,
  String.length (drop n s) = (String.length s - n)%nat.
Proof.
  induction n as [|n IH]; intros [|c s]; simpl; try reflexivity. by rewrite IH.
Qed.


End Slices.



(** The 600 characters of [long_text] become 240, the marker and 240. *)
Example truncate_long_text :
  truncate_message long_text 500
  = (String.concat EmptyString (repeat "0123456789" 24) ++ elision_marker
       ++ String.concat EmptyString (repeat "0123456789" 24))%string.
Proof. vm_compute. reflexivity. Qed.

(** ** Completion intent *)

Section Intent.
Import PyStr.


Lemma is_space_lower_char c : is_space (lower_char c) = is_space c.
Proof. by_character c. Qed.

Lemma lstrip_lower s : lstrip (lower s) = lower (lstrip s).
Proof.
  induction s as [|c r IH]; simpl; [reflexivity|].
  rewrite is_space_lower_char. by destruct (is_space c).
Qed.

Lemma rstrip_lower s : rstrip (lower s) = lower (rstrip s).
Proof.
  induction s as [|c r IH]; simpl; [reflexivity|].
  rewrite IH, is_space_lower_char.
  destruct (rstrip r); simpl; [|reflexivity]. by destruct (is_space c).
Qed.

(** Lower-casing and stripping commute: the handler strips first, the
    detector lower-cases first. *)
Lemma strip_lower s : strip (lower s) = lower (strip s).
Proof. unfold strip. by rewrite lstrip_lower, rstrip_lower. Qed.

End Intent.



(** A text with a phrase of each set is classified by the explicit one. *)
Example explicit_phrase_first :
  detect_completion_intent "Taak dicht: WE ZIJN KLAAR" = Some complete
  /\ detect_completion_intent "taak dicht" = Some confirm.
Proof. split; vm_compute; reflexivity. Qed.

(** ** The completion procedure *)

Lemma move_card_to_done_requests bots e board current_stack card :
  forallb is_deck_request (fst (move_card_to_done bots e board current_stack card))
  = true.
Proof.
  unfold move_card_to_done.
  destruct (bots !! "maarten"); [|reflexivity].
  destruct (deck_stacks e board) as [|code stacks]; [reflexivity|].
  destruct (negb (code =? 200)); [reflexivity|].
  destruct (find is_done_title stacks); reflexivity.
Qed.

(** Without a stack for finished cards the card is not moved. *)
Lemma move_card_to_done_no_stack bots e board current_stack card code stacks :
  deck_stacks e board = HttpAnswer code stacks ->
  forallb (fun st => negb (is_done_title st)) stacks = true ->
  snd (move_card_to_done bots e board current_stack card) = false.
Proof.
  intros Hs Hnone. unfold move_card_to_done.
  destruct (bots !! "maarten"); [|reflexivity]. rewrite Hs.
  destruct (negb (code =? 200)); [reflexivity|].
  destruct (find is_done_title stacks) as [st|] eqn:E; [|reflexivity].
  apply find_some in E as [Hin Htitle].
  rewrite forallb_forall in Hnone. specialize (Hnone st Hin).
  by rewrite Htitle in Hnone.
Qed.

Lemma finish_task_completed bots e token cfg t w :
  db_update_ok e = true ->
  finish_task bots e token cfg t w
  = (set_task_bots (alter (mark_completed (sql_now e)) token (task_bots w)) w,
     fst (move_card_to_done bots e (board_id t) (stack_id t) (card_id t))
       ++ [SendMessage (secret cfg) token (done_text t) None;
           Sleep 3;
           CloseConversation token (nextcloud_user cfg) (nextcloud_password cfg)],
     true).
Proof. intros H. unfold finish_task, complete_task. by rewrite H. Qed.

Lemma finish_task_failed bots e token cfg t w :
  db_update_ok e = false ->
  finish_task bots e token cfg t w
  = (w, [SendMessage (secret cfg) token failed_text None], send_ok e failed_text).
Proof. intros H. unfold finish_task, complete_task. by rewrite H. Qed.

Lemma sent_texts_app tr1 tr2 : sent_texts (tr1 ++ tr2) = sent_texts tr1 ++ sent_texts tr2.
Proof. apply omap_app. Qed.

Lemma sent_texts_deck tr : forallb is_deck_request tr = true -> sent_texts tr = [].
Proof.
  induction tr as [|ev tr IH]; [reflexivity|]. simpl.
  intros [Hev Htr]%andb_prop. destruct ev; try discriminate; by apply IH.
Qed.

Lemma no_claude_deck tr : forallb is_deck_request tr = true -> existsb is_call_claude tr = false.
Proof.
  induction tr as [|ev tr IH]; [reflexivity|]. simpl.
  intros [Hev Htr]%andb_prop. destruct ev; try discriminate; by apply IH.
Qed.

Lemma task_lookup e w token t :
  get_task_bot_by_token e w token = Some t ->
  db_readable e = true /\ task_bots w !! token = Some t.
Proof. unfold get_task_bot_by_token. by destruct (db_readable e). Qed.

Lemma completed_lookup at_time token t (tb : gmap string task_bot) :
  tb !! token = Some t ->
  alter (mark_completed at_time) token tb !! token = Some (mark_completed at_time t).
Proof. intros H. by rewrite lookup_alter_eq, H. Qed.

(** ** The dispatch of a text that is no command *)

Section Dispatch.
Variable bots : gmap string bot_config.
Variable e : env.
Variable user : string.
Variable cfg : bot_config.
Variables data params : json.
Variables token actor_name : string.
Variable reply_to : option Z.

Let run := route bots e user cfg data params token actor_name reply_to.
Let speak := natural_language bots e user cfg data params token actor_name reply_to.

Lemma route_natural_language m w :
  classify_command m = NoCommand -> run m w = speak m w.
Proof. intros H. unfold run, route. by rewrite H. Qed.

(** The [complete] verdict on an active task goes to the procedure. *)
Lemma natural_language_complete m w t :
  get_task_bot_by_token e w token = Some t ->
  status t = "active" ->
  detect_completion_intent m = Some complete ->
  speak m w
  = let '(w', evs, _) := finish_task bots e token cfg t w in
    Handled w' evs (Response 200 "status" "ok").
Proof.
  intros Ht Hs Hd. unfold speak, natural_language.
  by rewrite Ht, Hs, Hd.
Qed.


(** An affirmation after the question goes to the procedure, whatever the
    status of the task. *)
Lemma natural_language_affirmation m w t :
  get_task_bot_by_token e w token = Some t ->
  detect_completion_intent m = None ->
  is_affirmation m = true ->
  awaiting_confirmation w token = true ->
  speak m w
  = let '(w', evs, _) := finish_task bots e token cfg t w in
    Handled w' evs (Response 200 "status" "ok").
Proof.
  intros Ht Hd Ha Hw. unfold speak, natural_language.
  rewrite Ht, Hd, Ha, Hw. by destruct (String.eqb (status t) "active").
Qed.

(** What the procedure leaves behind, when the update goes through and when
    it does not. *)
Lemma finish_task_outcome t w :
  let '(w', evs, _) := finish_task bots e token cfg t w in
  conversation_history w' = conversation_history w
  /\ key_facts w' = key_facts w
  /\ existsb is_call_claude evs = false
  /\ (db_update_ok e = true ->
      task_bots w' = alter (mark_completed (sql_now e)) token (task_bots w)
      /\ sent_texts evs = [done_text t]
      /\ evs = fst (move_card_to_done bots e (board_id t) (stack_id t) (card_id t))
                 ++ [SendMessage (secret cfg) token (done_text t) None;
                     Sleep 3;
                     CloseConversation token (nextcloud_user cfg)
                       (nextcloud_password cfg)])
  /\ (db_update_ok e = false ->
      w' = w /\ evs = [SendMessage (secret cfg) token failed_text None]).
Proof.
  pose proof (move_card_to_done_requests bots e (board_id t) (stack_id t) (card_id t))
    as Hdeck.
  destruct (db_update_ok e) eqn:Hdb.
  - rewrite finish_task_completed by done.
    split; [reflexivity|]. split; [reflexivity|]. split; [|split].
    + rewrite existsb_app, (no_claude_deck _ Hdeck). reflexivity.
    + intros _. split; [reflexivity|]. split; [|reflexivity].
      rewrite sent_texts_app, (sent_texts_deck _ Hdeck). reflexivity.
    + discriminate.
  - rewrite finish_task_failed by done.
    split; [reflexivity|]. split; [reflexivity|]. split; [reflexivity|].
    split; [discriminate|]. done.
Qed.

End Dispatch.

(** C7.  In a conversation whose task is active, the text [we zijn klaar] is
    no command and is classified [complete]; the handler runs the completion
    procedure at once: it answers [ok], leaves both dictionaries as they were
    (the text is not appended to the history) and does not call Claude; when
    the update of the task table goes through, the status of the task is
    [completed] and the one message sent is the confirmation of the
    completion, followed by the pause and the deletion of the conversation;
    when it does not, the one message sent is the error reply. *)
Theorem explicit_completion_is_direct
    (bots : gmap string bot_config) (e : env) (user : string) (cfg : bot_config)
    (data params : json) (token actor_name : string) (reply_to : option Z)
    (w : world) (t : task_bot) :
  get_task_bot_by_token e w token = Some t ->
  status t = "active" ->
  let r := route bots e user cfg data params token actor_name reply_to
             "we zijn klaar" w in
  classify_command "we zijn klaar" = NoCommand
  /\ detect_completion_intent "we zijn klaar" = Some complete
  /\ answer r = Response 200 "status" "ok"
  /\ conversation_history (after r) = conversation_history w
  /\ key_facts (after r) = key_facts w
  /\ existsb is_call_claude (trace r) = false
  /\ (db_update_ok e = true ->
      option_map status (get_task_bot_by_token e (after r) token) = Some "completed"
      /\ sent_texts (trace r) = [done_text t]
      /\ trace r
         = fst (move_card_to_done bots e (board_id t) (stack_id t) (card_id t))
             ++ [SendMessage (secret cfg) token (done_text t) None;
                 Sleep 3;
                 CloseConversation token (nextcloud_user cfg) (nextcloud_password cfg)])
  /\ (db_update_ok e = false ->
      after r = w /\ sent_texts (trace r) = [failed_text]).
Proof.
  intros Ht Hs r.
  assert (Hc : classify_command "we zijn klaar" = NoCommand) by (vm_compute; reflexivity).
  assert (Hd : detect_completion_intent "we zijn klaar" = Some complete)
    by (vm_compute; reflexivity).
  split; [exact Hc|]. split; [exact Hd|].
  subst r. rewrite route_natural_language by exact Hc.
  rewrite (natural_language_complete _ _ _ _ _ _ _ _ _ _ _ t) by done.
  pose proof (finish_task_outcome bots e cfg token t w) as Hout.
  destruct (finish_task bots e token cfg t w) as [[w' evs] flag].
  destruct Hout as (Hh & Hk & Hclaude & Hok & Hfail). simpl.
  split; [reflexivity|]. split; [exact Hh|]. split; [exact Hk|].
  split; [exact Hclaude|]. split.
  - intros Hdb. destruct (Hok Hdb) as (Htb & Hsent & Hevs).
    split; [|split; done].
    destruct (task_lookup _ _ _ _ Ht) as [Hread Hrow].
    unfold get_task_bot_by_token. rewrite Hread, Htb.
    by rewrite (completed_lookup _ _ _ _ Hrow).
  - intros Hdb. destruct (Hfail Hdb) as [-> ->]. done.
Qed.

Lemma explicit_completion_is_direct_witness :
  get_task_bot_by_token sample_env sample_world "tok" = Some sample_task
  /\ status sample_task = "active"
  /\ (let r := sample_route sample_env "we zijn klaar" sample_world in
      answer r = Response 200 "status" "ok"
      /\ conversation_history (after r) = conversation_history sample_world
      /\ existsb is_call_claude (trace r) = false).
Proof.
  assert (H1 : get_task_bot_by_token sample_env sample_world "tok" = Some sample_task)
    by (vm_compute; reflexivity).
  assert (H2 : status sample_task = "active") by reflexivity.
  split; [exact H1|]. split; [exact H2|].
  destruct (explicit_completion_is_direct sample_bots sample_env "maarten"
              sample_config (JDict []) (JDict []) "tok" "Jan" None sample_world
              sample_task H1 H2) as (_ & _ & Ha & Hh & _ & Hc & _).
  split; [exact Ha|]. split; [exact Hh|exact Hc].
Defined.

(** The run of the sample: the card goes to the stack Klaar, the task is
    marked, the conversation is told and deleted. *)
Example we_zijn_klaar_run :
  let r := sample_route sample_env "we zijn klaar" sample_world in
  trace r
  = [GetStacks 4; ReorderCard 4 11 37 12;
     SendMessage "s3cret" "tok" (done_text sample_task) None;
     Sleep 3; CloseConversation "tok" "maarten" "wachtwoord"]
  /\ option_map status (task_bots (after r) !! "tok") = Some "completed"
  /\ conversation_history (after r) = ∅.
Proof. vm_compute. repeat split. Qed.

(** ** Confirmation and affirmation *)

Lemma last_last_n {A : Type} n (l : list A) x :
  n <> 0%nat -> last (last_n n (l ++ [x])) = Some x.
Proof.
  intros Hn. destruct n as [|n]; [done|]. unfold last_n.
  rewrite length_app. simpl.
  rewrite drop_app_le by lia. apply last_snoc.
Qed.

(** An affirmation is no command and carries no completion phrase. *)
Lemma affirmation_is_plain m :
  is_affirmation m = true ->
  classify_command m = NoCommand /\ detect_completion_intent m = None.
Proof.
  unfold is_affirmation, classify_command, detect_completion_intent.
  rewrite strip_lower.
  generalize (PyStr.lower (PyStr.strip m)). intros n H.
  simpl in H. rewrite !orb_true_iff in H.
  destruct H as [H|[H|[H|[H|[H|[H|H]]]]]]; try discriminate H;
    apply String.eqb_eq in H; subst n; split; vm_compute; reflexivity.
Qed.





(** ** Failures in the completion procedure *)

(** C9.  On [/done] in a conversation with a task: when the update of the task
    table goes through, the row of the task is marked [completed] and the
    handler sends the confirmation, pauses and asks for the deletion of the
    conversation, whatever [move_card_to_done] returned (it returns false, for
    one, when no stack has a title with klaar, done or afgerond); when the
    update fails, nothing is changed, the one thing done is the error reply,
    and no deletion is asked for. *)
Theorem completion_failure_modes
    (bots : gmap string bot_config) (e : env) (user : string) (cfg : bot_config)
    (data params : json) (token actor_name : string) (reply_to : option Z)
    (w : world) (t : task_bot) :
  get_task_bot_by_token e w token = Some t ->
  let r := route bots e user cfg data params token actor_name reply_to "/done" w in
  let moved := move_card_to_done bots e (board_id t) (stack_id t) (card_id t) in
  (db_update_ok e = true ->
     task_bots (after r) !! token = Some (mark_completed (sql_now e) t)
     /\ status (mark_completed (sql_now e) t) = "completed"
     /\ completed_at (mark_completed (sql_now e) t) = Some (sql_now e)
     /\ trace r
        = fst moved
            ++ [SendMessage (secret cfg) token (done_text t) None;
                Sleep 3;
                CloseConversation token (nextcloud_user cfg) (nextcloud_password cfg)]
     /\ forallb is_deck_request (fst moved) = true
     /\ answer r = Response 200 "status" "ok")
  /\ (db_update_ok e = false ->
        after r = w
        /\ trace r = [SendMessage (secret cfg) token failed_text None]
        /\ existsb is_close (trace r) = false
        /\ answer r = status_reply (send_ok e failed_text))
  /\ (forall code stacks,
        deck_stacks e (board_id t) = HttpAnswer code stacks ->
        forallb (fun st => negb (is_done_title st)) stacks = true ->
        snd moved = false).
Proof.
  intros Ht r moved. subst r moved. unfold route.
  change (classify_command "/done") with CmdDone. cbv iota. rewrite Ht.
  split; [|split].
  - intros Hdb. rewrite finish_task_completed by done. simpl.
    destruct (task_lookup _ _ _ _ Ht) as [_ Hrow].
    split; [by apply completed_lookup|].
    split; [reflexivity|]. split; [reflexivity|]. split; [reflexivity|].
    split; [apply move_card_to_done_requests|reflexivity].
  - intros Hdb. rewrite finish_task_failed by done. simpl. done.
  - intros code stacks. apply move_card_to_done_no_stack.
Qed.

Lemma completion_failure_modes_witness :
  get_task_bot_by_token env_without_done_stack sample_world "tok" = Some sample_task
  /\ db_update_ok env_without_done_stack = true
  /\ snd (move_card_to_done sample_bots env_without_done_stack 4 11 37) = false
  /\ task_bots (after (sample_route env_without_done_stack "/done" sample_world)) !! "tok"
     = Some (mark_completed (sql_now env_without_done_stack) sample_task)
  /\ get_task_bot_by_token env_with_failing_update sample_world "tok" = Some sample_task
  /\ db_update_ok env_with_failing_update = false
  /\ after (sample_route env_with_failing_update "/done" sample_world) = sample_world.
Proof.
  assert (H1 : get_task_bot_by_token env_without_done_stack sample_world "tok"
               = Some sample_task) by (vm_compute; reflexivity).
  assert (H2 : db_update_ok env_without_done_stack = true) by reflexivity.
  assert (H3 : get_task_bot_by_token env_with_failing_update sample_world "tok"
               = Some sample_task) by (vm_compute; reflexivity).
  assert (H4 : db_update_ok env_with_failing_update = false) by reflexivity.
  pose proof (completion_failure_modes sample_bots env_without_done_stack "maarten"
                sample_config (JDict []) (JDict []) "tok" "Jan" None sample_world
                sample_task H1) as (Hok & _ & Hnone).
  pose proof (completion_failure_modes sample_bots env_with_failing_update "maarten"
                sample_config (JDict []) (JDict []) "tok" "Jan" None sample_world
                sample_task H3) as (_ & Hfail & _).
  split; [exact H1|]. split; [exact H2|]. split.
  { apply (Hnone 200 [Stack 11 "Bezig"; Stack 13 "Wachten"]); vm_compute; reflexivity. }
  split; [exact (proj1 (Hok H2))|].
  split; [exact H3|]. split; [exact H4|]. exact (proj1 (Hfail H4)).
Defined.

(** Without a stack for finished cards the task is completed all the same;
    with a failing update the conversation gets the error reply and stays. *)
Example done_without_stack :
  trace (sample_route env_without_done_stack "/done" sample_world)
  = [GetStacks 4;
     SendMessage "s3cret" "tok" (done_text sample_task) None;
     Sleep 3; CloseConversation "tok" "maarten" "wachtwoord"]
  /\ trace (sample_route env_with_failing_update "/done" sample_world)
     = [SendMessage "s3cret" "tok" failed_text None].
Proof. vm_compute. repeat split. Qed.

(** ** The affirmation is not recorded *)

(** C10.  When an affirmation completes the task through the pending
    question, the history is left exactly as it was, so the question is still
    pending; when the update went through, the task is then [completed], and a
    second affirmation, in a later request that can read the task table, runs
    the completion procedure again on that completed task: with a working
    update it sends the confirmation once more and asks again for the
    deletion of the conversation, and it leaves the history untouched again. *)
Theorem affirmation_not_recorded
    (bots : gmap string bot_config) (e e' : env) (user : string) (cfg : bot_config)
    (data params data' params' : json) (token actor_name : string)
    (reply_to reply_to' : option Z) (w : world) (t : task_bot) (m m' : string) :
  get_task_bot_by_token e w token = Some t ->
  is_affirmation m = true ->
  is_affirmation m' = true ->
  awaiting_confirmation w token = true ->
  let r1 := route bots e user cfg data params token actor_name reply_to m w in
  let t1 := mark_completed (sql_now e) t in
  let r2 := route bots e' user cfg data' params' token actor_name reply_to' m'
              (after r1) in
  conversation_history (after r1) = conversation_history w
  /\ awaiting_confirmation (after r1) token = true
  /\ (db_update_ok e = true -> db_readable e' = true ->
      get_task_bot_by_token e' (after r1) token = Some t1
      /\ status t1 = "completed"
      /\ conversation_history (after r2) = conversation_history w
      /\ awaiting_confirmation (after r2) token = true
      /\ (db_update_ok e' = true ->
          trace r2
          = fst (move_card_to_done bots e' (board_id t1) (stack_id t1) (card_id t1))
              ++ [SendMessage (secret cfg) token (done_text t1) None;
                  Sleep 3;
                  CloseConversation token (nextcloud_user cfg)
                    (nextcloud_password cfg)])).
Proof.
  intros Ht Ha Ha' Hw r1 t1 r2.
  destruct (affirmation_is_plain m Ha) as [Hc Hd].
  destruct (affirmation_is_plain m' Ha') as [Hc' Hd'].
  assert (Hr1 : r1 = let '(w', evs, _) := finish_task bots e token cfg t w in
                     Handled w' evs (Response 200 "status" "ok")).
  { subst r1. rewrite route_natural_language by exact Hc.
    by apply natural_language_affirmation. }
  pose proof (finish_task_outcome bots e cfg token t w) as Hout.
  destruct (finish_task bots e token cfg t w) as [[w1 evs1] flag1].
  destruct Hout as (Hh & _ & _ & Hok & _).
  assert (Hafter : after r1 = w1) by (by rewrite Hr1).
  assert (Hw1 : awaiting_confirmation w1 token = true).
  { unfold awaiting_confirmation in *. by rewrite Hh. }
  subst r2. rewrite Hafter.
  split; [exact Hh|]. split; [exact Hw1|].
  intros Hdb Hread.
  destruct (task_lookup _ _ _ _ Ht) as [_ Hrow].
  destruct (Hok Hdb) as (Htb & _ & _).
  assert (Ht1 : get_task_bot_by_token e' w1 token = Some t1).
  { unfold get_task_bot_by_token. rewrite Hread, Htb. by apply completed_lookup. }
  split; [exact Ht1|]. split; [reflexivity|].
  rewrite route_natural_language by exact Hc'.
  rewrite (natural_language_affirmation _ _ _ _ _ _ _ _ _ _ _ t1) by done.
  pose proof (finish_task_outcome bots e' cfg token t1 w1) as Hout2.
  destruct (finish_task bots e' token cfg t1 w1) as [[w2 evs2] flag2].
  destruct Hout2 as (Hh2 & _ & _ & Hok2 & _). simpl.
  split; [by rewrite Hh2|].
  split; [unfold awaiting_confirmation in *; by rewrite Hh2|].
  intros Hdb'. by destruct (Hok2 Hdb') as (_ & _ & ->).
Qed.

Lemma affirmation_not_recorded_witness :
  get_task_bot_by_token sample_env asked_world "tok" = Some sample_task
  /\ is_affirmation "ja" = true
  /\ is_affirmation "akkoord" = true
  /\ awaiting_confirmation asked_world "tok" = true
  /\ (let r1 := sample_route sample_env "ja" asked_world in
      conversation_history (after r1) = conversation_history asked_world
      /\ awaiting_confirmation (after r1) "tok" = true).
Proof.
  assert (H1 : get_task_bot_by_token sample_env asked_world "tok" = Some sample_task)
    by (vm_compute; reflexivity).
  assert (H2 : is_affirmation "ja" = true) by (vm_compute; reflexivity).
  assert (H3 : is_affirmation "akkoord" = true) by (vm_compute; reflexivity).
  assert (H4 : awaiting_confirmation asked_world "tok" = true)
    by (vm_compute; reflexivity).
  split; [exact H1|]. split; [exact H2|]. split; [exact H3|]. split; [exact H4|].
  destruct (affirmation_not_recorded sample_bots sample_env sample_env "maarten"
              sample_config (JDict []) (JDict []) (JDict []) (JDict []) "tok" "Jan"
              None None asked_world sample_task "ja" "akkoord" H1 H2 H3 H4)
    as (Hh & Hw & _).
  split; [exact Hh|exact Hw].
Defined.

(** The two affirmations of the sample: each of them moves the card, sends the
    confirmation and deletes the conversation; the history keeps its two
    entries. *)
Example ja_twice :
  let r1 := sample_route sample_env "ja" asked_world in
  let r2 := sample_route sample_env "akkoord" (after r1) in
  option_map status (task_bots (after r1) !! "tok") = Some "completed"
  /\ trace r2 = trace r1
  /\ sent_texts (trace r2) = [done_text sample_task]
  /\ existsb is_close (trace r2) = true
  /\ map content (history_of "tok" (conversation_history (after r2)))
     = ["kunnen we afronden"; confirm_note].
Proof. vm_compute. repeat split. Qed.

(** ** Rejections of the webhook *)

Section Rejections.
Variable bots : gmap string bot_config.
Variable e : env.
Variable user : string.
Variable req : request.
Variable w : world.

Let signature := default EmptyString (header_signature req).
Let random_header := default EmptyString (header_random req).

(** An unknown bot is answered 404, whatever the request carries. *)
Lemma unknown_bot_is_404 :
  bots !! user = None ->
  handle_webhook bots e user req w
  = Handled w [] (Response 404 "error" "Unknown bot").
Proof. intros H. unfold handle_webhook. by rewrite H. Qed.

(** A signature that [verify_signature] refuses is answered 401, whatever
    [json.loads] would make of the body. *)
Lemma refused_signature_is_401 cfg :
  bots !! user = Some cfg ->
  verify_signature (secret cfg) random_header (body req) signature = Ok false ->
  handle_webhook bots e user req w
  = Handled w [] (Response 401 "error" "Invalid signature").
Proof.
  intros Hb Hv. unfold handle_webhook. rewrite Hb.
  fold signature random_header. by rewrite Hv.
Qed.

(** A signed body that is no JSON text is answered 400. *)
Lemma invalid_json_is_400 cfg :
  bots !! user = Some cfg ->
  verify_signature (secret cfg) random_header (body req) signature = Ok true ->
  json_loads e (body req) = None ->
  handle_webhook bots e user req w
  = Handled w [] (Response 400 "error" "Invalid JSON").
Proof.
  intros Hb Hv Hj. unfold handle_webhook. rewrite Hb.
  fold signature random_header. by rewrite Hv, Hj.
Qed.

(** A signature with a character outside ASCII is neither accepted nor
    refused: [hmac.compare_digest] raises and the exception leaves the
    handler. *)
Lemma non_ascii_signature_raises cfg :
  bots !! user = Some cfg ->
  secret cfg <> EmptyString ->
  PyStr.is_ascii signature = false ->
  handle_webhook bots e user req w = Handled w [] (Uncaught TypeError).
Proof.
  intros Hb Hs Ha. unfold handle_webhook. rewrite Hb.
  fold signature random_header.
  unfold verify_signature, compare_digest.
  rewrite (truthy_nonempty _ Hs). simpl.
  by rewrite !is_ascii_lower, Ha, andb_false_r.
Qed.

End Rejections.

(** C2, on a request that the code answers otherwise.  The bot [maarten] is
    configured; the request carries a signature header with a letter outside
    ASCII.  The signature is invalid, and the handler does not answer 401: the
    [TypeError] of [hmac.compare_digest] leaves it (nothing is changed and
    nothing is sent). *)
Theorem invalid_signature_not_401 :
  let req := Request (Some accented_signature) (Some "nonce") "{}" in
  handle_webhook sample_bots sample_env "maarten" req sample_world
  = Handled sample_world [] (Uncaught TypeError)
  /\ handle_webhook sample_bots sample_env "maarten"
       (Request (Some "00ff") (Some "nonce") "{}") sample_world
     = Handled sample_world [] (Response 401 "error" "Invalid signature").
Proof.
  split.
  - apply (non_ascii_signature_raises _ _ _ _ _ sample_config); reflexivity || discriminate.
  - apply (refused_signature_is_401 _ _ _ _ _ sample_config); [reflexivity|].
    vm_compute. reflexivity.
Qed.

(** ** From the webhook to the dispatch *)

(** An authenticated activity with a text content and a token is handed to
    the dispatch. *)
Lemma handle_webhook_routes bots e user req w cfg data env text params :
  bots !! user = Some cfg ->
  verify_signature (secret cfg) (default EmptyString (header_random req)) (body req)
    (default EmptyString (header_signature req)) = Ok true ->
  json_loads e (body req) = Some data ->
  read_envelope data = Ok (Some env) ->
  env_actor_type env <> JStr "Application" ->
  json_truthy (env_content env) = true ->
  PyStr.truthy (default EmptyString (env_token env)) = true ->
  parse_content e (env_content env) = (JStr text, params) ->
  handle_webhook bots e user req w
  = route bots e user cfg data params (default EmptyString (env_token env))
      (name_text e (env_actor_name env)) (env_reply_to env) text w.
Proof.
  intros Hb Hv Hj Hr Hactor Hc Ht Hp. unfold handle_webhook.
  rewrite Hb, Hv, Hj, Hr, Hc, Ht, Hp. simpl.
  destruct (env_actor_type env) as [| | |ty| |]; try reflexivity.
  destruct (String.eqb_spec ty "Application") as [->|]; [done|reflexivity].
Qed.

(** The signed request of the sample goes through the whole handler: the
    task is completed, the message is the reply to message 57 only in the
    conversational turn, which is not reached. *)
Example signed_we_zijn_klaar :
  let r := handle_webhook sample_bots webhook_env "maarten" signed_request sample_world in
  header_signature signed_request
  = Some "c0eaa761733de1eacb37f23c217abfd78223f101cab5f190a65c9cabc1b320e3"
  /\ answer r = Response 200 "status" "ok"
  /\ sent_texts (trace r) = [done_text sample_task]
  /\ option_map status (task_bots (after r) !! "tok") = Some "completed"
  /\ conversation_history (after r) = ∅.
Proof. vm_compute. repeat split. Qed.

(** The commands come first: a text that starts with a command is handled as
    that command, whatever phrase it carries. *)
Example command_before_intent :
  detect_completion_intent "/remember kunnen we afronden" = Some confirm
  /\ classify_command "/remember kunnen we afronden" = CmdRemember
  /\ sent_texts (trace (sample_route sample_env "/remember kunnen we afronden"
                          sample_world))
     = [" Onthouden: kunnen we afronden"].
Proof. vm_compute. repeat split. Qed.

(** * Further properties of the code *)

(** ** The length of a digest *)

Section DigestLength.
Import Sha256.

Lemma length_be_bytes count x : length (be_bytes count x) = count.
Proof. unfold be_bytes. by rewrite length_map, length_seq. Qed.

Lemma length_flat_be_bytes ws : length (flat_map (be_bytes 4) ws) = (4 * length ws)%nat.
Proof.
  induction ws as [|x ws IH]; [reflexivity|].
  change (flat_map (be_bytes 4) (x :: ws))
    with (be_bytes 4 x ++ flat_map (be_bytes 4) ws).
  rewrite length_app, length_be_bytes, IH. simpl. lia.
Qed.

Lemma length_compress h block : length (compress h block) = 8%nat.
Proof. reflexivity. Qed.

Lemma length_blocks fuel : forall h bs,
  length h = 8%nat -> length (blocks fuel h bs) = 8%nat.
Proof.
  induction fuel as [|k IH]; intros h bs Hh; [by destruct bs|].
  destruct bs as [|b bs]; [exact Hh|].
  change (blocks (S k) h (b :: bs))
    with (blocks k (compress h (firstn 64 (b :: bs))) (skipn 64 (b :: bs))).
  apply IH, length_compress.
Qed.

Lemma length_digest msg : length (digest msg) = 32%nat.
Proof.
  unfold digest. rewrite length_flat_be_bytes, length_blocks; reflexivity.
Qed.

Lemma length_hex bs : String.length (hex bs) = (2 * length bs)%nat.
Proof. induction bs as [|b bs IH]; simpl; [reflexivity|]. rewrite IH. lia. Qed.

Lemma length_hmac_hexdigest key msg : String.length (hmac_hexdigest key msg) = 64%nat.
Proof. unfold hmac_hexdigest, hmac. by rewrite length_hex, length_digest. Qed.

Lemma length_lower s : String.length (PyStr.lower s) = String.length s.
Proof. induction s as [|c s IH]; simpl; [reflexivity|]. by rewrite IH. Qed.

End DigestLength.

(** ** Requests that are turned away *)

(** A signature of ASCII characters that does not have the 64 characters of a
    hex digest is refused with 401, whatever the body; so is a request without
    the signature header.  Nothing is changed and nothing is sent. *)
Theorem wrong_length_signature_is_401
    (bots : gmap string bot_config) (e : env) (user : string) (req : request)
    (w : world) (cfg : bot_config) :
  bots !! user = Some cfg ->
  secret cfg <> EmptyString ->
  PyStr.is_ascii (default EmptyString (header_signature req)) = true ->
  String.length (default EmptyString (header_signature req)) <> 64%nat ->
  handle_webhook bots e user req w
  = Handled w [] (Response 401 "error" "Invalid signature").
Proof.
  intros Hb Hs Ha Hlen. unfold handle_webhook. rewrite Hb.
  rewrite verify_signature_ascii by done.
  set (tag := Sha256.hmac_hexdigest _ _).
  set (sig := default EmptyString (header_signature req)) in *.
  destruct (String.eqb_spec tag (PyStr.lower sig)) as [Heq|Hne]; [|reflexivity].
  exfalso. apply Hlen. apply (f_equal String.length) in Heq.
  subst tag. by rewrite length_hmac_hexdigest, length_lower in Heq.
Qed.

Lemma wrong_length_signature_is_401_witness :
  sample_bots !! "maarten" = Some sample_config
  /\ secret sample_config <> EmptyString
  /\ handle_webhook sample_bots sample_env "maarten"
       (Request None (Some "nonce") "{}") sample_world
     = Handled sample_world [] (Response 401 "error" "Invalid signature").
Proof.
  assert (H1 : sample_bots !! "maarten" = Some sample_config) by reflexivity.
  assert (H2 : secret sample_config <> EmptyString) by discriminate.
  split; [exact H1|]. split; [exact H2|].
  apply (wrong_length_signature_is_401 sample_bots sample_env "maarten"
           (Request None (Some "nonce") "{}") sample_world sample_config H1 H2);
    [reflexivity|discriminate].
Defined.

(** A bot that is configured with an empty secret answers 401 to every
    request, also to one that carries the digest for the empty key. *)
Theorem empty_secret_refuses_all
    (bots : gmap string bot_config) (e : env) (user : string) (req : request)
    (w : world) (cfg : bot_config) :
  bots !! user = Some cfg ->
  secret cfg = EmptyString ->
  handle_webhook bots e user req w
  = Handled w [] (Response 401 "error" "Invalid signature").
Proof.
  intros Hb Hs. unfold handle_webhook. rewrite Hb, Hs.
  by rewrite verify_signature_empty_secret.
Qed.

Lemma empty_secret_refuses_all_witness :
  unsecured_bots !! "freek" = Some unsecured_config
  /\ secret unsecured_config = EmptyString
  /\ handle_webhook unsecured_bots sample_env "freek"
       (Request (Some (Sha256.hmac_hexdigest EmptyString ("nonce" ++ "{}")%string))
                (Some "nonce") "{}") sample_world
     = Handled sample_world [] (Response 401 "error" "Invalid signature").
Proof.
  assert (H1 : unsecured_bots !! "freek" = Some unsecured_config) by reflexivity.
  assert (H2 : secret unsecured_config = EmptyString) by reflexivity.
  split; [exact H1|]. split; [exact H2|].
  exact (empty_secret_refuses_all unsecured_bots sample_env "freek" _ sample_world
           unsecured_config H1 H2).
Defined.

(** Whatever the request, the handler either changes nothing and sends
    nothing, or the request was signed with the secret of the bot, its body
    is a JSON text, its actor is no application, it names a conversation, and
    the handler does what the dispatch does for that conversation. *)
Theorem effects_need_a_signed_activity
    (bots : gmap string bot_config) (e : env) (user : string) (req : request)
    (w : world) :
  let r := handle_webhook bots e user req w in
  (after r = w /\ trace r = [])
  \/ exists cfg data env token text params,
       bots !! user = Some cfg
       /\ verify_signature (secret cfg) (default EmptyString (header_random req))
            (body req) (default EmptyString (header_signature req)) = Ok true
       /\ json_loads e (body req) = Some data
       /\ read_envelope data = Ok (Some env)
       /\ env_actor_type env <> JStr "Application"
       /\ env_token env = Some token /\ token <> EmptyString
       /\ r = route bots e user cfg data params token
                (name_text e (env_actor_name env)) (env_reply_to env) text w.
Proof.
  intros r. subst r. unfold handle_webhook.
  destruct (bots !! user) as [cfg|] eqn:Hb; [|by left].
  destruct (verify_signature _ _ _ _) as [[|]|ex] eqn:Hv; [|by left|by left].
  destruct (json_loads e (body req)) as [data|] eqn:Hj; [|by left].
  destruct (read_envelope data) as [[env|]|ex] eqn:Hr; [|by left|by left].
  destruct (match env_actor_type env with
            | JStr ty => String.eqb ty "Application"
            | _ => false
            end) eqn:Hactor; [by left|].
  destruct (negb (json_truthy (env_content env))
            || negb (PyStr.truthy (default EmptyString (env_token env)))) eqn:Hc;
    [by left|].
  destruct (parse_content e (env_content env)) as [message_content params] eqn:Hp.
  destruct message_content as [| | |text| |]; try by left.
  right. exists cfg, data, env, (default EmptyString (env_token env)), text, params.
  apply orb_false_elim in Hc as [_ Htok]. apply negb_false_iff in Htok.
  destruct (env_token env) as [token|]; [|discriminate]. simpl in *.
  repeat split; try done.
  - intros Heq. rewrite Heq in Hactor. discriminate.
  - intros ->. discriminate.
Qed.

(** ** What a request can change *)

Lemma finish_task_change bots e token actor_name cfg t w :
  change e token actor_name w (fst (fst (finish_task bots e token cfg t w))).
Proof.
  unfold finish_task, complete_task.
  destruct (db_update_ok e); simpl; constructor.
Qed.

Lemma converse_change e user cfg data params token actor_name reply_to m task w :
  change e token actor_name w
    (after (converse e user cfg data params token actor_name reply_to m task w)).
Proof.
  unfold converse. cbv zeta.
  match goal with |- context [snd ?h] => destruct (snd h) as [text|] end;
    [|constructor].
  destruct (get_history_context _ _ _); simpl; [|apply change_said].
  unfold set_history at 1. simpl. apply change_turn.
Qed.

Lemma natural_language_change bots e user cfg data params token actor_name reply_to m w :
  change e token actor_name w
    (after (natural_language bots e user cfg data params token actor_name reply_to m w)).
Proof.
  unfold natural_language. cbv zeta.
  destruct (get_task_bot_by_token e w token) as [t|]; [|apply converse_change].
  pose proof (finish_task_change bots e token actor_name cfg t w) as Hfin.
  destruct (finish_task bots e token cfg t w) as [[w' evs] flag]. simpl in Hfin.
  destruct (String.eqb (status t) "active");
    [destruct (detect_completion_intent m) as [[|]|]|];
    try (destruct (is_affirmation m && awaiting_confirmation w token));
    simpl; try exact Hfin; try apply converse_change; constructor.
Qed.

(** The state after the dispatch differs from the state before by one of the
    changes. *)
Lemma route_change bots e user cfg data params token actor_name reply_to m w :
  change e token actor_name w
    (after (route bots e user cfg data params token actor_name reply_to m w)).
Proof.
  unfold route. cbv zeta.
  destruct (classify_command m); try (destruct (service e _ m); simpl; constructor).
  - destruct (conversation_history w !! token); simpl; constructor.
  - simpl; constructor.
  - simpl; constructor.
  - destruct (negb _); [simpl; constructor|].
    pose proof (change_remember e token actor_name w
                  (PyStr.strip (PyStr.slice_from 10 (PyStr.strip m)))) as H.
    destruct (add_key_fact token _ (key_facts w)) as [k added]. simpl in H.
    by destruct added.
  - destruct (get_key_facts token (key_facts w)); simpl; constructor.
  - destruct (py_int _) as [n|]; [|simpl; constructor].
    destruct (key_facts w !! token) as [facts|] eqn:Hk; [|simpl; constructor].
    destruct (if 0 <=? n - 1 then facts !! Z.to_nat (n - 1) else None);
      simpl; [by apply change_forget|constructor].
  - simpl; constructor.
  - destruct (get_task_bot_by_token e w token) as [t|]; [|simpl; constructor].
    pose proof (finish_task_change bots e token actor_name cfg t w) as Hfin.
    by destruct (finish_task bots e token cfg t w) as [[w' evs] flag].
  - destruct (get_task_bot_by_token e w token); simpl; constructor.
  - apply natural_language_change.
Qed.

(** So does the state after the handler, for some conversation. *)
Lemma handle_webhook_change bots e user req w :
  exists token actor_name,
    change e token actor_name w (after (handle_webhook bots e user req w)).
Proof.
  unfold handle_webhook.
  assert (Hsame : forall tr out, exists token actor_name,
             change e token actor_name w (after (Handled w tr out))).
  { intros. exists EmptyString, EmptyString. constructor. }
  destruct (bots !! user) as [cfg|]; [|apply Hsame].
  destruct (verify_signature _ _ _ _) as [[|]|ex]; [|apply Hsame|apply Hsame].
  destruct (json_loads e (body req)) as [data|]; [|apply Hsame].
  destruct (read_envelope data) as [[env|]|ex]; [|apply Hsame|apply Hsame].
  destruct (match env_actor_type env with
            | JStr ty => String.eqb ty "Application"
            | _ => false
            end); [apply Hsame|].
  destruct (_ || _); [apply Hsame|].
  destruct (parse_content e (env_content env)) as [message_content params].
  destruct message_content as [| | |text| |]; try apply Hsame.
  eexists _, _. apply route_change.
Qed.

Lemma add_to_history_lookup_ne now0 token role0 name0 content0 h token' :
  token' <> token ->
  add_to_history now0 token role0 name0 content0 h !! token' = h !! token'.
Proof.
  intros Hne. unfold add_to_history.
  assert (Hk : forall x, <[token := x]> (match h !! token with
                             | None => <[token := []]> h
                             | Some _ => h
                             end) !! token' = h !! token').
  { intros x. rewrite lookup_insert_ne by done.
    destruct (h !! token); [done|]. by rewrite lookup_insert_ne. }
  destruct (_ <? _)%nat; [rewrite lookup_insert_ne by done|]; by rewrite Hk.
Qed.

Lemma add_key_fact_lookup_ne token fact k token' :
  token' <> token ->
  fst (add_key_fact token fact k) !! token' = k !! token'.
Proof.
  intros Hne. unfold add_key_fact.
  assert (Hk0 : match k !! token with
                | None => <[token := []]> k
                | Some _ => k
                end !! token' = k !! token').
  { destruct (k !! token); [done|]. by rewrite lookup_insert_ne. }
  destruct (bool_decide _); [simpl; by rewrite Hk0|].
  destruct (_ <? _)%nat; simpl; rewrite ?(lookup_insert_ne _ token token') by done;
    by rewrite Hk0.
Qed.

(** A request in one conversation leaves the history, the key facts and the
    task of every other conversation as they are. *)
Theorem other_conversations_untouched
    (bots : gmap string bot_config) (e : env) (user : string) (cfg : bot_config)
    (data params : json) (token actor_name : string) (reply_to : option Z)
    (m : string) (w : world) (token' : string) :
  token' <> token ->
  let r := route bots e user cfg data params token actor_name reply_to m w in
  conversation_history (after r) !! token' = conversation_history w !! token'
  /\ key_facts (after r) !! token' = key_facts w !! token'
  /\ task_bots (after r) !! token' = task_bots w !! token'.
Proof.
  intros Hne r.
  pose proof (route_change bots e user cfg data params token actor_name reply_to m w)
    as Hc.
  fold r in Hc. destruct Hc; simpl; repeat split; try reflexivity.
  - by rewrite lookup_delete_ne.
  - by apply add_key_fact_lookup_ne.
  - by rewrite lookup_insert_ne.
  - by rewrite lookup_alter_ne.
  - by apply add_to_history_lookup_ne.
  - by rewrite !add_to_history_lookup_ne.
Qed.

Lemma other_conversations_untouched_witness :
  "andere" <> "tok"
  /\ (let r := sample_route sample_env "/reset" busy_world in
      conversation_history (after r) !! "andere" = conversation_history busy_world !! "andere"
      /\ key_facts (after r) !! "andere" = key_facts busy_world !! "andere"
      /\ task_bots (after r) !! "andere" = task_bots busy_world !! "andere").
Proof.
  assert (H : "andere" <> "tok") by discriminate.
  split; [exact H|].
  exact (other_conversations_untouched sample_bots sample_env "maarten" sample_config
           (JDict []) (JDict []) "tok" "Jan" None "/reset" busy_world "andere" H).
Defined.

(** No request adds a row to the task table or removes one: after the
    handler, every conversation has the row that it had, or that row with the
    completion mark. *)
Theorem task_rows_are_kept
    (bots : gmap string bot_config) (e : env) (user : string) (req : request)
    (w : world) (token : string) :
  let w' := after (handle_webhook bots e user req w) in
  task_bots w' !! token = task_bots w !! token
  \/ task_bots w' !! token = mark_completed (sql_now e) <$> task_bots w !! token.
Proof.
  intros w'. subst w'.
  destruct (handle_webhook_change bots e user req w) as (tok & actor & Hc).
  destruct Hc; simpl; try by left.
  rewrite lookup_alter. case_decide; [subst; by right|by left].
Qed.

(** ** The bounds of the memory in every reachable state *)

Lemma add_key_fact_bounds token fact k token' :
  (length (get_key_facts token' k) <= 20)%nat ->
  NoDup (get_key_facts token' k) ->
  (length (get_key_facts token' (fst (add_key_fact token fact k))) <= 20)%nat
  /\ NoDup (get_key_facts token' (fst (add_key_fact token fact k))).
Proof.
  intros Hlen Hnd. destruct (decide (token' = token)) as [->|Hne].
  - destruct (decide (fact ∈ get_key_facts token k)) as [Hin|Hout].
    + by rewrite (add_key_fact_present _ _ _ Hin).
    + destruct (add_key_fact_absent _ _ _ Hout) as [_ ->]. split.
      * rewrite last_n_length by done. lia.
      * apply last_n_NoDup, NoDup_app. split; [done|]. split; [|apply NoDup_singleton].
        intros x Hx Hx'. apply list_elem_of_singleton in Hx'. by subst.
  - by rewrite add_key_fact_other.
Qed.

Lemma change_within_bounds e token actor_name w w' :
  change e token actor_name w w' -> within_bounds w -> within_bounds w'.
Proof.
  intros Hc Hw token'. destruct (Hw token') as (Hh & Hl & Hn).
  change (MAX_HISTORY_MESSAGES * 2)%nat with 100%nat in *.
  destruct Hc; simpl; try done.
  - split; [|done]. unfold history_of. rewrite lookup_delete.
    case_decide; [simpl; lia|done].
  - split; [done|]. by apply add_key_fact_bounds.
  - split; [done|]. unfold get_key_facts in *. rewrite lookup_insert.
    case_decide; [subst; simpl|done].
    rewrite H in Hl, Hn. simpl in Hl, Hn.
    pose proof (sublist_delete facts i) as Hsub. split.
    + apply sublist_length in Hsub. lia.
    + exact (sublist_NoDup _ _ Hn Hsub).
  - split; [|done]. destruct (decide (token' = token)) as [->|Hne].
    + rewrite add_to_history_same, last_n_length by done.
      change (MAX_HISTORY_MESSAGES * 2)%nat with 100%nat. lia.
    + by rewrite add_to_history_other.
  - split; [|done]. destruct (decide (token' = token)) as [->|Hne].
    + rewrite add_to_history_same, last_n_length by done.
      change (MAX_HISTORY_MESSAGES * 2)%nat with 100%nat. lia.
    + by rewrite !add_to_history_other.
Qed.

Lemma fresh_world_within_bounds tasks : within_bounds (fresh_world tasks).
Proof.
  intros token. unfold fresh_world, history_of, get_key_facts. simpl.
  rewrite !lookup_empty. simpl. split; [lia|]. split; [lia|constructor].
Qed.

(** In a process that starts with empty dictionaries and serves its requests
    one after the other, every history has at most 100 entries and every list
    of key facts has at most 20 facts and no fact twice, after any number of
    requests and whatever the outside answers. *)
Theorem memory_stays_within_bounds
    (bots : gmap string bot_config) (requests : list (env * string * request))
    (tasks : gmap string task_bot) (token : string) :
  let w := serve bots requests (fresh_world tasks) in
  (length (history_of token (conversation_history w)) <= 100)%nat
  /\ (length (get_key_facts token (key_facts w)) <= 20)%nat
  /\ NoDup (get_key_facts token (key_facts w)).
Proof.
  intros w. subst w.
  assert (H : forall w0, within_bounds w0 -> within_bounds (serve bots requests w0)).
  { induction requests as [|[[e user] req] rest IH]; intros w0 Hw0; [exact Hw0|].
    apply IH.
    destruct (handle_webhook_change bots e user req w0) as (tok & actor & Hc).
    exact (change_within_bounds _ _ _ _ _ Hc Hw0). }
  exact (H _ (fresh_world_within_bounds tasks) token).
Qed.

(** ** The answers of the handler *)

Lemma render_content_raises e v ex : render_content e v = Raise ex -> ex = TypeError.
Proof.
  destruct v as [| | |s|l|d]; simpl; try congruence;
    destruct (_ <=? _); congruence.
Qed.

Lemma render_message_raises e m ex : render_message e m = Raise ex -> ex = TypeError.
Proof.
  unfold render_message.
  destruct (render_content e _) as [text|ex'] eqn:E; simpl; [discriminate|].
  intros [= <-]. by apply render_content_raises in E.
Qed.

Lemma render_messages_raises e msgs ex :
  render_messages e msgs = Raise ex -> ex = TypeError.
Proof.
  induction msgs as [|m msgs IH]; [discriminate|]. simpl.
  destruct (render_message e m) as [line|ex'] eqn:E; simpl.
  - destruct (render_messages e msgs); simpl; [discriminate|].
    intros [= <-]. by apply IH.
  - intros [= <-]. by apply render_message_raises in E.
Qed.

Lemma get_history_context_raises e w token ex :
  get_history_context e w token = Raise ex -> ex = TypeError.
Proof.
  unfold get_history_context.
  destruct (conversation_history w !! token) as [[|m msgs]|]; try discriminate.
  destruct (render_messages e _) as [lines|ex'] eqn:E; simpl; [discriminate|].
  intros [= <-]. by apply render_messages_raises in E.
Qed.

Lemma status_reply_200 b :
  status_reply b = Response 200 "status" "ok"
  \/ status_reply b = Response 200 "status" "failed".
Proof. destruct b; [by left|by right]. Qed.

(** A text of ASCII characters that the handler takes for one of the commands
    whose branches are written out here ([/reset], [/history], [/whoami],
    [/remember], [/facts], [/forget], [/help], [/done], [/status]) is
    answered with 200 and the status [ok] or [failed]: no failure of the
    delivery, of Deck or of the task database turns into an HTTP error.  (The
    other commands and the conversational turn are not covered: their branches
    call code that can raise.) *)
Theorem dispatch_answers_200
    (bots : gmap string bot_config) (e : env) (user : string) (cfg : bot_config)
    (data params : json) (token actor_name : string) (reply_to : option Z)
    (m : string) (w : world) :
  PyStr.is_ascii m = true ->
  In (classify_command m)
     [CmdReset; CmdHistory; CmdWhoami; CmdRemember; CmdFacts; CmdForget;
      CmdHelp; CmdDone; CmdStatus] ->
  let out := answer (route bots e user cfg data params token actor_name reply_to m w) in
  out = Response 200 "status" "ok"
  \/ out = Response 200 "status" "failed".
Proof.
  intros _ Hcmd out. subst out.
  assert (Hreply : forall text w',
            answer (reply e cfg token text w') = Response 200 "status" "ok"
            \/ answer (reply e cfg token text w') = Response 200 "status" "failed")
    by (intros; apply status_reply_200).
  unfold route. cbv zeta.
  destruct (classify_command m);
    try (exfalso; simpl in Hcmd; intuition discriminate);
    try apply Hreply.
  - destruct (negb _); [apply Hreply|].
    destruct (add_key_fact token _ (key_facts w)) as [k added].
    destruct added; apply Hreply.
  - destruct (get_key_facts token (key_facts w)); apply Hreply.
  - destruct (py_int _) as [n|]; [|apply Hreply].
    destruct (key_facts w !! token) as [facts|]; [|apply Hreply].
    destruct (if 0 <=? n - 1 then facts !! Z.to_nat (n - 1) else None);
      apply Hreply.
  - destruct (get_task_bot_by_token e w token) as [t|]; [|apply Hreply].
    destruct (finish_task bots e token cfg t w) as [[w' evs] flag].
    simpl. apply status_reply_200.
  - destruct (get_task_bot_by_token e w token); apply Hreply.
Qed.

Lemma dispatch_answers_200_witness :
  PyStr.is_ascii " /WhoAmI " = true
  /\ classify_command " /WhoAmI " = CmdWhoami
  /\ (answer (sample_route sample_env " /WhoAmI " sample_world)
        = Response 200 "status" "ok"
      \/ answer (sample_route sample_env " /WhoAmI " sample_world)
         = Response 200 "status" "failed").
Proof.
  assert (HA : PyStr.is_ascii " /WhoAmI " = true) by (vm_compute; reflexivity).
  assert (HC : classify_command " /WhoAmI " = CmdWhoami) by (vm_compute; reflexivity).
  split; [exact HA|]. split; [exact HC|].
  apply (dispatch_answers_200 sample_bots sample_env "maarten" sample_config (JDict [])
           (JDict []) "tok" "Jan" None " /WhoAmI " sample_world HA).
  rewrite HC. simpl. auto.
Defined.

(** ** Stripped texts *)

Section Strip.
Import PyStr.

Lemma rstrip_idem x : rstrip (rstrip x) = rstrip x.
Proof.
  induction x as [|c r IH]; [reflexivity|]. simpl.
  destruct (rstrip r) as [|c' r'] eqn:E.
  - destruct (is_space c) eqn:Hc; [reflexivity|]. simpl. by rewrite Hc.
  - simpl. simpl in IH. by rewrite IH.
Qed.

Lemma rstrip_tail c r :
  rstrip (String c r) = String c r -> r <> EmptyString -> rstrip r = r.
Proof.
  simpl. destruct (rstrip r) as [|c' r'] eqn:E.
  - destruct (is_space c); [discriminate|]. intros [= <-]. done.
  - by intros [= <-].
Qed.

Lemma rstrip_last_space c : is_space c = true -> rstrip (String c EmptyString) <> String c EmptyString.
Proof. simpl. by intros ->. Qed.

Lemma rstrip_fixed_has_ink t : rstrip t = t -> t <> EmptyString -> has_ink t = true.
Proof.
  induction t as [|c r IH]; [done|]. intros Ht _.
  destruct r as [|c' r'].
  - simpl in *. destruct (is_space c); [discriminate|reflexivity].
  - change (has_ink (String c (String c' r')))
      with (negb (is_space c) || has_ink (String c' r')).
    rewrite IH; [by rewrite orb_true_r| |done].
    by apply (rstrip_tail c).
Qed.

Lemma has_ink_lstrip t : has_ink (lstrip t) = has_ink t.
Proof.
  induction t as [|c r IH]; [reflexivity|]. simpl.
  destruct (is_space c) eqn:Hc; simpl; by rewrite ?Hc.
Qed.

Lemma has_ink_rstrip t : has_ink t = true -> rstrip t <> EmptyString.
Proof.
  induction t as [|c r IH]; [discriminate|]. simpl.
  destruct (rstrip r) as [|c' r'] eqn:E; [|discriminate].
  destruct (is_space c); simpl; [|discriminate].
  intros Hr. by apply IH.
Qed.

(** What is left of a stripped text after a white space has ink, and so has
    what is left of it when it is stripped again. *)
Lemma strip_after_space x front c rest :
  strip x = (front ++ String c rest)%string ->
  is_space c = true ->
  strip rest <> EmptyString.
Proof.
  intros Hs Hc.
  assert (Hfix : rstrip (front ++ String c rest)%string = (front ++ String c rest)%string).
  { rewrite <- Hs. unfold strip. apply rstrip_idem. }
  clear Hs. induction front as [|a front IH].
  - change (rstrip (String c rest) = String c rest) in Hfix.
    destruct rest as [|c' r'].
    { by apply rstrip_last_space in Hfix. }
    apply rstrip_tail in Hfix; [|done].
    unfold strip. apply has_ink_rstrip. rewrite has_ink_lstrip.
    by apply rstrip_fixed_has_ink.
  - apply IH. apply (rstrip_tail a); [exact Hfix|]. by destruct front.
Qed.

Lemma slice_from_length n s :
  (0 <= n <= len s) ->
  slice_from n s = drop (Z.to_nat n) s.
Proof.
  intros Hn. unfold slice_from, clip.
  destruct (Z.ltb_spec n 0); [lia|]. f_equal. lia.
Qed.

End Strip.

(** ** The command [/remember] *)

(** A text that the handler takes as [/remember] has ten characters, the last
    of them a white space, before the rest. *)
Lemma remember_shape m :
  classify_command m = CmdRemember ->
  exists front c rest,
    PyStr.strip m = (front ++ String c rest)%string
    /\ PyStr.slice_from 10 (PyStr.strip m) = rest
    /\ PyStr.is_space c = true.
Proof.
  unfold classify_command. cbv zeta. set (s := PyStr.strip m).
  destruct (String.eqb _ "/reset"); [intro; discriminate|].
  destruct (String.eqb _ "/history"); [intro; discriminate|].
  destruct (String.eqb _ "/whoami"); [intro; discriminate|].
  destruct (PyStr.startswith "/remember " (PyStr.lower s)) eqn:Hp; [|
    repeat match goal with |- (if ?b then _ else _) = _ -> _ => destruct b end;
    intro; discriminate].
  intros _. clearbody s. clear -Hp.
  do 10 (destruct s as [|? s]; cbn [PyStr.startswith PyStr.lower] in Hp;
         [discriminate|];
         match type of Hp with
         | (if ?b then _ else _) = true => destruct b eqn:?; [|discriminate]
         end).
  match goal with
  | H : Ascii.eqb " " (PyStr.lower_char ?c) = true |- _ =>
      apply Ascii.eqb_eq in H;
      assert (Hsp : PyStr.is_space c = true)
        by (rewrite <- is_space_lower_char, <- H; reflexivity)
  end.
  eexists (String _ (String _ (String _ (String _ (String _ (String _ (String _
            (String _ (String _ EmptyString))))))))), _, _.
  split; [reflexivity|]. split; [|exact Hsp].
  rewrite slice_from_length; [reflexivity|].
  unfold PyStr.len. cbn [String.length]. lia.
Qed.

Lemma last_n_has_last {A : Type} n (l : list A) x :
  n <> 0%nat -> x ∈ last_n n (l ++ [x]).
Proof.
  intros Hn. pose proof (last_last_n n l x Hn) as H.
  destruct (last_n n (l ++ [x])) as [|y ys] using rev_ind; [discriminate|].
  rewrite last_snoc in H. injection H as ->. set_solver.
Qed.

(** A text of ASCII characters (on which [str.strip], [str.lower] and the
    slice are those of the model) that is handled as [/remember] always
    carries a fact: the reply with the usage of the command is never sent.  After the command the fact
    is among the key facts of the conversation; a fact that was there already
    leaves the facts as they were, a new one is appended (and the oldest of
    21 dropped).  History and tasks are not touched. *)
Theorem remember_keeps_the_fact
    (bots : gmap string bot_config) (e : env) (user : string) (cfg : bot_config)
    (data params : json) (token actor_name : string) (reply_to : option Z)
    (m : string) (w : world) :
  PyStr.is_ascii m = true ->
  classify_command m = CmdRemember ->
  let fact := PyStr.strip (PyStr.slice_from 10 (PyStr.strip m)) in
  let old := get_key_facts token (key_facts w) in
  let r := route bots e user cfg data params token actor_name reply_to m w in
  fact <> EmptyString
  /\ fact ∈ get_key_facts token (key_facts (after r))
  /\ (fact ∈ old ->
        key_facts (after r) = key_facts w
        /\ sent_texts (trace r) = ["Dit feit was al opgeslagen."])
  /\ (fact ∉ old ->
        get_key_facts token (key_facts (after r)) = last_n 20 (old ++ [fact])
        /\ sent_texts (trace r) = [(" Onthouden: " ++ fact)%string])
  /\ conversation_history (after r) = conversation_history w
  /\ task_bots (after r) = task_bots w.
Proof.
  intros _ Hc fact old r.
  assert (Hfact : fact <> EmptyString).
  { destruct (remember_shape m Hc) as (front & c & rest & Hs & Hrest & Hsp).
    subst fact. rewrite Hrest. exact (strip_after_space _ _ _ _ Hs Hsp). }
  assert (Hr : r = let '(k, added) := add_key_fact token fact (key_facts w) in
                   if added
                   then reply e cfg token (" Onthouden: " ++ fact)%string (set_key_facts k w)
                   else reply e cfg token "Dit feit was al opgeslagen." (set_key_facts k w)).
  { subst r. unfold route. rewrite Hc. cbv zeta. fold fact.
    by rewrite (truthy_nonempty _ Hfact). }
  split; [exact Hfact|]. rewrite Hr. clear Hr.
  destruct (decide (fact ∈ old)) as [Hin|Hout].
  - rewrite (add_key_fact_present _ _ _ Hin). simpl.
    split; [exact Hin|]. split; [by intros _|]. split; [done|by split].
  - destruct (add_key_fact_absent _ _ _ Hout) as [Hflag Hnew].
    destruct (add_key_fact token fact (key_facts w)) as [k added].
    simpl in Hflag, Hnew. subst added. simpl. rewrite Hnew.
    split; [by apply last_n_has_last|]. split; [done|]. split; [by intros _|by split].
Qed.

Lemma remember_keeps_the_fact_witness :
  PyStr.is_ascii "  /Remember   levering in maart " = true
  /\ classify_command "  /Remember   levering in maart " = CmdRemember
  /\ (let r := sample_route sample_env "  /Remember   levering in maart " busy_world in
      "levering in maart" ∈ get_key_facts "tok" (key_facts (after r))).
Proof.
  assert (HA : PyStr.is_ascii "  /Remember   levering in maart " = true)
    by (vm_compute; reflexivity).
  assert (H : classify_command "  /Remember   levering in maart " = CmdRemember)
    by (vm_compute; reflexivity).
  split; [exact HA|]. split; [exact H|].
  exact (proj1 (proj2 (remember_keeps_the_fact sample_bots sample_env "maarten"
           sample_config (JDict []) (JDict []) "tok" "Jan" None _ busy_world HA H))).
Defined.

(** ** The commands [/reset] and [/forget] *)

(** [/reset], in any letter case and with white space around it, removes the
    history of the conversation and nothing else: the key facts and the task
    stay, one message is sent, and a question that was pending is pending no
    more. *)
Theorem reset_forgets_the_history
    (bots : gmap string bot_config) (e : env) (user : string) (cfg : bot_config)
    (data params : json) (token actor_name : string) (reply_to : option Z)
    (m : string) (w : world) :
  PyStr.lower (PyStr.strip m) = "/reset" ->
  let r := route bots e user cfg data params token actor_name reply_to m w in
  conversation_history (after r) !! token = None
  /\ key_facts (after r) = key_facts w
  /\ task_bots (after r) = task_bots w
  /\ trace r = [SendMessage (secret cfg) token
                  "Gespreksgeschiedenis gewist. We beginnen opnieuw!" None]
  /\ awaiting_confirmation (after r) token = false
  /\ get_history_context e (after r) token
     = get_history_context e (set_history ∅ w) token.
Proof.
  intros Hm r.
  assert (Hc : classify_command m = CmdReset).
  { unfold classify_command. by rewrite Hm. }
  subst r. unfold route. rewrite Hc. cbv zeta.
  assert (Hgone : forall w', w' = match conversation_history w !! token with
                                  | Some _ => set_history (delete token (conversation_history w)) w
                                  | None => w
                                  end ->
            conversation_history w' !! token = None
            /\ key_facts w' = key_facts w /\ task_bots w' = task_bots w).
  { intros w' ->. destruct (conversation_history w !! token) eqn:E; simpl.
    - by rewrite lookup_delete_eq.
    - done. }
  destruct (Hgone _ eq_refl) as (Hh & Hk & Ht).
  simpl. split; [exact Hh|]. split; [exact Hk|]. split; [exact Ht|].
  split; [reflexivity|]. split.
  - unfold awaiting_confirmation. by rewrite Hh.
  - unfold get_history_context. rewrite Hh, Hk. simpl. by rewrite lookup_empty.
Qed.

Lemma reset_forgets_the_history_witness :
  PyStr.lower (PyStr.strip " /RESET ") = "/reset"
  /\ (let r := sample_route sample_env " /RESET " asked_world in
      conversation_history (after r) !! "tok" = None
      /\ awaiting_confirmation asked_world "tok" = true
      /\ awaiting_confirmation (after r) "tok" = false).
Proof.
  assert (H : PyStr.lower (PyStr.strip " /RESET ") = "/reset") by reflexivity.
  split; [exact H|].
  destruct (reset_forgets_the_history sample_bots sample_env "maarten" sample_config
              (JDict []) (JDict []) "tok" "Jan" None " /RESET " asked_world H)
    as (Hh & _ & _ & _ & Ha & _).
  split; [exact Hh|]. split; [vm_compute; reflexivity|exact Ha].
Defined.

Section Digits.
Import PyStr.

Lemma rstrip_digits d : all_digits d = true -> rstrip d = d.
Proof.
  induction d as [|c r IH]; [reflexivity|]. simpl.
  intros [Hc Hr]%andb_prop. rewrite (IH Hr).
  destruct r; [|reflexivity].
  assert (Hs : is_space c = false).
  { unfold is_digit in Hc. unfold is_space. lia. }
  by rewrite Hs.
Qed.

Lemma lstrip_digits d : all_digits d = true -> lstrip d = d.
Proof.
  destruct d as [|c r]; [reflexivity|]. simpl.
  intros [Hc _]%andb_prop.
  assert (Hs : is_space c = false).
  { unfold is_digit in Hc. unfold is_space. lia. }
  by rewrite Hs.
Qed.

Lemma lower_digits d : all_digits d = true -> lower d = d.
Proof.
  induction d as [|c r IH]; [reflexivity|]. simpl.
  intros [Hc Hr]%andb_prop. rewrite (IH Hr). f_equal.
  unfold lower_char. unfold is_digit in Hc.
  destruct ((65 <=? code c) && (code c <=? 90)) eqn:E; [lia|reflexivity].
Qed.

Lemma rstrip_before_digits p d :
  isdigit d = true -> rstrip (p ++ d)%string = (p ++ d)%string.
Proof.
  intros [Hne Hd]%andb_prop. induction p as [|a p IH].
  - by apply rstrip_digits.
  - change (rstrip (String a (p ++ d)%string) = String a (p ++ d)%string).
    simpl. rewrite IH. destruct (p ++ d)%string eqn:E; [|reflexivity].
    destruct p; [|discriminate]. change (d = EmptyString) in E. subst d. discriminate.
Qed.

Lemma digits_value_digits d : forall acc after_digit,
  all_digits d = true ->
  digits_value acc after_digit d
  = match d with
    | EmptyString => if after_digit then Some acc else None
    | _ => Some (decimal acc d)
    end.
Proof.
  induction d as [|c r IH]; intros acc after_digit Hd; [reflexivity|].
  simpl in *. apply andb_prop in Hd as [Hc Hr]. rewrite Hc, (IH _ _ Hr).
  by destruct r.
Qed.

Lemma count_digits_digits d : all_digits d = true -> count_digits d = String.length d.
Proof.
  induction d as [|c r IH]; [reflexivity|]. simpl.
  intros [Hc Hr]%andb_prop. by rewrite Hc, (IH Hr).
Qed.

(** [int] reads a text of at most 4300 digits as [decimal] does. *)
Lemma py_int_digits d :
  isdigit d = true -> (String.length d <= 4300)%nat -> py_int d = Some (decimal 0 d).
Proof.
  intros [Hne Hd]%andb_prop Hlen.
  assert (Hlimit : (MAX_STR_DIGITS <? count_digits d)%nat = false).
  { rewrite (count_digits_digits d Hd). apply Nat.ltb_ge. exact Hlen. }
  destruct d as [|c r]; [discriminate|].
  assert (Hc : is_digit c = true) by (simpl in Hd; by apply andb_prop in Hd as [? _]).
  unfold py_int. rewrite Hlimit.
  assert (Hgen : digits_value 0 false (String c r) = Some (decimal 0 (String c r)))
    by (by rewrite digits_value_digits).
  destruct c as [[] [] [] [] [] [] [] []]; try exact Hgen; discriminate Hc.
Qed.

Lemma decimal_nonneg d : forall acc, 0 <= acc -> all_digits d = true -> 0 <= decimal acc d.
Proof.
  induction d as [|c r IH]; intros acc Hacc Hd; [exact Hacc|].
  simpl in *. apply andb_prop in Hd as [Hc Hr]. apply IH; [|done].
  unfold is_digit in Hc. lia.
Qed.

End Digits.

(** The text [/forget] followed by a number is that command, and its number
    is read by [decimal]. *)
Lemma forget_parsed d :
  isdigit d = true ->
  (String.length d <= 4300)%nat ->
  classify_command ("/forget " ++ d)%string = CmdForget
  /\ py_int (PyStr.strip (PyStr.slice_from 8 (PyStr.strip ("/forget " ++ d)%string)))
     = Some (decimal 0 d).
Proof.
  intros Hd Hlen. pose proof Hd as [Hne Hall]%andb_prop.
  assert (Hs : PyStr.strip ("/forget " ++ d)%string = ("/forget " ++ d)%string).
  { unfold PyStr.strip.
    change (PyStr.lstrip ("/forget " ++ d)%string) with ("/forget " ++ d)%string.
    by apply rstrip_before_digits. }
  split.
  - unfold classify_command. rewrite Hs.
    change (PyStr.lower ("/forget " ++ d)%string)
      with ("/forget " ++ PyStr.lower d)%string.
    rewrite lower_digits by done. reflexivity.
  - rewrite Hs, slice_from_length.
    + change (PyStr.drop (Z.to_nat 8) ("/forget " ++ d)%string) with d.
      unfold PyStr.strip. rewrite lstrip_digits, rstrip_digits by done.
      by apply py_int_digits.
    + rewrite len_append. unfold PyStr.len. simpl. lia.
Qed.

(** [/forget n], for a number [n] written with at most 4300 decimal digits
    (beyond which [int] refuses the text), removes the n-th key fact of the
    conversation, counted from one, keeps the others in their order and names
    the removed fact in its reply; a number that is zero or beyond the list
    changes nothing and is answered with the hint.  History and tasks are not
    touched. *)
Theorem forget_removes_the_nth_fact
    (bots : gmap string bot_config) (e : env) (user : string) (cfg : bot_config)
    (data params : json) (token actor_name : string) (reply_to : option Z)
    (d : string) (w : world) :
  isdigit d = true ->
  (String.length d <= 4300)%nat ->
  let n := Z.to_nat (decimal 0 d) in
  let facts := get_key_facts token (key_facts w) in
  let r := route bots e user cfg data params token actor_name reply_to
             ("/forget " ++ d)%string w in
  (forall removed, facts !! (n - 1)%nat = Some removed -> (1 <= n)%nat ->
     get_key_facts token (key_facts (after r))
       = take (n - 1) facts ++ drop n facts
     /\ sent_texts (trace r) = [(" Vergeten: " ++ removed)%string])
  /\ ((n = 0 \/ length facts < n)%nat ->
      after r = w
      /\ sent_texts (trace r) = ["Ongeldig nummer. Gebruik /facts om de lijst te zien."])
  /\ conversation_history (after r) = conversation_history w
  /\ task_bots (after r) = task_bots w.
Proof.
  intros Hd Hlen n facts r.
  destruct (forget_parsed d Hd Hlen) as [Hc Hint].
  pose proof Hd as [_ Hall]%andb_prop.
  pose proof (decimal_nonneg d 0 ltac:(lia) Hall) as Hpos.
  subst r. unfold route. rewrite Hc. cbv zeta. rewrite Hint.
  subst facts. unfold get_key_facts.
  destruct (key_facts w !! token) as [facts|] eqn:Hk; simpl.
  - destruct (Z.leb_spec 0 (decimal 0 d - 1)) as [Hge|Hlt].
    + replace (Z.to_nat (decimal 0 d - 1)) with (n - 1)%nat by lia.
      destruct (facts !! (n - 1)%nat) as [removed|] eqn:Hl; simpl.
      * split; [|split; [|done]].
        -- intros removed' [= <-] Hn. rewrite lookup_insert_eq. simpl.
           rewrite delete_take_drop. split; [|reflexivity].
           by replace (S (n - 1)) with n by lia.
        -- intros [Hz|Hbig]; [lia|]. apply lookup_lt_Some in Hl. lia.
      * split; [|split; [|done]]; [discriminate|]. by intros _.
    + split; [|split; [|done]].
      * intros removed _ Hn. lia.
      * by intros _.
  - split; [|split; [|done]]; [discriminate|]. by intros _.
Qed.

Lemma forget_removes_the_nth_fact_witness :
  isdigit "2" = true
  /\ isdigit "99" = true
  /\ get_key_facts "tok" (key_facts (after (sample_route sample_env "/forget 2" busy_world)))
     = ["de klant heet Jansen"; "korting 5%"]
  /\ after (sample_route sample_env "/forget 99" busy_world) = busy_world.
Proof.
  assert (H2 : isdigit "2" = true) by reflexivity.
  assert (H99 : isdigit "99" = true) by reflexivity.
  assert (L2 : (String.length "2" <= 4300)%nat) by (simpl; lia).
  assert (L99 : (String.length "99" <= 4300)%nat) by (simpl; lia).
  split; [exact H2|]. split; [exact H99|]. split.
  - exact (proj1 (proj1 (forget_removes_the_nth_fact sample_bots sample_env "maarten"
             sample_config (JDict []) (JDict []) "tok" "Jan" None "2" busy_world H2 L2)
             "offerte voor vrijdag" eq_refl ltac:(vm_compute; lia))).
  - apply (proj1 (proj2 (forget_removes_the_nth_fact sample_bots sample_env "maarten"
             sample_config (JDict []) (JDict []) "tok" "Jan" None "99" busy_world H99 L99))).
    right. vm_compute. lia.
Defined.

(** ** The conversational turn *)

Lemma append_assoc (a b c : string) : ((a ++ b) ++ c = a ++ (b ++ c))%string.
Proof.
  induction a as [|x a IH]; [reflexivity|].
  change (String x ((a ++ b) ++ c)%string = String x (a ++ (b ++ c))%string).
  by rewrite IH.
Qed.

(** Texts that [json.loads] refuses are rendered. *)
Lemma render_plain e msgs :
  Forall (fun msg => json_loads e (content msg) = None) msgs ->
  exists lines, render_messages e msgs = Ok lines.
Proof.
  induction 1 as [|msg msgs Hmsg _ [lines IH]]; [by exists []|].
  simpl. unfold render_message, parse_message_content.
  rewrite Hmsg. destruct (negb (PyStr.truthy (content msg))); simpl;
    rewrite IH; simpl; eauto.
Qed.

Lemma last_n_Forall {A : Type} (P : A -> Prop) n (l : list A) :
  Forall P l -> Forall P (last_n n l).
Proof.
  intros H. destruct (last_n_suffix n l) as [front Hl].
  rewrite Hl in H. by apply Forall_app in H as [_ H].
Qed.

Lemma get_history_context_plain e w token :
  Forall (fun msg => json_loads e (content msg) = None)
    (history_of token (conversation_history w)) ->
  exists ctx, get_history_context e w token = Ok ctx.
Proof.
  intros H. unfold get_history_context, history_of in *.
  destruct (conversation_history w !! token) as [[|m msgs]|]; simpl in *; eauto.
  destruct (render_plain e (last_n MAX_HISTORY_MESSAGES (m :: msgs))) as [lines Hl].
  { by apply last_n_Forall. }
  rewrite Hl. simpl. eauto.
Qed.

(** The turn of a conversation: no audio file, and texts in the history that
    are no JSON texts. *)
Lemma converse_plain e user cfg data params token actor_name reply_to m task w :
  extract_file_info e data params = None ->
  json_loads e m = None ->
  Forall (fun msg => json_loads e (content msg) = None)
    (history_of token (conversation_history w)) ->
  exists prompt,
    let w1 := set_history (add_to_history (now e 0) token "user" actor_name m
                             (conversation_history w)) w in
    let task_context := get_task_bot_by_token e w1 token in
    let response := call_claude e prompt task_context in
    (exists front, prompt = (front ++ "[" ++ actor_name ++ "]: " ++ m)%string)
    /\ converse e user cfg data params token actor_name reply_to m task w
       = Handled
           (set_history (add_to_history (now e 1) token "assistant" "Claude" response
                           (conversation_history w1)) w1)
           (card_comment task
              ("**" ++ actor_name ++ ":** "
                 ++ shorten (1000 - (PyStr.len ("**" ++ actor_name ++ ":** ") + 3)) m)%string
              ++ [SendMessage (secret cfg) token
                    match task_context with
                    | Some tc => ("Bezig met taak: " ++ card_title tc ++ "...")%string
                    | None => "Impertio AI is aan het nadenken..."
                    end None;
                  CallClaude prompt (working_dir cfg) (config_dir cfg)
                    (capitalize user) (erpnext_user cfg) task_context]
              ++ card_comment task_context
                   ("**Claude AI:** " ++ shorten (1000 - 18) response)%string
              ++ [SendMessage (secret cfg) token response reply_to])
           (status_reply (send_ok e response)).
Proof.
  intros Hfile Hm Hplain.
  set (w1 := set_history (add_to_history (now e 0) token "user" actor_name m
                            (conversation_history w)) w).
  destruct (get_history_context_plain e w1 token) as [ctx Hctx].
  { unfold w1. simpl. rewrite add_to_history_same. apply last_n_Forall.
    apply Forall_app. split; [exact Hplain|]. by constructor. }
  set (prompt :=
         if PyStr.truthy ctx then
           ("Hieronder staat de gespreksgeschiedenis gevolgd door een nieuw bericht."
              ++ newline
              ++ "Houd rekening met de context van eerdere berichten bij je antwoord."
              ++ newline ++ newline ++ ctx ++ newline
              ++ "[" ++ actor_name ++ "]: " ++ m)%string
         else ("[" ++ actor_name ++ "]: " ++ m)%string).
  exists prompt. cbv zeta. split.
  - subst prompt. destruct (PyStr.truthy ctx).
    + exists ("Hieronder staat de gespreksgeschiedenis gevolgd door een nieuw bericht."
                ++ newline
                ++ "Houd rekening met de context van eerdere berichten bij je antwoord."
                ++ newline ++ newline ++ ctx ++ newline)%string.
      by rewrite !append_assoc.
    + by exists EmptyString.
  - unfold converse. rewrite Hfile. cbv zeta. simpl. fold w1. rewrite Hctx.
    reflexivity.
Qed.

Lemma natural_language_turn bots e user cfg data params token actor_name reply_to m w :
  detect_completion_intent m = None ->
  is_affirmation m = false ->
  natural_language bots e user cfg data params token actor_name reply_to m w
  = converse e user cfg data params token actor_name reply_to m
      (get_task_bot_by_token e w token) w.
Proof.
  intros Hd Ha. unfold natural_language. cbv zeta. rewrite Hd, Ha.
  destruct (get_task_bot_by_token e w token) as [t|]; [|reflexivity].
  by destruct (String.eqb (status t) "active").
Qed.

(** In a conversation without a task, a text of ASCII characters that is no
    command, comes without a file and is no JSON text, as the texts of the
    history before it, is one turn: the handler announces that it
    is thinking, calls Claude once with a prompt that ends with the name of
    the author and the text, appends the text and then the answer to the
    history, and sends the answer as a reply to the message.  Key facts and
    tasks are not touched. *)
Theorem turn_appends_text_and_answer
    (bots : gmap string bot_config) (e : env) (user : string) (cfg : bot_config)
    (data params : json) (token actor_name : string) (reply_to : option Z)
    (m : string) (w : world) :
  PyStr.is_ascii m = true ->
  classify_command m = NoCommand ->
  get_task_bot_by_token e w token = None ->
  extract_file_info e data params = None ->
  json_loads e m = None ->
  Forall (fun msg => json_loads e (content msg) = None)
    (history_of token (conversation_history w)) ->
  let r := route bots e user cfg data params token actor_name reply_to m w in
  exists prompt front,
    let response := call_claude e prompt None in
    prompt = (front ++ "[" ++ actor_name ++ "]: " ++ m)%string
    /\ history_of token (conversation_history (after r))
       = last_n 100
           (history_of token (conversation_history w)
              ++ [Message "user" actor_name m (now e 0);
                  Message "assistant" "Claude" response (now e 1)])
    /\ trace r
       = [SendMessage (secret cfg) token "Impertio AI is aan het nadenken..." None;
          CallClaude prompt (working_dir cfg) (config_dir cfg) (capitalize user)
            (erpnext_user cfg) None;
          SendMessage (secret cfg) token response reply_to]
    /\ answer r = status_reply (send_ok e response)
    /\ key_facts (after r) = key_facts w
    /\ task_bots (after r) = task_bots w.
Proof.
  intros _ Hc Ht Hfile Hm Hplain r.
  assert (Hr : r = converse e user cfg data params token actor_name reply_to m None w).
  { subst r. unfold route. rewrite Hc. unfold natural_language. cbv zeta.
    by rewrite Ht. }
  destruct (converse_plain e user cfg data params token actor_name reply_to m None w
              Hfile Hm Hplain) as (prompt & [front Hfront] & Hconv).
  cbv zeta in Hconv.
  assert (Ht1 : get_task_bot_by_token e
                  (set_history (add_to_history (now e 0) token "user" actor_name m
                                  (conversation_history w)) w) token = None)
    by exact Ht.
  rewrite Ht1 in Hconv. exists prompt, front. cbv zeta.
  rewrite Hr, Hconv. simpl.
  split; [exact Hfront|]. split; [|done].
  rewrite !add_to_history_same, last_n_app, <- app_assoc. reflexivity.
Qed.

Lemma turn_appends_text_and_answer_witness :
  PyStr.is_ascii "hoe staat het ervoor?" = true
  /\ classify_command "hoe staat het ervoor?" = NoCommand
  /\ get_task_bot_by_token sample_env taskless_world "tok" = None
  /\ (let r := sample_route sample_env "hoe staat het ervoor?" taskless_world in
      exists prompt front,
        prompt = (front ++ "[" ++ "Jan" ++ "]: " ++ "hoe staat het ervoor?")%string
        /\ history_of "tok" (conversation_history (after r))
           = last_n 100
               (history_of "tok" (conversation_history taskless_world)
                  ++ [Message "user" "Jan" "hoe staat het ervoor?" (now sample_env 0);
                      Message "assistant" "Claude" (call_claude sample_env prompt None)
                        (now sample_env 1)])).
Proof.
  assert (HA : PyStr.is_ascii "hoe staat het ervoor?" = true) by reflexivity.
  assert (H1 : classify_command "hoe staat het ervoor?" = NoCommand) by reflexivity.
  assert (H2 : get_task_bot_by_token sample_env taskless_world "tok" = None)
    by (vm_compute; reflexivity).
  split; [exact HA|]. split; [exact H1|]. split; [exact H2|].
  destruct (turn_appends_text_and_answer sample_bots sample_env "maarten" sample_config
              (JDict []) (JDict []) "tok" "Jan" None "hoe staat het ervoor?"
              taskless_world HA H1 H2 eq_refl eq_refl)
    as (prompt & front & Hp & Hh & _).
  { vm_compute. repeat constructor. }
  exists prompt, front. split; [exact Hp|exact Hh].
Defined.

(** ** The pending question after a turn *)

(** In a conversation with a task, after the turn of a text of ASCII
    characters (no command, no completion intent, no affirmation, no file, no
    JSON text, as the texts of the history before it) the question about the
    completion counts as pending exactly when the answer of Claude contains
    the words [bevestiging voor afronden]: the handler looks at the text of
    the last entry of the history, which is then that answer. *)
Theorem pending_follows_last_answer
    (bots : gmap string bot_config) (e : env) (user : string) (cfg : bot_config)
    (data params : json) (token actor_name : string) (reply_to : option Z)
    (m : string) (w : world) (t : task_bot) :
  PyStr.is_ascii m = true ->
  classify_command m = NoCommand ->
  get_task_bot_by_token e w token = Some t ->
  detect_completion_intent m = None ->
  is_affirmation m = false ->
  extract_file_info e data params = None ->
  json_loads e m = None ->
  Forall (fun msg => json_loads e (content msg) = None)
    (history_of token (conversation_history w)) ->
  let r := route bots e user cfg data params token actor_name reply_to m w in
  exists prompt,
    let response := call_claude e prompt (Some t) in
    last (history_of token (conversation_history (after r)))
    = Some (Message "assistant" "Claude" response (now e 1))
    /\ awaiting_confirmation (after r) token
       = PyStr.contains "bevestiging voor afronden" response.
Proof.
  intros _ Hc Ht Hd Ha Hfile Hm Hplain r.
  assert (Hr : r = converse e user cfg data params token actor_name reply_to m
                     (Some t) w).
  { subst r. unfold route. rewrite Hc, natural_language_turn by done. by rewrite Ht. }
  destruct (converse_plain e user cfg data params token actor_name reply_to m (Some t) w
              Hfile Hm Hplain) as (prompt & _ & Hconv).
  cbv zeta in Hconv.
  assert (Ht1 : get_task_bot_by_token e
                  (set_history (add_to_history (now e 0) token "user" actor_name m
                                  (conversation_history w)) w) token = Some t)
    by exact Ht.
  rewrite Ht1 in Hconv. exists prompt. cbv zeta.
  assert (Hlast : last (history_of token (conversation_history (after r)))
                  = Some (Message "assistant" "Claude"
                            (call_claude e prompt (Some t)) (now e 1))).
  { rewrite Hr, Hconv. simpl. by rewrite add_to_history_same, last_last_n. }
  split; [exact Hlast|].
  unfold awaiting_confirmation.
  change (default [] (conversation_history (after r) !! token))
    with (history_of token (conversation_history (after r))).
  by rewrite Hlast.
Qed.

Lemma pending_follows_last_answer_witness :
  PyStr.is_ascii "wat nu?" = true
  /\ classify_command "wat nu?" = NoCommand
  /\ get_task_bot_by_token echo_env sample_world "tok" = Some sample_task
  /\ detect_completion_intent "wat nu?" = None
  /\ is_affirmation "wat nu?" = false
  /\ (let r := sample_route echo_env "wat nu?" sample_world in
      exists prompt,
        awaiting_confirmation (after r) "tok"
        = PyStr.contains "bevestiging voor afronden"
            (call_claude echo_env prompt (Some sample_task))).
Proof.
  assert (HA : PyStr.is_ascii "wat nu?" = true) by reflexivity.
  assert (H1 : classify_command "wat nu?" = NoCommand) by reflexivity.
  assert (H2 : get_task_bot_by_token echo_env sample_world "tok" = Some sample_task)
    by (vm_compute; reflexivity).
  assert (H3 : detect_completion_intent "wat nu?" = None) by reflexivity.
  assert (H4 : is_affirmation "wat nu?" = false) by reflexivity.
  split; [exact HA|].
  split; [exact H1|]. split; [exact H2|]. split; [exact H3|]. split; [exact H4|].
  destruct (pending_follows_last_answer sample_bots echo_env "maarten" sample_config
              (JDict []) (JDict []) "tok" "Jan" None "wat nu?" sample_world sample_task
              HA H1 H2 H3 H4 eq_refl eq_refl)
    as (prompt & _ & Hp).
  { vm_compute. constructor. }
  exists prompt. exact Hp.
Defined.

(** An answer of Claude with those words, and [ja] after it: the task is
    completed although the handler never asked. *)
Example unasked_confirmation :
  let r1 := sample_route echo_env "wat nu?" sample_world in
  let r2 := sample_route echo_env "ja" (after r1) in
  sent_texts (trace r1)
  = ["Bezig met taak: Offerte Jansen...";
     "Ik wacht op bevestiging voor afronden van de offerte."]
  /\ option_map status (task_bots (after r2) !! "tok") = Some "completed"
  /\ existsb is_close (trace r2) = true.
Proof. vm_compute. repeat split. Qed.

(** ** A text that the rendering cannot take *)

Lemma last_n_keeps_end {A : Type} n (l r : list A) :
  (length r <= n)%nat -> exists front, last_n n (l ++ r) = front ++ r.
Proof.
  intros Hr. destruct n as [|n].
  - exists l. reflexivity.
  - unfold last_n. rewrite length_app, drop_app_le by lia. eauto.
Qed.

Lemma last_n_last_n {A : Type} k n (l : list A) :
  k <> 0%nat -> (k <= n)%nat -> last_n k (last_n n l) = last_n k l.
Proof.
  intros Hk Hkn. destruct k as [|k]; [done|]. destruct n as [|n]; [lia|].
  unfold last_n. rewrite length_drop, drop_drop. f_equal. lia.
Qed.

Lemma render_messages_poisoned e msgs p :
  p ∈ msgs -> render_message e p = Raise TypeError ->
  render_messages e msgs = Raise TypeError.
Proof.
  intros Hin Hp. induction msgs as [|m msgs IH]; [by apply not_elem_of_nil in Hin|].
  simpl. destruct (render_message e m) as [line|ex] eqn:E; simpl.
  - apply elem_of_cons in Hin as [->|Hin]; [congruence|]. by rewrite IH.
  - by rewrite (render_message_raises _ _ _ E).
Qed.

Lemma get_history_context_poisoned e w token p :
  p ∈ last_n MAX_HISTORY_MESSAGES (history_of token (conversation_history w)) ->
  render_message e p = Raise TypeError ->
  get_history_context e w token = Raise TypeError.
Proof.
  intros Hin Hp. unfold get_history_context, history_of in *.
  destruct (conversation_history w !! token) as [[|m msgs]|]; simpl in Hin;
    try by apply not_elem_of_nil in Hin.
  by rewrite (render_messages_poisoned _ _ _ Hin Hp).
Qed.

(** A text whose JSON reading is an object with a number as [message] is
    not rendered. *)
Lemma numeric_message_raises e m d k role0 name0 ts :
  m <> EmptyString ->
  json_loads e m = Some (JDict d) ->
  dict_get "message" d = Some (JNum k) ->
  render_message e (Message role0 name0 m ts) = Raise TypeError.
Proof.
  intros Hne Hj Hd. unfold render_message, parse_message_content. simpl.
  by rewrite (truthy_nonempty _ Hne), Hj, Hd.
Qed.

(** In a conversation without a task, a text of ASCII characters that is
    itself a JSON object with a number as [message] (such as the text made of
    an opening brace, the quoted word message, a colon, 5 and a closing brace)
    and comes without a file breaks the conversation: the handler appends it
    to the history and then the rendering of the history raises [TypeError],
    so that nothing is sent and Claude is not called; and the next text of
    ASCII characters in the conversation that is no command and comes without
    a file meets the same exception, the broken text being still among the
    last entries. *)
Theorem numeric_message_breaks_the_turn
    (bots : gmap string bot_config) (e e2 : env) (user : string) (cfg : bot_config)
    (data params data2 params2 : json) (token actor_name actor_name2 : string)
    (reply_to reply_to2 : option Z) (m m2 : string) (w : world)
    (d : list (string * json)) (k : Z) :
  PyStr.is_ascii m = true ->
  PyStr.is_ascii m2 = true ->
  m <> EmptyString ->
  json_loads e m = Some (JDict d) ->
  json_loads e2 m = Some (JDict d) ->
  dict_get "message" d = Some (JNum k) ->
  classify_command m = NoCommand ->
  classify_command m2 = NoCommand ->
  get_task_bot_by_token e w token = None ->
  get_task_bot_by_token e2 w token = None ->
  extract_file_info e data params = None ->
  extract_file_info e2 data2 params2 = None ->
  let r := route bots e user cfg data params token actor_name reply_to m w in
  let r2 := route bots e2 user cfg data2 params2 token actor_name2 reply_to2 m2
              (after r) in
  answer r = Uncaught TypeError
  /\ trace r = []
  /\ history_of token (conversation_history (after r))
     = last_n 100 (history_of token (conversation_history w)
                     ++ [Message "user" actor_name m (now e 0)])
  /\ answer r2 = Uncaught TypeError
  /\ trace r2 = [].
Proof.
  intros _ _ Hne Hj Hj2 Hd Hc Hc2 Ht Ht2 Hfile Hfile2 r r2.
  set (p := Message "user" actor_name m (now e 0)).
  set (w1 := set_history (add_to_history (now e 0) token "user" actor_name m
                            (conversation_history w)) w).
  assert (Hh1 : history_of token (conversation_history w1)
                = last_n 100 (history_of token (conversation_history w) ++ [p])).
  { unfold w1. simpl. by rewrite add_to_history_same. }
  assert (Hr : r = Handled w1 [] (Uncaught TypeError)).
  { subst r. unfold route. rewrite Hc. unfold natural_language. cbv zeta.
    rewrite Ht. unfold converse. rewrite Hfile. cbv zeta. simpl. fold w1.
    rewrite (get_history_context_poisoned e w1 token p); [reflexivity| |].
    - rewrite Hh1, last_n_last_n by (done || (unfold MAX_HISTORY_MESSAGES; lia)).
      destruct (last_n_keeps_end MAX_HISTORY_MESSAGES
                  (history_of token (conversation_history w)) [p]) as [front ->];
        [simpl; unfold MAX_HISTORY_MESSAGES; lia|]. set_solver.
    - by apply (numeric_message_raises e m d k). }
  rewrite Hr. simpl. split; [reflexivity|]. split; [reflexivity|].
  split; [exact Hh1|].
  assert (Ht2' : get_task_bot_by_token e2 w1 token = None) by exact Ht2.
  clearbody w1.
  set (w2 := set_history (add_to_history (now e2 0) token "user" actor_name2 m2
                            (conversation_history w1)) w1).
  assert (Hr2 : r2 = Handled w2 [] (Uncaught TypeError)).
  { subst r2. rewrite Hr. simpl. unfold route. rewrite Hc2.
    unfold natural_language. cbv zeta.
    rewrite Ht2'. unfold converse. rewrite Hfile2. cbv zeta. simpl. fold w2.
    rewrite (get_history_context_poisoned e2 w2 token p); [reflexivity| |].
    - unfold w2. simpl. rewrite add_to_history_same, Hh1, last_n_app.
      rewrite last_n_last_n by (done || (unfold MAX_HISTORY_MESSAGES; lia)).
      rewrite <- app_assoc.
      destruct (last_n_keeps_end MAX_HISTORY_MESSAGES
                  (history_of token (conversation_history w))
                  ([p] ++ [Message "user" actor_name2 m2 (now e2 0)])) as [front ->];
        [simpl; unfold MAX_HISTORY_MESSAGES; lia|]. set_solver.
    - by apply (numeric_message_raises e2 m d k). }
  by rewrite Hr2.
Qed.

Lemma numeric_message_breaks_the_turn_witness :
  let r := route sample_bots reading_env "maarten" sample_config (JDict []) (JDict [])
             "tok" "Jan" None numeric_text taskless_world in
  let r2 := route sample_bots reading_env "maarten" sample_config (JDict []) (JDict [])
              "tok" "Jan" None "hoe staat het ervoor?" (after r) in
  answer r = Uncaught TypeError
  /\ trace r = []
  /\ history_of "tok" (conversation_history (after r))
     = last_n 100 (history_of "tok" (conversation_history taskless_world)
                     ++ [Message "user" "Jan" numeric_text (now reading_env 0)])
  /\ answer r2 = Uncaught TypeError
  /\ trace r2 = [].
Proof.
  apply (numeric_message_breaks_the_turn sample_bots reading_env reading_env "maarten"
           sample_config (JDict []) (JDict []) (JDict []) (JDict []) "tok" "Jan" "Jan"
           None None numeric_text "hoe staat het ervoor?" taskless_world
           [("message", JNum 5)] 5); try reflexivity.
  discriminate.
Defined.

(** ** The comments on the card and the prompt of a turn *)

Section Comments.
Import PyStr.

Lemma len_nonneg s : 0 <= len s.
Proof. unfold len. lia. Qed.

Lemma len_slice_to i s : 0 <= i -> len (slice_to i s) <= i.
Proof.
  intros Hi. unfold slice_to, clip, len. rewrite length_take.
  destruct (i <? 0) eqn:E; [apply Z.ltb_lt in E; lia|]. lia.
Qed.

Lemma len_shorten limit text : 0 <= limit -> len (shorten limit text) <= limit + 3.
Proof.
  intros Hl. unfold shorten. destruct (limit <? len text) eqn:E.
  - rewrite len_append. pose proof (len_slice_to limit text Hl).
    change (len "...") with 3. lia.
  - apply Z.ltb_ge in E. lia.
Qed.

Lemma card_comment_fits task prefix limit text :
  0 <= limit -> len prefix + limit + 3 <= 1000 ->
  forallb comment_fits (card_comment task (prefix ++ shorten limit text)%string) = true.
Proof.
  intros Hl Hp. unfold card_comment. destruct task as [tb|]; [|reflexivity].
  destruct (_ && _); [|reflexivity]. simpl. rewrite andb_true_r.
  apply Z.leb_le. rewrite len_append. pose proof (len_shorten limit text Hl). lia.
Qed.

End Comments.

Lemma forallb_app_true {A : Type} (f : A -> bool) (l1 l2 : list A) :
  forallb f l1 = true -> forallb f l2 = true -> forallb f (l1 ++ l2) = true.
Proof. intros H1 H2. by rewrite forallb_app, H1, H2. Qed.

(** The events before the text reaches the history: messages, the download
    and the transcription. *)
Lemma heard_events (e : env) (sec token : string) (audio : option file_info)
    (message_content : string) (f : event -> bool) :
  (forall s t x r, f (SendMessage s t x r) = true) ->
  (forall u, f (Download u) = true) ->
  (forall p, f (Transcribe p) = true) ->
  forallb f
    (fst (match audio with
          | None => ([], Some message_content)
          | Some fi =>
              let announce :=
                SendMessage sec token
                  ("Audio gedetecteerd (" ++ default "audio" (fi_name fi)
                     ++ "). Transcriberen...")%string None in
              match download_nextcloud_file e (fi_url fi) with
              | None =>
                  ([announce; Download (fi_url fi);
                    SendMessage sec token "Kon audio niet downloaden." None], None)
              | Some local_path =>
                  match transcribe_audio e local_path with
                  | Some transcription =>
                      if PyStr.truthy transcription then
                        ([announce; Download (fi_url fi); Transcribe local_path;
                          SendMessage sec token
                            ("**Transcriptie:**" ++ newline ++ transcription)%string None],
                         Some ("[Audio transcriptie]: " ++ transcription)%string)
                      else
                        ([announce; Download (fi_url fi); Transcribe local_path;
                          SendMessage sec token "Transcriptie mislukt." None], None)
                  | None =>
                      ([announce; Download (fi_url fi); Transcribe local_path;
                        SendMessage sec token "Transcriptie mislukt." None], None)
                  end
              end
          end : list event * option string)) = true.
Proof.
  intros Hs Hd Ht. destruct audio as [fi|]; [|reflexivity]. cbv zeta.
  destruct (download_nextcloud_file e (fi_url fi)) as [p|]; simpl;
    [|by rewrite !Hs, Hd].
  destruct (transcribe_audio e p) as [t|]; [destruct (PyStr.truthy t)|]; simpl;
    by rewrite !Hs, Hd, Ht.
Qed.

(** For texts of ASCII characters, whose characters are the code points that
    [len] and the slices of the code count (the name, the text of the message,
    a transcription and the answer of Claude): with a name of at most 991
    characters, no comment that a turn writes on the card of the task is
    longer than the 1000 characters that Deck takes, neither the one with the
    text of the user nor the one with the answer of Claude, whatever their
    lengths. *)
Theorem comments_fit_the_deck_limit
    (e : env) (user : string) (cfg : bot_config) (data params : json)
    (token actor_name : string) (reply_to : option Z) (m : string)
    (task : option task_bot) (w : world) :
  PyStr.is_ascii actor_name = true ->
  PyStr.is_ascii m = true ->
  (forall path text, transcribe_audio e path = Some text -> PyStr.is_ascii text = true) ->
  (forall prompt context, PyStr.is_ascii (call_claude e prompt context) = true) ->
  PyStr.len actor_name <= 991 ->
  forallb comment_fits
    (trace (converse e user cfg data params token actor_name reply_to m task w))
  = true.
Proof.
  intros _ _ _ _ Hname. unfold converse. cbv zeta.
  match goal with
  | |- context [match snd ?h with _ => _ end] => set (heard := h)
  end.
  assert (Hheard : forallb comment_fits (fst heard) = true)
    by (apply heard_events; reflexivity).
  destruct (snd heard) as [text|]; [|exact Hheard].
  assert (Hev1 : forallb comment_fits
            (card_comment task
               ("**" ++ actor_name ++ ":** "
                  ++ shorten (1000 - (PyStr.len ("**" ++ actor_name ++ ":** ") + 3))
                       text)%string) = true).
  { set (limit := 1000 - (PyStr.len ("**" ++ actor_name ++ ":** ") + 3)).
    replace ("**" ++ actor_name ++ ":** " ++ shorten limit text)%string
      with (("**" ++ actor_name ++ ":** ") ++ shorten limit text)%string
      by (by rewrite !append_assoc).
    subst limit.
    assert (Hp : PyStr.len ("**" ++ actor_name ++ ":** ") = PyStr.len actor_name + 6).
    { rewrite !len_append. change (PyStr.len "**") with 2.
      change (PyStr.len ":** ") with 4. lia. }
    apply card_comment_fits; rewrite Hp; lia. }
  destruct (get_history_context e _ token) as [history_context|ex]; simpl trace.
  - apply forallb_app_true; [exact Hheard|].
    apply forallb_app_true; [exact Hev1|]. simpl.
    apply forallb_app_true; [|reflexivity].
    change ("**Claude AI:** " ++ shorten (1000 - 18) ?x)%string
      with ("**Claude AI:** " ++ shorten 982 x)%string.
    apply card_comment_fits; [lia|]. change (PyStr.len "**Claude AI:** ") with 15. lia.
  - by apply forallb_app_true.
Qed.

Lemma comments_fit_the_deck_limit_witness :
  PyStr.is_ascii "Jan" = true
  /\ PyStr.is_ascii very_long_text = true
  /\ PyStr.len "Jan" <= 991
  /\ forallb comment_fits
       (trace (converse sample_env "maarten" sample_config (JDict []) (JDict [])
                 "tok" "Jan" None very_long_text (Some sample_task) sample_world))
     = true.
Proof.
  assert (A1 : PyStr.is_ascii "Jan" = true) by reflexivity.
  assert (A2 : PyStr.is_ascii very_long_text = true) by (vm_compute; reflexivity).
  split; [exact A1|]. split; [exact A2|].
  split; [vm_compute; discriminate|].
  apply (comments_fit_the_deck_limit sample_env "maarten" sample_config (JDict [])
           (JDict []) "tok" "Jan" None very_long_text (Some sample_task) sample_world
           A1 A2).
  - intros path text H. discriminate H.
  - intros prompt context. reflexivity.
  - vm_compute. discriminate.
Defined.

(** A text of 1200 characters gives a comment of exactly 1000; behind a name
    of 995 characters the same text gives a comment that Deck refuses. *)
Example comment_of_a_long_text :
  comment_lengths
    (trace (converse sample_env "maarten" sample_config (JDict []) (JDict [])
              "tok" "Jan" None very_long_text (Some sample_task) sample_world))
  = [1000; 39]
  /\ PyStr.len very_long_name = 995
  /\ comment_lengths
       (trace (converse sample_env "maarten" sample_config (JDict []) (JDict [])
                 "tok" very_long_name None very_long_text (Some sample_task)
                 sample_world))
     = [2200; 39].
Proof. vm_compute. repeat split. Qed.

(** ** The prompt of a turn *)

Lemma truthy_append_l a b : PyStr.truthy a = true -> PyStr.truthy (a ++ b)%string = true.
Proof. by destruct a. Qed.

Lemma truthy_append_r a b : PyStr.truthy b = true -> PyStr.truthy (a ++ b)%string = true.
Proof. destruct a; [done|reflexivity]. Qed.

Lemma join_truthy sep (l : list string) x :
  x ∈ l -> PyStr.truthy x = true -> PyStr.truthy (join sep l) = true.
Proof.
  intros Hin Hx. induction l as [|a l IH]; [by apply not_elem_of_nil in Hin|].
  destruct l as [|b l].
  - apply elem_of_cons in Hin as [Hxa|Hnil]; [by rewrite <- Hxa|].
    by apply not_elem_of_nil in Hnil.
  - change (join sep (a :: b :: l)) with (a ++ sep ++ join sep (b :: l))%string.
    apply elem_of_cons in Hin as [->|Hin]; [by apply truthy_append_l|].
    apply truthy_append_r, truthy_append_r, IH, Hin.
Qed.

(** The context of a conversation with history is not empty. *)
Lemma get_history_context_truthy e w token c :
  history_of token (conversation_history w) <> [] ->
  get_history_context e w token = Ok c -> PyStr.truthy c = true.
Proof.
  unfold get_history_context, history_of. intros Hne.
  destruct (conversation_history w !! token) as [[|m msgs]|]; try done.
  destruct (render_messages e _) as [rendered|ex]; [|discriminate].
  simpl. intros [= <-].
  apply (join_truthy _ _ "=== GESPREKSGESCHIEDENIS ==="); [set_solver|reflexivity].
Qed.

Lemma add_to_history_nonempty at_time token role0 name0 text h :
  history_of token (add_to_history at_time token role0 name0 text h) <> [].
Proof.
  rewrite add_to_history_same.
  destruct (last_n_keeps_end (MAX_HISTORY_MESSAGES * 2) (history_of token h)
              [Message role0 name0 text at_time]) as [front ->];
    [simpl; unfold MAX_HISTORY_MESSAGES; lia|].
  by destruct front.
Qed.

(** Whenever a turn calls Claude, the prompt opens with the announcement of
    the history: the handler appends the text of the user to the history
    before it renders the context, so that the context is never empty and the
    bare prompt of the other branch, the name and the text alone, is never
    sent. *)
Theorem prompt_always_has_history
    (e : env) (user : string) (cfg : bot_config) (data params : json)
    (token actor_name : string) (reply_to : option Z) (m : string)
    (task : option task_bot) (w : world) :
  forallb prompt_has_history
    (trace (converse e user cfg data params token actor_name reply_to m task w))
  = true.
Proof.
  unfold converse. cbv zeta.
  match goal with
  | |- context [match snd ?h with _ => _ end] => set (heard := h)
  end.
  assert (Hheard : forallb prompt_has_history (fst heard) = true)
    by (apply heard_events; reflexivity).
  destruct (snd heard) as [text|]; [|exact Hheard].
  assert (Hev : forall t x, forallb prompt_has_history (card_comment t x) = true).
  { intros [tb|] x; [|reflexivity]. unfold card_comment. by destruct (_ && _). }
  destruct (get_history_context e _ token) as [history_context|ex] eqn:Hctx;
    cbn [trace].
  - apply get_history_context_truthy in Hctx; [|apply add_to_history_nonempty].
    rewrite Hctx, !forallb_app, Hheard, !Hev. reflexivity.
  - apply forallb_app_true; [exact Hheard|apply Hev].
Qed.

(** ** A message with a recording *)

(** When the message carries a recording with an address, the text of the
    message plays no part in the turn: the transcription takes its place.
    When the download fails or the transcription is empty, the handler
    reports it to the conversation and answers failed without touching the
    memory and without calling Claude. *)
Theorem recording_replaces_the_text
    (e : env) (user : string) (cfg : bot_config) (data params : json)
    (token actor_name : string) (reply_to : option Z) (m m' : string)
    (task : option task_bot) (w : world) (fi : file_info) :
  extract_file_info e data params = Some fi ->
  fi_type fi = "audio" ->
  fi_url fi <> EmptyString ->
  let r := converse e user cfg data params token actor_name reply_to m task w in
  r = converse e user cfg data params token actor_name reply_to m' task w
  /\ ((download_nextcloud_file e (fi_url fi) = None
       \/ exists path, download_nextcloud_file e (fi_url fi) = Some path
                       /\ (transcribe_audio e path = None
                           \/ transcribe_audio e path = Some EmptyString)) ->
      after r = w
      /\ answer r = Response 200 "status" "failed"
      /\ existsb is_call_claude (trace r) = false
      /\ exists notice,
           last (sent_texts (trace r)) = Some notice
           /\ (notice = "Kon audio niet downloaden."
               \/ notice = "Transcriptie mislukt.")).
Proof.
  intros Hfile Hty Hurl r. subst r. unfold converse. rewrite Hfile, Hty.
  rewrite (truthy_nonempty _ Hurl). change (("audio" =? "audio")%string && true) with true.
  cbv iota zeta.
  split.
  - destruct (download_nextcloud_file e (fi_url fi)) as [p|]; [|reflexivity].
    destruct (transcribe_audio e p) as [t|]; [|reflexivity].
    destruct (PyStr.truthy t); reflexivity.
  - intros [Hd|(p & Hd & [Ht|Ht])]; rewrite Hd; try rewrite Ht; simpl;
      (split; [reflexivity|]); (split; [reflexivity|]); (split; [reflexivity|]);
      eexists; (split; [reflexivity|]); auto.
Qed.

Lemma recording_replaces_the_text_witness :
  let e := audio_env false None in
  let fi := FileInfo "https://cloud.example.com/f/12" (Some "memo.ogg") "audio" in
  let r := converse e "maarten" sample_config (JDict []) (JDict []) "tok" "Jan" None
             "luister even" (Some sample_task) sample_world in
  r = converse e "maarten" sample_config (JDict []) (JDict []) "tok" "Jan" None
        "of niet" (Some sample_task) sample_world
  /\ ((download_nextcloud_file e (fi_url fi) = None
       \/ exists path, download_nextcloud_file e (fi_url fi) = Some path
                       /\ (transcribe_audio e path = None
                           \/ transcribe_audio e path = Some EmptyString)) ->
      after r = sample_world
      /\ answer r = Response 200 "status" "failed"
      /\ existsb is_call_claude (trace r) = false
      /\ exists notice,
           last (sent_texts (trace r)) = Some notice
           /\ (notice = "Kon audio niet downloaden."
               \/ notice = "Transcriptie mislukt.")).
Proof.
  intros e fi.
  apply (recording_replaces_the_text e "maarten" sample_config (JDict []) (JDict [])
           "tok" "Jan" None "luister even" "of niet" (Some sample_task) sample_world fi);
    [reflexivity|reflexivity|discriminate].
Defined.

(** A recording that is transcribed: the history takes the transcription, not
    the text of the message. *)
Example transcribed_recording :
  let r := converse (audio_env true (Some "bel de klant")) "maarten" sample_config
             (JDict []) (JDict []) "tok" "Jan" None "luister even" None
             (fresh_world ∅) in
  map content (history_of "tok" (conversation_history (after r)))
  = ["[Audio transcriptie]: bel de klant"; "Ik ga ermee aan de slag."].
Proof. vm_compute. reflexivity. Qed.

(** ** The limit of the elision *)

(** For a text of ASCII characters, whose characters are the code points that
    [len] and the slices of the code count: for a limit of at least 22
    characters the result of [truncate_message] is never longer than the
    limit.  With a limit of 20 or 21 the two halves have
    no character, and [content[-0:]] is the whole text: a longer text comes
    back whole, behind the marker. *)
Theorem truncate_message_limits (content : string) (max_length : Z) :
  PyStr.is_ascii content = true ->
  20 <= max_length ->
  let out := truncate_message content max_length in
  (22 <= max_length -> PyStr.len out <= max_length)
  /\ (max_length <= 21 -> max_length < PyStr.len content ->
      out = (elision_marker ++ content)%string).
Proof.
  intros _ Hmin out. subst out. unfold truncate_message.
  destruct (PyStr.len content <=? max_length) eqn:E.
  - apply Z.leb_le in E. split; [intros _; exact E|lia].
  - apply Z.leb_gt in E. split.
    + intros Hmax. rewrite !len_append.
      change (PyStr.len elision_marker) with 18.
      unfold PyStr.slice_to, PyStr.slice_from, PyStr.clip, PyStr.len in *.
      rewrite length_take, length_drop_string.
      assert (Hhalf : 1 <= (max_length - 20) / 2) by (apply Z.div_le_lower_bound; lia).
      assert (Hup : 2 * ((max_length - 20) / 2) <= max_length - 20)
        by (apply Z.mul_div_le; lia).
      destruct ((max_length - 20) / 2 <? 0) eqn:E1; [apply Z.ltb_lt in E1; lia|].
      destruct (- ((max_length - 20) / 2) <? 0) eqn:E2; [|apply Z.ltb_ge in E2; lia].
      lia.
    + intros Hmax _.
      assert (Hhalf : (max_length - 20) / 2 = 0) by (apply Z.div_small; lia).
      rewrite Hhalf. unfold PyStr.slice_to, PyStr.slice_from, PyStr.clip.
      change (- 0) with 0. change (0 <? 0) with false. cbv iota.
      replace (Z.to_nat (Z.min (PyStr.len content) 0)) with 0%nat
        by (unfold PyStr.len; lia).
      reflexivity.
Qed.

Lemma truncate_message_limits_witness :
  PyStr.is_ascii long_text = true
  /\ PyStr.len (truncate_message long_text 100) <= 100
  /\ truncate_message long_text 21 = (elision_marker ++ long_text)%string.
Proof.
  assert (HA : PyStr.is_ascii long_text = true) by (vm_compute; reflexivity).
  split; [exact HA|]. split.
  - apply (proj1 (truncate_message_limits long_text 100 HA ltac:(lia))). lia.
  - apply (proj2 (truncate_message_limits long_text 21 HA ltac:(lia))); [lia|].
    vm_compute. reflexivity.
Defined.

(** ** The keys of the memory *)

Lemma last_segment_no_slash s : PyStr.contains "/" (last_segment s) = false.
Proof.
  induction s as [|c r IH]; [reflexivity|].
  cbn [last_segment]. destruct (PyStr.contains "/" r) eqn:Hr; [exact IH|].
  destruct (Ascii.eqb c "/") eqn:Hc; [exact Hr|].
  cbn [PyStr.contains PyStr.startswith]. rewrite Hr, Ascii.eqb_sym, Hc. reflexivity.
Qed.

(** The token of an activity is what follows the last slash of the target
    id. *)
Lemma read_envelope_token data env token :
  read_envelope data = Ok (Some env) -> env_token env = Some token ->
  PyStr.contains "/" token = false.
Proof.
  unfold read_envelope. intros H Ht.
  destruct (py_get data "type" JNull) as [[| | |ty| |]|ex]; simpl in H; try discriminate.
  destruct (_ || _); [|discriminate].
  destruct (py_get data "actor" _) as [actor|]; simpl in H; [|discriminate].
  destruct (py_get data "object" _) as [obj|]; simpl in H; [|discriminate].
  destruct (py_get data "target" _) as [target|]; simpl in H; [|discriminate].
  destruct (py_get obj "content" _) as [raw|]; simpl in H; [|discriminate].
  destruct (py_get obj "id" _) as [obj_id|]; simpl in H; [|discriminate].
  destruct (id_tail obj_id) as [message_id|]; simpl in H; [|discriminate].
  destruct (py_get target "id" _) as [target_id|]; simpl in H; [|discriminate].
  destruct (id_tail target_id) as [tok|] eqn:Htail; simpl in H; [|discriminate].
  destruct (py_get actor "name" _) as [actor_name|]; simpl in H; [|discriminate].
  destruct (py_get actor "type" _) as [actor_type|]; simpl in H; [|discriminate].
  injection H as <-. simpl in Ht. subst tok.
  unfold id_tail in Htail. destruct (json_truthy target_id); [|discriminate].
  destruct target_id; try discriminate. injection Htail as <-.
  apply last_segment_no_slash.
Qed.

Lemma handle_webhook_token bots e user req w :
  after (handle_webhook bots e user req w) = w
  \/ exists token actor_name,
       plain_token token
       /\ change e token actor_name w (after (handle_webhook bots e user req w)).
Proof.
  unfold handle_webhook.
  destruct (bots !! user) as [cfg|]; [|by left].
  destruct (verify_signature _ _ _ _) as [[|]|ex]; [|by left|by left].
  destruct (json_loads e (body req)) as [data|]; [|by left].
  destruct (read_envelope data) as [[env|]|ex] eqn:Hr; [|by left|by left].
  destruct (match env_actor_type env with
            | JStr ty => String.eqb ty "Application"
            | _ => false
            end); [by left|].
  destruct (_ || _) eqn:Hc; [by left|].
  destruct (parse_content e (env_content env)) as [message_content params].
  destruct message_content as [| | |text| |]; try by left.
  right. apply orb_false_elim in Hc as [_ Htok]. apply negb_false_iff in Htok.
  destruct (env_token env) as [token|] eqn:Ht; [|discriminate]. simpl in *.
  eexists token, _. split; [|apply route_change].
  split; [by intros ->|exact (read_envelope_token _ _ _ Hr Ht)].
Qed.

Lemma change_keys e token actor_name w w' k :
  change e token actor_name w w' -> in_memory w' k -> k = token \/ in_memory w k.
Proof.
  intros Hc Hk. destruct (decide (k = token)) as [->|Hne]; [by left|right].
  unfold in_memory in *. destruct Hc; simpl in *; try done.
  - by rewrite lookup_delete_ne in Hk.
  - by rewrite add_key_fact_lookup_ne in Hk.
  - by rewrite lookup_insert_ne in Hk.
  - by rewrite add_to_history_lookup_ne in Hk.
  - by rewrite !add_to_history_lookup_ne in Hk.
Qed.

(** Every key under which a process that started with an empty memory holds a
    history or key facts is a token that the handler accepted: a text that is
    not empty and has no slash, the last segment of the target id of a signed
    activity. *)
Theorem memory_keys_are_tokens
    (bots : gmap string bot_config) (requests : list (env * string * request))
    (tasks : gmap string task_bot) (token : string) :
  in_memory (serve bots requests (fresh_world tasks)) token -> plain_token token.
Proof.
  assert (H : forall w0, (forall k, in_memory w0 k -> plain_token k) ->
                         forall k, in_memory (serve bots requests w0) k -> plain_token k).
  { induction requests as [|[[e user] req] rest IH]; intros w0 Hw0; [exact Hw0|].
    apply IH. intros k Hk.
    destruct (handle_webhook_token bots e user req w0) as [Hsame|(tok & actor & Hp & Hc)].
    - rewrite Hsame in Hk. by apply Hw0.
    - destruct (change_keys _ _ _ _ _ _ Hc Hk) as [->|Hin]; [exact Hp|by apply Hw0]. }
  apply H. intros k [[x Hx]|[x Hx]]; simpl in Hx; by rewrite lookup_empty in Hx.
Qed.

Lemma memory_keys_are_tokens_witness :
  in_memory (serve sample_bots [(webhook_env, "maarten", signed_request)]
               (fresh_world ∅)) "tok"
  /\ plain_token "tok".
Proof.
  assert (H : in_memory (serve sample_bots [(webhook_env, "maarten", signed_request)]
                           (fresh_world ∅)) "tok").
  { left. vm_compute. eexists. reflexivity. }
  split; [exact H|].
  exact (memory_keys_are_tokens sample_bots [(webhook_env, "maarten", signed_request)]
           ∅ "tok" H).
Defined.

(** ** The stack for finished cards *)




(** ** The key facts in the prompt *)

Section Contains.
Import PyStr.

Lemma startswith_append p : forall s t,
  startswith p s = true -> startswith p (s ++ t)%string = true.
Proof.
  induction p as [|a p IH]; intros [|b s] t H; try done.
  change (startswith (String a p) (String b (s ++ t)%string) = true).
  cbn [startswith] in *. destruct (Ascii.eqb a b); [by apply IH|done].
Qed.

Lemma startswith_refl p : startswith p p = true.
Proof. induction p as [|a p IH]; [done|]. cbn [startswith]. by rewrite Ascii.eqb_refl. Qed.

Lemma contains_here p s : startswith p s = true -> contains p s = true.
Proof. intros H. destruct s; cbn [contains]; by rewrite H. Qed.

Lemma contains_append_l p s t : contains p s = true -> contains p (s ++ t)%string = true.
Proof.
  induction s as [|b s IH]; intros H.
  - cbn [contains] in H. rewrite orb_false_r in H.
    apply contains_here. change (EmptyString ++ t)%string with t.
    destruct p; [by destruct t|discriminate].
  - change (contains p (String b (s ++ t)%string) = true).
    cbn [contains] in *. apply orb_true_iff in H as [H|H].
    + apply (startswith_append _ _ t) in H.
      change (String b s ++ t)%string with (String b (s ++ t)%string) in H.
      by rewrite H.
    + by rewrite (IH H), orb_true_r.
Qed.

Lemma contains_append_r p s t : contains p t = true -> contains p (s ++ t)%string = true.
Proof.
  intros H. induction s as [|b s IH]; [exact H|].
  change (contains p (String b (s ++ t)%string) = true).
  cbn [contains]. by rewrite IH, orb_true_r.
Qed.

Lemma contains_refl p : contains p p = true.
Proof. apply contains_here, startswith_refl. Qed.

Lemma join_contains p sep (l : list string) x :
  x ∈ l -> contains p x = true -> contains p (join sep l) = true.
Proof.
  intros Hin Hx. induction l as [|a l IH]; [by apply not_elem_of_nil in Hin|].
  destruct l as [|b l].
  - apply elem_of_cons in Hin as [Hxa|Hnil]; [by rewrite <- Hxa|].
    by apply not_elem_of_nil in Hnil.
  - change (join sep (a :: b :: l)) with (a ++ sep ++ join sep (b :: l))%string.
    apply elem_of_cons in Hin as [Hxa|Hin']; [apply contains_append_l; by rewrite <- Hxa|].
    apply contains_append_r, contains_append_r, IH, Hin'.
Qed.

Lemma numbered_contains fact (facts : list string) : forall i,
  fact ∈ facts -> exists line, line ∈ numbered i facts /\ contains fact line = true.
Proof.
  induction facts as [|f facts IH]; intros i Hin; [by apply not_elem_of_nil in Hin|].
  apply elem_of_cons in Hin as [Heq|Hin'].
  - exists (pretty i ++ ". " ++ f)%string. split; [simpl; set_solver|].
    apply contains_append_r, contains_append_r. rewrite Heq. apply contains_refl.
  - destruct (IH (S i) Hin') as (line & Hl & Hc). exists line.
    split; [simpl; set_solver|exact Hc].
Qed.

(** The context names every key fact of the conversation. *)
Lemma get_history_context_facts e w token c fact :
  fact ∈ get_key_facts token (key_facts w) ->
  get_history_context e w token = Ok c -> contains fact c = true.
Proof.
  intros Hin. unfold get_history_context.
  destruct (numbered_contains fact _ 1 Hin) as (line & Hl & Hc).
  destruct (get_key_facts token (key_facts w)) as [|f facts] eqn:Hf;
    [by apply not_elem_of_nil in Hin|].
  set (lines := ["=== BELANGRIJKE FEITEN (onthoud dit) ==="] ++ numbered 1 (f :: facts)
                  ++ [EmptyString]) in *.
  assert (Hline : line ∈ lines) by (unfold lines; set_solver).
  assert (Hno : contains fact (join newline (lines ++ ["=== Nieuw gesprek ==="])) = true).
  { apply (join_contains _ _ _ line); [set_solver|exact Hc]. }
  cbv zeta.
  change (match lines with
          | [] => EmptyString
          | _ :: _ => join newline (lines ++ ["=== Nieuw gesprek ==="])
          end) with (join newline (lines ++ ["=== Nieuw gesprek ==="])).
  clearbody lines.
  destruct (conversation_history w !! token) as [[|m msgs]|].
  - intros [= <-]. exact Hno.
  - destruct (render_messages e _) as [rendered|ex]; [|discriminate].
    simpl. intros [= <-]. apply (join_contains _ _ _ line); [set_solver|exact Hc].
  - intros [= <-]. exact Hno.
Qed.

End Contains.

(** Whenever a turn calls Claude, every key fact of the conversation stands in
    the prompt. *)
Theorem key_facts_reach_the_prompt
    (e : env) (user : string) (cfg : bot_config) (data params : json)
    (token actor_name : string) (reply_to : option Z) (m : string)
    (task : option task_bot) (w : world)
    (fact prompt wdir cdir bot_user erp_user : string) (task_context : option task_bot) :
  fact ∈ get_key_facts token (key_facts w) ->
  CallClaude prompt wdir cdir bot_user erp_user task_context
    ∈ trace (converse e user cfg data params token actor_name reply_to m task w) ->
  PyStr.contains fact prompt = true.
Proof.
  intros Hfact. unfold converse. cbv zeta.
  match goal with
  | |- context [match snd ?h with _ => _ end] => set (heard := h)
  end.
  pose (quiet := fun ev => negb (is_call_claude ev)).
  assert (Hquiet : forall tr, forallb quiet tr = true ->
            CallClaude prompt wdir cdir bot_user erp_user task_context ∉ tr).
  { intros tr Htr Hin. rewrite forallb_forall in Htr.
    apply list_elem_of_In in Hin. by specialize (Htr _ Hin). }
  assert (Hheard : forallb quiet (fst heard) = true)
    by (apply heard_events; reflexivity).
  assert (Hev : forall t x, forallb quiet (card_comment t x) = true).
  { intros [tb|] x; [|reflexivity]. unfold card_comment. by destruct (_ && _). }
  destruct (snd heard) as [text|]; [|intros Hin; by apply Hquiet in Hin].
  destruct (get_history_context e _ token) as [history_context|ex] eqn:Hctx;
    cbn [trace].
  - pose proof Hctx as Htruthy.
    apply get_history_context_truthy in Htruthy; [|apply add_to_history_nonempty].
    apply (get_history_context_facts _ _ _ _ fact) in Hctx; [|exact Hfact].
    rewrite Htruthy. rewrite !elem_of_app.
    intros [Hin|[Hin|[Hin|[Hin|Hin]]]];
      try (by apply Hquiet in Hin); try (by (apply Hquiet in Hin; [|apply Hev])).
    apply elem_of_cons in Hin as [Heq|Hin]; [discriminate|].
    apply elem_of_cons in Hin as [Heq|Hin]; [|by apply not_elem_of_nil in Hin].
    injection Heq as -> _ _ _ _ _.
    do 5 apply contains_append_r. by apply contains_append_l.
  - rewrite elem_of_app. intros [Hin|Hin]; apply Hquiet in Hin; auto.
Qed.

Lemma key_facts_reach_the_prompt_witness :
  let prompt :=
    ("Hieronder staat de gespreksgeschiedenis gevolgd door een nieuw bericht."
       ++ newline
       ++ "Houd rekening met de context van eerdere berichten bij je antwoord."
       ++ newline ++ newline
       ++ "=== BELANGRIJKE FEITEN (onthoud dit) ===" ++ newline
       ++ "1. de klant heet Jansen" ++ newline
       ++ "2. offerte voor vrijdag" ++ newline ++ newline
       ++ "=== GESPREKSGESCHIEDENIS ===" ++ newline
       ++ "**[06/01 10:00] Jan:** wat weet je nog?" ++ newline ++ newline
       ++ "=== NIEUW BERICHT ===" ++ newline
       ++ "[Jan]: wat weet je nog?")%string in
  PyStr.contains "offerte voor vrijdag" prompt = true.
Proof.
  intros prompt.
  apply (key_facts_reach_the_prompt sample_env "maarten" sample_config (JDict [])
           (JDict []) "tok" "Jan" None "wat weet je nog?" None facts_world
           "offerte voor vrijdag" prompt "/home/maarten" "/home/maarten/.claude"
           "Maarten" "maarten@example.com" None).
  - vm_compute. set_solver.
  - vm_compute. set_solver.
Defined.

(** ** The signature of a message of the bot *)

(** [send_message] signs as [verify_signature] checks: with a secret that is
    not empty, the signature that the bot puts on a message is accepted by
    [verify_signature] for the same secret, the nonce of the request and the
    text of the message; it has 64 characters, and it covers the nonce and the
    text only, neither the conversation nor the message replied to. *)
Theorem sent_signature_verifies
    (secret token message : string) (reply_to : option Z) (random_str : string) :
  secret <> EmptyString ->
  let o := send_message_request secret token message reply_to random_str in
  verify_signature secret (br_random o) message (br_signature o) = Ok true
  /\ String.length (br_signature o) = 64%nat
  /\ forall token' reply_to',
       br_signature (send_message_request secret token' message reply_to' random_str)
       = br_signature o.
Proof.
  intros Hs o. subst o. cbn [send_message_request br_random br_signature].
  split; [|split; [apply length_hmac_hexdigest|reflexivity]].
  rewrite verify_signature_ascii by (done || apply hex_is_ascii).
  unfold Sha256.hmac_hexdigest. by rewrite hex_lower, String.eqb_refl.
Qed.

Lemma sent_signature_verifies_witness :
  let o := send_message_request "s3cret" "tok" "Hallo Jan" (Some 57) "0f1e2d" in
  verify_signature "s3cret" (br_random o) "Hallo Jan" (br_signature o) = Ok true.
Proof.
  exact (proj1 (sent_signature_verifies "s3cret" "tok" "Hallo Jan" (Some 57) "0f1e2d"
                  ltac:(discriminate))).
Defined.
